(** * FloatChat: query-intent extraction, plot classification and the
      lightweight pipeline

    A shallow embedding of
      - [src/sql_query_generator.py]   (SQLQueryGenerator),
      - [src/backend/lightweight_plot_generator.py] (LightweightPlotGenerator),
      - [src/floatchat_bot.py]         (FloatChatBot),
      - [src/lightweight_pipeline.py]  (LightweightFloatChatPipeline).

    Conventions.
      - Python [str] is [string]; the texts are taken to be ASCII, so
        [str.lower] and [str.title] act on the letters A-Z / a-z only.
      - Python [float] scores are rationals ([Q]); comparisons are the exact
        ones.  A float that may be NaN (a reduction over an all-null column)
        is an [option Q].  The mean of a column is the double that pandas
        computes, a rounded value: it is taken from the machine ([Mean]).
      - A call that either returns or raises is an [outcome]; the pipeline
        runs in the monad [M], which also records the stages it enters.
      - Dictionaries whose order matters (the score dictionaries, iterated
        with [items()] and sorted stably) are association lists; the
        dictionaries with a fixed set of keys are records.
      - A [print] of a line that holds a text of the run (the user's text,
        the generated query, the message of an exception or of a plot
        function) is a call of the console, which returns or raises
        (UnicodeEncodeError, when the stream cannot encode the text).  The
        lines of fixed text, labels and numbers are left out, and so is
        the line of the classifier's handler, which holds the message of
        the library. *)

From Stdlib Require Import List String Ascii Bool Arith Lia QArith Lqa Permutation Sorted.
From Stdlib Require Import DecimalString.
Import ListNotations.
Local Open Scope string_scope.
Local Open Scope list_scope.

(* ===================================================================== *)
(** ** Text primitives *)
(* ===================================================================== *)

Module Text.

Definition is_upper (c : ascii) : bool :=
  let n := nat_of_ascii c in (65 <=? n)%nat && (n <=? 90)%nat.

Definition is_lower (c : ascii) : bool :=
  let n := nat_of_ascii c in (97 <=? n)%nat && (n <=? 122)%nat.

Definition lower_char (c : ascii) : ascii :=
  if is_upper c then ascii_of_nat (nat_of_ascii c + 32) else c.

Definition upper_char (c : ascii) : ascii :=
  if is_lower c then ascii_of_nat (nat_of_ascii c - 32) else c.

(** [s.lower()] *)
Fixpoint lower (s : string) : string :=
  match s with
  | EmptyString => EmptyString
  | String c t => String (lower_char c) (lower t)
  end.

(** [s.title()]: a letter that follows a letter is lowercased, any other
    letter is uppercased. *)
Fixpoint title_from (prev_cased : bool) (s : string) : string :=
  match s with
  | EmptyString => EmptyString
  | String c t =>
      if is_upper c || is_lower c
      then String (if prev_cased then lower_char c else upper_char c)
                  (title_from true t)
      else String c (title_from false t)
  end.

Definition title (s : string) : string := title_from false s.

(** [needle in hay] *)
Fixpoint contains (needle hay : string) : bool :=
  if prefix needle hay then true
  else match hay with
       | EmptyString => false
       | String _ t => contains needle t
       end.

(** [any(word in text for word in words)] *)
Definition any_in (words : list string) (text : string) : bool :=
  existsb (fun w => contains w text) words.

(** [x in xs] for a list of strings *)
Definition mem (x : string) (xs : list string) : bool :=
  existsb (String.eqb x) xs.

End Text.

(* ===================================================================== *)
(** ** Numbers *)
(* ===================================================================== *)

Module Num.

Definition Qltb (x y : Q) : bool := negb (Qle_bool y x).

(** Python's [max(a, b)]: the first argument unless the second is greater. *)
Definition pymax (a b : Q) : Q := if Qltb a b then b else a.

(** [max(values)] of a non-empty sequence, first maximal element. *)
Definition max_list (x : Q) (xs : list Q) : Q := fold_left pymax xs x.

Definition pymin (a b : Q) : Q := if Qltb b a then b else a.

Definition min_list (x : Q) (xs : list Q) : Q := fold_left pymin xs x.

Definition in_unit (x : Q) : Prop := 0 <= x /\ x <= 1.

End Num.

(* ===================================================================== *)
(** ** Calls that return or raise *)
(* ===================================================================== *)

Inductive outcome (A : Type) : Type :=
| Returned (a : A)
| Raised (e : string).

Arguments Returned {A} a.
Arguments Raised {A} e.

Definition obind {A B} (o : outcome A) (k : A -> outcome B) : outcome B :=
  match o with
  | Returned a => k a
  | Raised e => Raised e
  end.

Declare Scope outcome_scope.
Delimit Scope outcome_scope with outcome.
Notation "'let*' x ':=' o 'in' k" := (obind o (fun x => k))
  (at level 10, x pattern, o at level 100, k at level 200) : outcome_scope.

(** [print] of a line that holds the text: the call returns, or it raises
    when the stream cannot encode the line. *)
Definition Console := string -> outcome unit.

(* ===================================================================== *)
(** ** Score dictionaries *)
(* ===================================================================== *)

Module Dict.

Definition t := list (string * Q).

Fixpoint get (d : t) (k : string) : option Q :=
  match d with
  | [] => None
  | (k', v) :: r => if String.eqb k k' then Some v else get r k
  end.

(** [d[k] = v]: an existing key keeps its position, a new key goes last. *)
Fixpoint set (d : t) (k : string) (v : Q) : t :=
  match d with
  | [] => [(k, v)]
  | (k', v') :: r =>
      if String.eqb k k' then (k', v) :: r else (k', v') :: set r k v
  end.

Definition keys (d : t) : list string := map fst d.
Definition values (d : t) : list Q := map snd d.

(** [d[k]], which raises KeyError on a missing key. *)
Definition item (d : t) (k : string) : outcome Q :=
  match get d k with
  | Some v => Returned v
  | None => Raised ("KeyError: " ++ k)
  end.

(** [d.get(k, default)] *)
Definition get_default (d : t) (k : string) (default : Q) : Q :=
  match get d k with
  | Some v => v
  | None => default
  end.

(** [sorted(items, key=lambda x: x[1], reverse=True)]: stable, so items of
    equal score keep their order. *)
Fixpoint insert_desc (x : string * Q) (l : list (string * Q)) : list (string * Q) :=
  match l with
  | [] => [x]
  | y :: r => if Num.Qltb (snd x) (snd y) then y :: insert_desc x r else x :: y :: r
  end.

Definition sorted_desc (l : list (string * Q)) : list (string * Q) :=
  fold_right insert_desc [] l.

End Dict.

(* ===================================================================== *)
(** ** Tables (pandas DataFrame) *)
(* ===================================================================== *)

Module Frame.

Import Text Num.
Local Open Scope outcome_scope.

(** A Python float that may be NaN. *)
Definition pyfloat := option Q.

(** A cell of a numeric column; [None] is NULL / NaN / NaT.  A timestamp is
    the number it denotes. *)
Definition cell := option Q.

(** A table, row by row, as a result set is read. *)
Record DataFrame := {
  columns : list string;
  rows : list (list cell)
}.

(** [df.empty]: one of the two axes has length 0. *)
Definition empty (df : DataFrame) : bool :=
  match columns df, rows df with
  | [], _ => true
  | _, [] => true
  | _, _ => false
  end.

(** [len(df)] *)
Definition len (df : DataFrame) : nat := List.length (rows df).

(** [df.shape] *)
Definition shape (df : DataFrame) : nat * nat :=
  (List.length (rows df), List.length (columns df)).

(** [c in df.columns] *)
Definition has_column (c : string) (df : DataFrame) : bool := mem c (columns df).

(** [mapping.get(c, c)] *)
Fixpoint renamed (mapping : list (string * string)) (c : string) : string :=
  match mapping with
  | [] => c
  | (old, new) :: r => if String.eqb c old then new else renamed r c
  end.

(** [df.rename(columns=mapping)] *)
Definition rename (mapping : list (string * string)) (df : DataFrame) : DataFrame :=
  {| columns := map (renamed mapping) (columns df); rows := rows df |}.

Fixpoint positions (c : string) (cols : list string) (i : nat) : list nat :=
  match cols with
  | [] => []
  | c' :: r => if String.eqb c c' then i :: positions c r (S i) else positions c r (S i)
  end.

(** [df[c]] used as a Series.  A missing label raises KeyError; when several
    columns carry the label the selection is a frame, whose reductions are
    not scalars, and the conversions applied to them raise. *)
Definition column (c : string) (df : DataFrame) : outcome (list cell) :=
  match positions c (columns df) 0 with
  | [] => Raised ("KeyError: " ++ c)
  | [i] => Returned (map (fun r => nth i r None) (rows df))
  | _ => Raised "TypeError: cannot convert the series to a scalar"
  end.

(** [series.dropna()] *)
Fixpoint dropna (col : list cell) : list Q :=
  match col with
  | [] => []
  | Some v :: r => v :: dropna r
  | None :: r => dropna r
  end.

(** [series.isna().all()] *)
Definition all_na (col : list cell) : bool :=
  match dropna col with [] => true | _ => false end.

(** [float(series.min())], NaN when no value is present. *)
Definition col_min (col : list cell) : pyfloat :=
  match dropna col with
  | [] => None
  | x :: xs => Some (min_list x xs)
  end.

Definition col_max (col : list cell) : pyfloat :=
  match dropna col with
  | [] => None
  | x :: xs => Some (max_list x xs)
  end.

(** The mean of the values of a column as pandas computes it in double
    precision: a rounded value, which need not lie between the least and
    the greatest of them. *)
Definition Mean := list Q -> Q.

(** [float(series.mean())], NaN when no value is present. *)
Definition col_mean (mean : Mean) (col : list cell) : pyfloat :=
  match dropna col with
  | [] => None
  | x :: xs => Some (mean (x :: xs))
  end.

(** [np.clip(x, lo, hi)] *)
Definition clip (lo hi : Q) (x : Q) : Q :=
  if Qltb x lo then lo else if Qltb hi x then hi else x.

End Frame.

(* ===================================================================== *)
(** ** SQLQueryGenerator *)
(* ===================================================================== *)

Module SQLQueryGenerator.

Import Text.

Record Metadata := {
  query_type : string;
  location : option string;
  parameters : list string;
  depth_range : option string;
  time_constraint : bool;
  spatial_query : bool;
  error : option string
}.

Definition locations : list string :=
  ["mumbai"; "chennai"; "kolkata"; "delhi"; "bangalore"; "goa"; "kerala"].

Definition regions : list string :=
  ["arabian sea"; "bay of bengal"; "indian ocean"].

(** [for name in names: if name in text: ...; break] *)
Definition first_match (names : list string) (text : string) : option string :=
  find (fun name => contains name text) names.

(** "Detect query type" *)
Definition detect_query_type (sql_lower : string) : string * bool :=
  if contains "order by pressure_dbar" sql_lower then ("profile", false)
  else if contains "order by date_time" sql_lower then ("time_series", false)
  else if contains "st_dwithin" sql_lower || contains "st_distance" sql_lower
       then ("spatial", true)
  else if contains "float_id" sql_lower then ("float_specific", false)
  else ("general", false).

(** [_extract_query_metadata(self, sql_query, user_query)] *)
Definition _extract_query_metadata (sql_query user_query : string) : Metadata :=
  let sql_lower := lower sql_query in
  let user_lower := lower user_query in
  let '(qtype, spatial) := detect_query_type sql_lower in
  let params :=
    (if contains "temperature" user_lower then ["temperature"] else []) ++
    (if contains "salinity" user_lower then ["salinity"] else []) ++
    (if contains "pressure" user_lower || contains "depth" user_lower
     then ["pressure"] else []) in
  let params := match params with [] => ["temperature"] | _ => params end in
  let loc := match first_match locations user_lower with
             | Some l => Some (title l)
             | None => None
             end in
  let loc := match first_match regions user_lower with
             | Some r => Some (title r)
             | None => loc
             end in
  let depth :=
    if contains "surface" user_lower then Some "surface"
    else if contains "deep" user_lower then Some "deep"
    else if contains "profile" user_lower then Some "profile"
    else None in
  {| query_type := qtype; location := loc; parameters := params;
     depth_range := depth; time_constraint := false;
     spatial_query := spatial; error := None |}.

(** The language-model client as [generate_sql_query] uses it: for a user
    query, the text of the completion after [strip()] and
    [_clean_sql_query], or the exception raised on the way. *)
Definition Client := string -> outcome string.

Definition fallback_query : string :=
  "SELECT * FROM argo_floats ORDER BY date_time DESC LIMIT 1000;".

(** [generate_sql_query(self, user_query)] *)
Definition generate_sql_query (client : Client) (user_query : string)
    : string * Metadata :=
  match client user_query with
  | Returned sql_query => (sql_query, _extract_query_metadata sql_query user_query)
  | Raised e =>
      (fallback_query,
       {| query_type := "fallback"; location := None;
          parameters := ["temperature"; "salinity"];
          depth_range := None; time_constraint := false;
          spatial_query := false; error := Some e |})
  end.

End SQLQueryGenerator.

(* ===================================================================== *)
(** ** LightweightPlotGenerator: the plot-intent classifier *)
(* ===================================================================== *)

Module PlotGenerator.

Import Text Num.
Local Open Scope Q_scope.
Local Open Scope outcome_scope.

(** [self.plot_labels], the labels the model is trained on. *)
Definition plot_labels : list string :=
  ["profile"; "time_series"; "ts_diagram"; "map"; "3d_scatter"; "cross_section"].

(** [plot_categories] of [classify_prompt]. *)
Definition plot_categories : list string :=
  ["profile"; "time_series"; "map"; "ts_diagram"; "3d_scatter"].

Definition default_threshold : Q := 0.3.

(** The fitted vectorizer and classifier: for a prompt, the value of
    [self.classifier.predict_proba(self.vectorizer.transform([prompt]))[0]],
    a sequence of rows of probabilities, or the exception of the call. *)
Definition Classifier := string -> outcome (list (list Q)).

(** [predictions[i].max()]; numpy raises on an empty array. *)
Definition row_max (row : list Q) : outcome Q :=
  match row with
  | [] => Raised "ValueError: zero-size array to reduction operation maximum which has no identity"
  | x :: xs => Returned (max_list x xs)
  end.

(** The loop [for i, label in enumerate(plot_categories)] that fills
    [scores]. *)
Fixpoint ml_scores (i : nat) (labels : list string) (predictions : list (list Q))
    (scores : Dict.t) : outcome Dict.t :=
  match labels with
  | [] => Returned scores
  | label :: rest =>
      let* prob := match nth_error predictions i with
                   | Some row => row_max row
                   | None => Returned 0.1
                   end in
      ml_scores (S i) rest predictions (Dict.set scores label prob)
  end.

Definition profile_words : list string :=
  ["profile"; "depth"; "vertical"; "temperature profile"; "salinity profile"].
Definition time_words : list string :=
  ["time"; "temporal"; "over time"; "series"; "trend"; "evolution"].
Definition map_words : list string :=
  ["map"; "geographic"; "spatial"; "location"; "region"; "area";
   "mumbai"; "chennai"; "goa"; "kerala"].
Definition ts_words : list string :=
  ["salinity"; "water mass"; "ts"; "t-s"; "temperature.*salinity"].
Definition scatter_words : list string :=
  ["3d"; "three"; "dimensional"; "scatter"; "visualization"; "interactive"].
Definition ocean_words : list string :=
  ["ocean"; "water"; "analysis"; "data"; "show me"; "analyze"].

Definition initial_scores : Dict.t :=
  [("profile", 0.0); ("time_series", 0.0); ("map", 0.0);
   ("ts_diagram", 0.0); ("3d_scatter", 0.0)].

(** The keyword blocks that fill [intelligent_scores], in source order. *)
Definition rule_scores (prompt_lower : string) : outcome Dict.t :=
  let s := initial_scores in
  let s := if any_in profile_words prompt_lower
           then Dict.set (Dict.set (Dict.set s "profile" 0.9) "ts_diagram" 0.7) "3d_scatter" 0.6
           else s in
  let s := if any_in time_words prompt_lower
           then Dict.set (Dict.set (Dict.set s "time_series" 0.9) "map" 0.6) "profile" 0.5
           else s in
  let s := if any_in map_words prompt_lower
           then Dict.set (Dict.set (Dict.set s "map" 0.9) "3d_scatter" 0.8) "profile" 0.6
           else s in
  let s := if any_in ts_words prompt_lower
           then Dict.set (Dict.set (Dict.set s "ts_diagram" 0.9) "profile" 0.8) "3d_scatter" 0.6
           else s in
  let s := if any_in scatter_words prompt_lower
           then Dict.set (Dict.set (Dict.set s "3d_scatter" 0.9) "profile" 0.6) "map" 0.7
           else s in
  if any_in ocean_words prompt_lower
  then
    let* a := Dict.item s "3d_scatter" in
    let s := Dict.set s "3d_scatter" (pymax a 0.7) in
    let* b := Dict.item s "profile" in
    let s := Dict.set s "profile" (pymax b 0.6) in
    let* c := Dict.item s "map" in
    Returned (Dict.set s "map" (pymax c 0.6))
  else Returned s.

(** [enhanced_scores]: the loop that combines the two score sets. *)
Definition blend (intelligent_scores scores : Dict.t) : Dict.t :=
  fold_left
    (fun enhanced plot_type =>
       let rule_score := Dict.get_default intelligent_scores plot_type 0.0 in
       let ml_score := Dict.get_default scores plot_type 0.0 in
       Dict.set enhanced plot_type (pymax rule_score (ml_score * 0.8)))
    plot_categories [].

(** [max(enhanced_scores.values())] *)
Definition max_score (enhanced : Dict.t) : outcome Q :=
  match Dict.values enhanced with
  | [] => Raised "ValueError: max() arg is an empty sequence"
  | x :: xs => Returned (max_list x xs)
  end.

(** "Always include basic visualization if no specific plots detected" *)
Definition apply_floor (enhanced : Dict.t) : outcome Dict.t :=
  let* m := max_score enhanced in
  if Qltb m 0.4
  then Returned (Dict.set (Dict.set (Dict.set enhanced "3d_scatter" 0.8) "profile" 0.7) "map" 0.6)
  else Returned enhanced.

(** [[plot for plot, score in enhanced_scores.items() if score >= threshold]] *)
Definition above_threshold (enhanced : Dict.t) (threshold : Q) : list string :=
  map fst (filter (fun kv => Qle_bool threshold (snd kv)) enhanced).

(** One round of the loop over [sorted_plots[:3]]. *)
Definition complement_step (st : list string * Dict.t) (kv : string * Q)
    : outcome (list string * Dict.t) :=
  let '(chosen_plots, enhanced) := st in
  let '(plot_type, score) := kv in
  if negb (mem plot_type chosen_plots) && Qltb 0.2 score
  then
    let* cur := Dict.item enhanced plot_type in
    Returned (chosen_plots ++ [plot_type], Dict.set enhanced plot_type (pymax cur 0.5))
  else Returned st.

Fixpoint complement_loop (st : list string * Dict.t) (l : list (string * Q))
    : outcome (list string * Dict.t) :=
  match l with
  | [] => Returned st
  | kv :: r => let* st' := complement_step st kv in complement_loop st' r
  end.

(** [[(p, enhanced_scores[p]) for p in chosen_plots]] *)
Fixpoint scored (enhanced : Dict.t) (chosen_plots : list string)
    : outcome (list (string * Q)) :=
  match chosen_plots with
  | [] => Returned []
  | p :: r =>
      let* v := Dict.item enhanced p in
      let* t := scored enhanced r in
      Returned ((p, v) :: t)
  end.

(** The selection part of [classify_prompt], from the line that computes
    [chosen_plots] to the [return], in its three phases. *)

(** The labels at or above the threshold, completed when fewer than two. *)
Definition complement_phase (enhanced : Dict.t) (threshold : Q)
    : outcome (list string * Dict.t) :=
  let chosen_plots := above_threshold enhanced threshold in
  if (List.length chosen_plots <? 2)%nat
  then complement_loop (chosen_plots, enhanced) (firstn 3 (Dict.sorted_desc enhanced))
  else Returned (chosen_plots, enhanced).

(** "Ensure we have at least one plot" *)
Definition forcing_phase (st : list string * Dict.t) : list string * Dict.t :=
  let '(chosen_plots, enhanced) := st in
  match chosen_plots with
  | [] => (["3d_scatter"; "profile"],
           Dict.set (Dict.set enhanced "3d_scatter" 0.8) "profile" 0.7)
  | _ => st
  end.

(** "Limit to reasonable number of plots (max 4 for performance)" *)
Definition limit_phase (st : list string * Dict.t) : outcome (list string * Dict.t) :=
  let '(chosen_plots, enhanced) := st in
  if (4 <? List.length chosen_plots)%nat
  then
    let* sorted_chosen := scored enhanced chosen_plots in
    Returned (map fst (firstn 4 (Dict.sorted_desc sorted_chosen)), enhanced)
  else Returned st.

Definition select_plots (enhanced : Dict.t) (threshold : Q)
    : outcome (list string * Dict.t) :=
  let* st := complement_phase enhanced threshold in
  limit_phase (forcing_phase st).

(** The blended scores before the floor is applied. *)
Definition blended_scores (self : Classifier) (prompt : string) : outcome Dict.t :=
  let* predictions := self prompt in
  let* scores := ml_scores 0 plot_categories predictions [] in
  let* intelligent_scores := rule_scores (lower prompt) in
  Returned (blend intelligent_scores scores).

(** The body of the [try] block of [classify_prompt]. *)
Definition classify_body (self : Classifier) (prompt : string) (threshold : Q)
    : outcome (list string * Dict.t) :=
  let* enhanced := blended_scores self prompt in
  let* enhanced := apply_floor enhanced in
  select_plots enhanced threshold.

Definition fallback_classification : list string * Dict.t :=
  (["3d_scatter"; "profile"; "map"],
   [("3d_scatter", 0.8); ("profile", 0.7); ("map", 0.6);
    ("ts_diagram", 0.4); ("time_series", 0.3)]).

(** [classify_prompt(self, prompt, threshold=0.3)] *)
Definition classify_prompt (self : Classifier) (prompt : string) (threshold : Q)
    : list string * Dict.t :=
  match classify_body self prompt threshold with
  | Returned r => r
  | Raised _ => fallback_classification
  end.

(** The gazetteer of [extract_location], in the order of the dictionary. *)
Definition gazetteer : list (string * list string) :=
  [("mumbai", ["mumbai"; "bombay"]);
   ("chennai", ["chennai"; "madras"]);
   ("kolkata", ["kolkata"; "calcutta"]);
   ("delhi", ["delhi"; "new delhi"]);
   ("bangalore", ["bangalore"; "bengaluru"]);
   ("goa", ["goa"]);
   ("kerala", ["kerala"; "kochi"; "cochin"]);
   ("gujarat", ["gujarat"; "ahmedabad"]);
   ("arabian sea", ["arabian sea"; "arabian"]);
   ("bay of bengal", ["bay of bengal"; "bengal bay"]);
   ("indian ocean", ["indian ocean"])].

Fixpoint lookup_location (entries : list (string * list string)) (prompt_lower : string)
    : option string :=
  match entries with
  | [] => None
  | (location, keywords) :: r =>
      if any_in keywords prompt_lower then Some (title location)
      else lookup_location r prompt_lower
  end.

(** [extract_location(self, prompt)] *)
Definition extract_location (prompt : string) : option string :=
  lookup_location gazetteer (lower prompt).

(** *** Retrieval *)

Import Frame.

(** The database as [fetch_data_from_db] uses it: connecting, the EXPLAIN
    test, [pd.read_sql_query] and the lines printed about the connection
    and the table, giving the table as the database names its columns, or
    the exception raised on the way. *)
Definition Database := string -> outcome DataFrame.

(** [pd.to_datetime(..., errors='coerce')] on one value that is present:
    the timestamp it denotes, or NaT when it denotes none. *)
Definition ToDatetime := Q -> cell.

(** The draws of numpy's generator in [_create_mock_data]: the value drawn
    for a record and a column, before clipping. *)
Definition Draws := nat -> string -> Q.

Definition column_mapping : list (string * string) :=
  [("float_id", "Float_ID");
   ("latitude", "Latitude");
   ("longitude", "Longitude");
   ("pressure_dbar", "Pressure_dbar");
   ("temperature_celsius", "Temperature_Celsius");
   ("salinity_psu", "Salinity_PSU");
   ("date_time", "Date_Time")].

Definition mock_columns : list string :=
  ["Float_ID"; "Latitude"; "Longitude"; "Pressure_dbar";
   "Temperature_Celsius"; "Salinity_PSU"; "Date_Time"].

Definition n_records : nat := 500.

Definition mock_cell (draws : Draws) (i : nat) (c : string) : cell :=
  let v := draws i c in
  if String.eqb c "Temperature_Celsius" then Some (clip 2 30 v)
  else if String.eqb c "Salinity_PSU" then Some (clip 32 37 v)
  else if String.eqb c "Pressure_dbar" then Some (clip 0 2000 v)
  else Some v.

(** [_create_mock_data(self)] *)
Definition _create_mock_data (draws : Draws) : DataFrame :=
  {| columns := mock_columns;
     rows := map (fun i => map (mock_cell draws i) mock_columns) (seq 0 n_records) |}.

(** The cell [i] of a row, converted; a null stays null. *)
Fixpoint convert_at (to_datetime : ToDatetime) (i : nat) (row : list cell) {struct row}
    : list cell :=
  match row, i with
  | [], _ => []
  | c :: t, O => match c with
                 | Some v => to_datetime v :: t
                 | None => None :: t
                 end
  | c :: t, S k => c :: convert_at to_datetime k t
  end.

(** [df[c] = pd.to_datetime(df[c], errors='coerce')] for the column at
    position [i]. *)
Definition convert_column (to_datetime : ToDatetime) (i : nat) (df : DataFrame)
    : DataFrame :=
  {| columns := columns df; rows := map (convert_at to_datetime i) (rows df) |}.

(** The [try] block of [fetch_data_from_db], from the call of the database
    on.  When the label Date_Time selects several columns, [pd.to_datetime]
    is given a frame, and raises. *)
Definition fetch_body (db : Database) (to_datetime : ToDatetime) (sql_query : string)
    : outcome DataFrame :=
  let* df := db sql_query in
  let df := rename column_mapping df in
  if has_column "Date_Time" df
  then match positions "Date_Time" (columns df) 0 with
       | [i] => Returned (convert_column to_datetime i df)
       | _ => Raised "ValueError: cannot assemble with duplicate keys"
       end
  else Returned df.

(** [fetch_data_from_db(self, sql_query)]: the query is printed before the
    [try] block, the message of the exception in the handler. *)
Definition fetch_data_from_db (console : Console) (db : Database)
    (to_datetime : ToDatetime) (draws : Draws) (sql_query : string)
    : outcome DataFrame :=
  let* _ := console sql_query in
  match fetch_body db to_datetime sql_query with
  | Returned df => Returned df
  | Raised error_msg =>
      let* _ := console error_msg in
      Returned (_create_mock_data draws)
  end.

(** *** Rendering *)

Inductive Saved :=
| NoFile
| SavedFile (path : string)
| SavedFiles (paths : list string).

(** The dictionary a plot function returns on success. *)
Record Plot := {
  plot_type : string;
  description : string;
  saved : Saved
}.

(** What a plot function returns: [{"error": ...}] or a plot. *)
Inductive PlotOutput :=
| PlotError (msg : string)
| PlotOk (p : Plot).

(** The plot functions [plot_profile], [plot_time_series], [plot_map],
    [plot_ts_diagram] and [plot_3d_scatter], by the name of their plot
    type: building the figure and writing the image either returns or
    raises. *)
Definition Renderer := string -> DataFrame -> outcome PlotOutput.

(** The [if]/[elif] chain of [generate_plots_from_data]. *)
Definition dispatch (plot_type : string) : string :=
  if String.eqb plot_type "profile" then "profile"
  else if String.eqb plot_type "time_series" then "time_series"
  else if String.eqb plot_type "map" then "map"
  else if String.eqb plot_type "ts_diagram" then "ts_diagram"
  else "3d_scatter".

Record PlotResult := {
  pr_success : bool;
  pr_error : option string;
  pr_plots : list Plot;
  pr_classification_scores : Dict.t;
  pr_chosen_plots : list string;
  pr_all_saved_files : option (list string)
}.

(** The [try] block of one round of the loop over [chosen_plots]: the plot
    is collected, or the error the plot function reports is printed. *)
Definition plot_attempt (console : Console) (render : Renderer) (df : DataFrame)
    (acc : list Plot * list string) (plot_type : string)
    : outcome (list Plot * list string) :=
  let '(plot_results, all_saved_files) := acc in
  let* result := render (dispatch plot_type) df in
  match result with
  | PlotOk p =>
      Returned (plot_results ++ [p],
                match saved p with
                | SavedFile f => all_saved_files ++ [f]
                | SavedFiles fs => all_saved_files ++ fs
                | NoFile => all_saved_files
                end)
  | PlotError msg => let* _ := console msg in Returned acc
  end.

(** One round of the loop: an exception of the [try] block is swallowed,
    after its message is printed. *)
Definition plot_step (console : Console) (render : Renderer) (df : DataFrame)
    (acc : list Plot * list string) (plot_type : string)
    : outcome (list Plot * list string) :=
  match plot_attempt console render df acc plot_type with
  | Returned acc' => Returned acc'
  | Raised e => let* _ := console e in Returned acc
  end.

(** The loop over [chosen_plots]. *)
Fixpoint plot_loop (console : Console) (render : Renderer) (df : DataFrame)
    (chosen_plots : list string) (acc : list Plot * list string)
    : outcome (list Plot * list string) :=
  match chosen_plots with
  | [] => Returned acc
  | plot_type :: rest =>
      let* acc' := plot_step console render df acc plot_type in
      plot_loop console render df rest acc'
  end.

(** [generate_plots_from_data(self, df, prompt, threshold)]; the prompt is
    printed after the classification, outside any [try] block. *)
Definition generate_plots_from_data (console : Console) (clf : Classifier)
    (render : Renderer) (df : DataFrame) (prompt : string) (threshold : Q)
    : outcome PlotResult :=
  if empty df
  then Returned {| pr_success := false;
                   pr_error := Some "No data available for plotting";
                   pr_plots := [];
                   pr_classification_scores := [];
                   pr_chosen_plots := [];
                   pr_all_saved_files := None |}
  else
    let '(chosen_plots, scores) := classify_prompt clf prompt threshold in
    let* _ := console prompt in
    let* collected := plot_loop console render df chosen_plots ([], []) in
    let '(plot_results, all_saved_files) := collected in
    let* final :=
      match plot_results with
      | [] =>
          let* result := render "3d_scatter" df in
          match result with
          | PlotOk p =>
              Returned ([p],
                        match saved p with
                        | SavedFile f => all_saved_files ++ [f]
                        | _ => all_saved_files
                        end)
          | PlotError _ => Returned ([], all_saved_files)
          end
      | _ => Returned (plot_results, all_saved_files)
      end in
    let '(plot_results, all_saved_files) := final in
    Returned {| pr_success := true;
                pr_error := None;
                pr_plots := plot_results;
                pr_classification_scores := scores;
                pr_chosen_plots := chosen_plots;
                pr_all_saved_files := Some all_saved_files |}.

End PlotGenerator.


(* ===================================================================== *)
(** ** The data summary handed to narration *)
(* ===================================================================== *)

Module Summary.

Import Frame.

(** A date as the summary shows it: [strftime("%Y-%m-%d")] of a timestamp,
    or a literal text. *)
Inductive DateText :=
| Strftime (t : Q)
| Literal (s : string).

Record DateRange := { earliest : DateText; latest : DateText }.
Record Bounds := { north : pyfloat; south : pyfloat; east : pyfloat; west : pyfloat }.
Record DepthRange := { surface : pyfloat; bottom : pyfloat }.
Record Stats := { smin : pyfloat; smax : pyfloat; smean : pyfloat }.

Record DataSummary := {
  data_shape : nat * nat;
  total_records : nat;
  date_range : DateRange;
  geographic_bounds : Bounds;
  depth_range : DepthRange;
  temp_range : Stats;
  salinity_range : Stats
}.

End Summary.

(* ===================================================================== *)
(** ** FloatChatBot *)
(* ===================================================================== *)

Module FloatChatBot.

Import Summary.

(** The language-model client as [generate_response] uses it: the analysis
    prompt is built from the data summary alone; the call gives the text of
    the completion after [strip()], or raises. *)
Definition Client := DataSummary -> outcome string.

(** [_get_fallback_response(self, user_query, error)] *)
Definition _get_fallback_response (user_query error : string) : string :=
  "Ocean data analysis temporarily unavailable. Please check your API configuration. Error: "
  ++ error.

(** [generate_response(self, user_query, sql_metadata, data_summary)]; the
    conversation history it appends to is not read by the pipeline. *)
Definition generate_response (client : Client) (user_query : string)
    (sql_metadata : SQLQueryGenerator.Metadata) (data_summary : DataSummary) : string :=
  match client data_summary with
  | Returned chat_response => chat_response
  | Raised e => _get_fallback_response user_query e
  end.

End FloatChatBot.

(* ===================================================================== *)
(** ** LightweightFloatChatPipeline *)
(* ===================================================================== *)

Module Pipeline.

Import Text Num Frame Summary.
Import SQLQueryGenerator(Metadata).

(** *** The monad of the orchestrator: the stages entered, and a result or
    an exception *)

Inductive stage :=
| SqlGeneration
| Retrieval
| Visualization
| Summarization
| Narration.

Definition M (A : Type) : Type := list stage * outcome A.

Definition mret {A} (a : A) : M A := ([], Returned a).

Definition mbind {A B} (m : M A) (k : A -> M B) : M B :=
  match m with
  | (tr, Returned a) => let '(tr', o) := k a in (tr ++ tr', o)
  | (tr, Raised e) => (tr, Raised e)
  end.

(** Entering a stage and making its call. *)
Definition enter {A} (s : stage) (call : outcome A) : M A := ([s], call).

(** A [print] of a line that holds a text of the run. *)
Definition say (console : Console) (text : string) : M unit := ([], console text).

(** [try: body except Exception as e: handler(e)] *)
Definition try_except {A} (body : M A) (handler : string -> M A) : M A :=
  match body with
  | (tr, Returned a) => (tr, Returned a)
  | (tr, Raised e) => let '(tr', o) := handler e in (tr ++ tr', o)
  end.

Declare Scope pipeline_scope.
Delimit Scope pipeline_scope with pipeline.
Notation "'do' x '<-' m ';' k" := (mbind m (fun x => k))
  (at level 10, x pattern, m at level 100, k at level 200) : pipeline_scope.
Local Open Scope pipeline_scope.

(** *** The collaborators, as the pipeline holds them *)

Record SqlGeneratorObj := {
  m_generate_sql_query : string -> outcome (string * Metadata)
}.

Record PlotGeneratorObj := {
  m_fetch_data_from_db : string -> outcome DataFrame;
  m_generate_plots_from_data : DataFrame -> string -> outcome PlotGenerator.PlotResult
}.

Record ChatBotObj := {
  m_generate_response : string -> Metadata -> DataSummary -> outcome string
}.

(** [self] of LightweightFloatChatPipeline; a collaborator that could not
    be built is [None]. *)
Record Self := {
  sql_generator : option SqlGeneratorObj;
  plot_generator : PlotGeneratorObj;
  chatbot : option ChatBotObj
}.

(** The wall clock: the seconds between the two readings of [time.time()],
    and the text of [time.strftime]. *)
Record Clock := { elapsed : Q; stamp : string }.

(** *** The response *)

Inductive SummaryField :=
| NoSummary
| RecordCount (n : nat)
| FullSummary (ds : DataSummary).

Record Technical := {
  sql_query_text : string;
  processing_time_seconds : Q;
  tech_data_shape : nat * nat;
  system_type : string
}.

Record Response := {
  success : bool;
  user_query : string;
  chat_response : string;
  plots : list PlotGenerator.Plot;
  suggestions : list string;
  error : option string;
  data_summary : SummaryField;
  sql_metadata : option Metadata;
  saved_files : option (list string);
  plot_metadata : option (Dict.t * list string);
  technical_details : option Technical;
  timestamp : option string
}.

(** *** Formatting *)

Definition dquote : string := String (ascii_of_nat 34) EmptyString.

Fixpoint commas (rev_digits : list ascii) (k : nat) : list ascii :=
  match rev_digits with
  | [] => []
  | d :: r =>
      match k, r with
      | 2%nat, _ :: _ => d :: ","%char :: commas r 0
      | _, _ => d :: commas r (S k)
      end
  end.

(** [f"{n:,}"] *)
Definition format_thousands (n : nat) : string :=
  string_of_list_ascii
    (rev (commas (rev (list_ascii_of_string (NilZero.string_of_uint (Nat.to_uint n)))) 0)).

(** *** The summary helpers *)

Local Open Scope outcome_scope.

Definition fallback_date_range : DateRange :=
  {| earliest := Literal "2024-01-01"; latest := Literal "2024-12-31" |}.
Definition fallback_bounds : Bounds :=
  {| north := Some 20.0; south := Some 18.0; east := Some 74.0; west := Some 71.0 |}%Q.
Definition fallback_depth_range : DepthRange :=
  {| surface := Some 0.0; bottom := Some 2000.0 |}%Q.
Definition fallback_temp_range : Stats :=
  {| smin := Some 2.0; smax := Some 30.0; smean := Some 15.0 |}%Q.
Definition fallback_salinity_range : Stats :=
  {| smin := Some 33.0; smax := Some 37.0; smean := Some 35.0 |}%Q.

(** [try: ... except: pass] followed by the fallback [return]: [None] when
    the [try] block falls through. *)
Definition guarded {A} (body : outcome (option A)) (default : A) : A :=
  match body with
  | Returned (Some a) => a
  | Returned None => default
  | Raised _ => default
  end.

(** [_get_date_range(self, df)]; the minimum and maximum of a column that is
    not all null are timestamps, which are truthy. *)
Definition _get_date_range (df : DataFrame) : DateRange :=
  guarded
    (if has_column "Date_Time" df
     then
       let* col := column "Date_Time" df in
       match dropna col with
       | [] => Returned None
       | x :: xs =>
           Returned (Some {| earliest := Strftime (min_list x xs);
                             latest := Strftime (max_list x xs) |})
       end
     else Returned None)
    fallback_date_range.

(** [_get_geographic_bounds(self, df)] *)
Definition _get_geographic_bounds (df : DataFrame) : Bounds :=
  guarded
    (if has_column "Latitude" df && has_column "Longitude" df
     then
       let* lat := column "Latitude" df in
       let* lon := column "Longitude" df in
       Returned (Some {| north := col_max lat; south := col_min lat;
                         east := col_max lon; west := col_min lon |})
     else Returned None)
    fallback_bounds.

(** [_get_depth_range(self, df)] *)
Definition _get_depth_range (df : DataFrame) : DepthRange :=
  guarded
    (if has_column "pressure_dbar" df
     then
       let* col := column "pressure_dbar" df in
       Returned (Some {| surface := col_min col; bottom := col_max col |})
     else Returned None)
    fallback_depth_range.

(** [_get_temp_range(self, df)] *)
Definition _get_temp_range (mean : Mean) (df : DataFrame) : Stats :=
  guarded
    (if has_column "temperature_celsius" df
     then
       let* col := column "temperature_celsius" df in
       Returned (Some {| smin := col_min col; smax := col_max col;
                         smean := col_mean mean col |})
     else Returned None)
    fallback_temp_range.

(** [_get_salinity_range(self, df)] *)
Definition _get_salinity_range (mean : Mean) (df : DataFrame) : Stats :=
  guarded
    (if has_column "salinity_psu" df
     then
       let* col := column "salinity_psu" df in
       match dropna col with
       | [] => Returned None
       | _ => Returned (Some {| smin := col_min col; smax := col_max col;
                                smean := col_mean mean col |})
       end
     else Returned None)
    fallback_salinity_range.

(** The dictionary [data_summary] of step 4. *)
Definition build_data_summary (mean : Mean) (df : DataFrame) : DataSummary :=
  {| data_shape := shape df;
     total_records := len df;
     date_range := _get_date_range df;
     geographic_bounds := _get_geographic_bounds df;
     depth_range := _get_depth_range df;
     temp_range := _get_temp_range mean df;
     salinity_range := _get_salinity_range mean df |}.

(** *** The responses *)

(** [_generate_fallback_response(self, user_query, data_summary)] *)
Definition _generate_fallback_response (user_query : string) (data_summary : DataSummary)
    : string :=
  let query_lower := lower user_query in
  if contains "profile" query_lower then
  "Great question! 🌊 The water profile shows the vertical structure of ocean properties.

From the "
    ++ format_thousands (total_records data_summary)
    ++ " measurements I found:

🔥 **Surface Waters**: Warm from solar heating
🌡️ **Thermocline**: Rapid temperature drop with depth  
❄️ **Deep Waters**: Cold and stable

This vertical structure is crucial for marine ecosystems and ocean circulation! The profile chart shows exactly how temperature and salinity change as you dive deeper."
  else if contains "mumbai" query_lower then
  "Excellent choice! 🌊 Mumbai's ocean data from the Arabian Sea shows fascinating patterns.

From "
    ++ format_thousands (total_records data_summary)
    ++ " measurements in this region:

🗺️ **Location**: Arabian Sea coastal waters near Mumbai
🌡️ **Temperature Range**: Typically 25-29°C at surface, cooling with depth
🧂 **Salinity**: Around 34-36 PSU, influenced by monsoon freshwater
📊 **Depth Coverage**: From surface to deep ocean layers

The data reveals the classic tropical ocean structure with distinct temperature layers!"
  else
  "Here's your ocean data analysis! 🌊

I've processed "
    ++ format_thousands (total_records data_summary)
    ++ " measurements to show you the patterns in this region.

The visualizations reveal important ocean characteristics:
• Temperature and salinity distributions
• Vertical ocean structure  
• Geographic patterns
• Depth-dependent changes

Each plot tells a different part of the ocean's story! 🌐".

(** [_handle_no_data_response(self, user_query, sql_metadata)] *)
Definition _handle_no_data_response (user_query : string) (sql_metadata : Metadata)
    : Response :=
  let chat_response :=
  ("I understand you're looking for ocean data! 🌊 

While I couldn't find specific measurements for "
    ++ dquote
    ++ user_query
    ++ dquote
    ++ ", I can help you explore our ocean database.

🗺️ **Available Data**: Arabian Sea, Bay of Bengal, Indian Ocean
📊 **Parameters**: Temperature, Salinity, Depth, Location
📅 **Coverage**: Recent Argo float measurements

Try these queries:
• "
    ++ dquote
    ++ "Show temperature profile near Mumbai"
    ++ dquote
    ++ "
• "
    ++ dquote
    ++ "3D ocean data visualization"
    ++ dquote
    ++ "  
• "
    ++ dquote
    ++ "Temperature map of Arabian Sea"
    ++ dquote
    ++ "

Would you like me to show you what data is available in a specific region?")%string in
  {| success := false;
     user_query := user_query;
     chat_response := chat_response;
     plots := [];
     suggestions := ["Show available data regions";
                     "Temperature data near major cities";
                     "Recent ocean measurements"];
     error := None;
     data_summary := RecordCount 0;
     sql_metadata := Some sql_metadata;
     saved_files := None;
     plot_metadata := None;
     technical_details := None;
     timestamp := None |}.

(** [_handle_error_response(self, user_query, error)] *)
Definition _handle_error_response (user_query : string) (error : string) : Response :=
  let chat_response :=
  ("I encountered a technical issue while processing: "
    ++ dquote
    ++ user_query
    ++ dquote
    ++ " 🌊

🔧 **System Status**: Running in lightweight mode (no torch required!)
📊 **Capabilities**: Plotting and visualization still available
🔄 **Suggestion**: Try rephrasing your query or use simpler terms

Examples that work well:
• "
    ++ dquote
    ++ "temperature profile mumbai"
    ++ dquote
    ++ "
• "
    ++ dquote
    ++ "ocean data 3d view"
    ++ dquote
    ++ "
• "
    ++ dquote
    ++ "salinity map"
    ++ dquote
    ++ "

The lightweight system is designed to handle most ocean data queries efficiently!")%string in
  {| success := false;
     user_query := user_query;
     chat_response := chat_response;
     plots := [];
     suggestions := ["Use simpler query terms";
                     "Try location-based queries";
                     "Ask for specific plot types"];
     error := Some error;
     data_summary := NoSummary;
     sql_metadata := None;
     saved_files := None;
     plot_metadata := None;
     technical_details := None;
     timestamp := None |}.

Import PlotGenerator(Plot, PlotResult).

(** The files of one plot, as the second loop of
    [_package_complete_response] collects them. *)
Definition files_of (plot : Plot) : list string :=
  match PlotGenerator.saved plot with
  | PlotGenerator.SavedFile f => [f]
  | PlotGenerator.SavedFiles fs => fs
  | PlotGenerator.NoFile => []
  end.

(** [_package_complete_response(self, **kwargs)] *)
Definition _package_complete_response (clock : Clock) (user_query sql_query : string)
    (sql_metadata : Metadata) (data_summary : DataSummary) (plot_result : PlotResult)
    (chat_response : string) (processing_time : Q) : Response :=
  let saved_files :=
    if PlotGenerator.pr_success plot_result
    then match PlotGenerator.pr_all_saved_files plot_result with
         | Some fs => fs
         | None => flat_map files_of (PlotGenerator.pr_plots plot_result)
         end
    else [] in
  {| success := true;
     user_query := user_query;
     chat_response := chat_response;
     plots := if PlotGenerator.pr_success plot_result
              then PlotGenerator.pr_plots plot_result else [];
     suggestions := ["How does this compare to other regions?";
                     "Can you show different visualizations?";
                     "What drives these ocean patterns?"];
     error := None;
     data_summary := FullSummary data_summary;
     sql_metadata := Some sql_metadata;
     saved_files := Some saved_files;
     plot_metadata := Some (PlotGenerator.pr_classification_scores plot_result,
                            PlotGenerator.pr_chosen_plots plot_result);
     technical_details :=
       Some {| sql_query_text := sql_query;
               processing_time_seconds := processing_time;
               tech_data_shape := data_shape data_summary;
               system_type := "lightweight (scikit-learn)" |};
     timestamp := Some (stamp clock) |}.

(** *** The orchestrator *)

Local Open Scope pipeline_scope.

Definition fallback_sql_query : string := "SELECT * FROM argo_floats LIMIT 1000;".

Definition fallback_sql_metadata : Metadata :=
  {| SQLQueryGenerator.query_type := "fallback";
     SQLQueryGenerator.location := Some "Mumbai";
     SQLQueryGenerator.parameters := [];
     SQLQueryGenerator.depth_range := None;
     SQLQueryGenerator.time_constraint := false;
     SQLQueryGenerator.spatial_query := false;
     SQLQueryGenerator.error := None |}.

(** The [plot_result] that replaces a visualization that raised. *)
Definition failed_plot_result (plot_error : string) : PlotResult :=
  {| PlotGenerator.pr_success := false;
     PlotGenerator.pr_error := Some plot_error;
     PlotGenerator.pr_plots := [];
     PlotGenerator.pr_classification_scores := [];
     PlotGenerator.pr_chosen_plots := [];
     PlotGenerator.pr_all_saved_files := None |}.

(** Step 1: the generated query, of which the first hundred characters are
    printed, or the fixed query of the fallback mode. *)
Definition sql_stage (console : Console) (self : Self) (user_query : string)
    : M (string * Metadata) :=
  match sql_generator self with
  | Some gen =>
      do generated <- enter SqlGeneration (m_generate_sql_query gen user_query);
      do _ <- say console (substring 0 100 (fst generated));
      mret generated
  | None => mret (fallback_sql_query, fallback_sql_metadata)
  end.

(** Step 3 with its own [try]/[except]; the handler prints the text of the
    exception. *)
Definition visualization_stage (console : Console) (self : Self) (df : DataFrame)
    (user_query : string) : M PlotResult :=
  try_except
    (enter Visualization
       (m_generate_plots_from_data (plot_generator self) df user_query))
    (fun plot_error =>
       do _ <- say console plot_error;
       mret (failed_plot_result plot_error)).

(** Step 4: the narrative of the chatbot, or the template. *)
Definition narration_stage (self : Self) (user_query : string) (sql_metadata : Metadata)
    (data_summary : DataSummary) : M string :=
  match chatbot self with
  | Some bot =>
      enter Narration (m_generate_response bot user_query sql_metadata data_summary)
  | None =>
      enter Narration (Returned (_generate_fallback_response user_query data_summary))
  end.

(** The [try] block of [process_user_query]. *)
Definition process_body (console : Console) (mean : Mean) (self : Self) (clock : Clock)
    (user_query : string) : M Response :=
  do (sql_query, sql_metadata) <- sql_stage console self user_query;
  do df <- enter Retrieval (m_fetch_data_from_db (plot_generator self) sql_query);
  if empty df
  then mret (_handle_no_data_response user_query sql_metadata)
  else
    do plot_result <- visualization_stage console self df user_query;
    do data_summary <- enter Summarization (Returned (build_data_summary mean df));
    do chat_response <- narration_stage self user_query sql_metadata data_summary;
    mret (_package_complete_response clock user_query sql_query sql_metadata
            data_summary plot_result chat_response (elapsed clock)).

(** [process_user_query(self, user_query)]: the user's text is printed
    before the [try] block, the text of the exception in the handler. *)
Definition process_user_query (console : Console) (mean : Mean) (self : Self)
    (clock : Clock) (user_query : string) : M Response :=
  do _ <- say console user_query;
  try_except (process_body console mean self clock user_query)
             (fun e =>
                do _ <- say console e;
                mret (_handle_error_response user_query e)).

(** *** The pipeline as [__init__] builds it *)

(** What lies outside the program.  A client is [None] when the constructor
    of its owner raised.  [stdout] is the console of every [print],
    [series_mean] the mean of pandas. *)
Record Externals := {
  sql_client : option SQLQueryGenerator.Client;
  chat_client : option FloatChatBot.Client;
  classifier : PlotGenerator.Classifier;
  database : PlotGenerator.Database;
  to_datetime : PlotGenerator.ToDatetime;
  draws : PlotGenerator.Draws;
  renderer : PlotGenerator.Renderer;
  stdout : Console;
  series_mean : Mean
}.

Definition sql_generator_obj (client : SQLQueryGenerator.Client) : SqlGeneratorObj :=
  {| m_generate_sql_query :=
       fun q => Returned (SQLQueryGenerator.generate_sql_query client q) |}.

Definition plot_generator_obj (ext : Externals) : PlotGeneratorObj :=
  {| m_fetch_data_from_db :=
       fun sql => PlotGenerator.fetch_data_from_db (stdout ext) (database ext)
                    (to_datetime ext) (draws ext) sql;
     m_generate_plots_from_data :=
       fun df q => PlotGenerator.generate_plots_from_data (stdout ext) (classifier ext)
                     (renderer ext) df q PlotGenerator.default_threshold |}.

Definition chatbot_obj (client : FloatChatBot.Client) : ChatBotObj :=
  {| m_generate_response :=
       fun q md ds => Returned (FloatChatBot.generate_response client q md ds) |}.

(** [__init__(self)]: all three collaborators, or plotting only. *)
Definition init (ext : Externals) : Self :=
  match sql_client ext, chat_client ext with
  | Some sc, Some cc =>
      {| sql_generator := Some (sql_generator_obj sc);
         plot_generator := plot_generator_obj ext;
         chatbot := Some (chatbot_obj cc) |}
  | _, _ =>
      {| sql_generator := None;
         plot_generator := plot_generator_obj ext;
         chatbot := None |}
  end.

(** [process_user_query] of the pipeline that [__init__] builds. *)
Definition run (ext : Externals) (clock : Clock) (user_query : string) : M Response :=
  process_user_query (stdout ext) (series_mean ext) (init ext) clock user_query.

End Pipeline.


(* ===================================================================== *)
(** ** The specification's wording, for comparison with the code *)
(* ===================================================================== *)

Module SpecWords.

Import Text Num PlotGenerator.
Local Open Scope Q_scope.

(** "add the next-highest-scoring labels (score > 0.2) until at least 2 are
    present": candidates are taken from the highest score down and adding
    stops once two labels are present. *)
Fixpoint add_until_two (chosen : list string) (candidates : list (string * Q))
    : list string :=
  match candidates with
  | [] => chosen
  | (label, score) :: rest =>
      if (2 <=? List.length chosen)%nat then chosen
      else if negb (mem label chosen) && Qltb 0.2 score
           then add_until_two (chosen ++ [label]) rest
           else add_until_two chosen rest
  end.

(** Section 4.1, step 5, on a score set and a threshold. *)
Definition selection (scores : Dict.t) (threshold : Q) : list string :=
  let chosen := above_threshold scores threshold in
  let chosen :=
    if (List.length chosen <? 2)%nat
    then add_until_two chosen (Dict.sorted_desc scores)
    else chosen in
  let chosen := match chosen with [] => ["3d_scatter"; "profile"] | _ => chosen end in
  if (4 <? List.length chosen)%nat
  then map fst (firstn 4 (Dict.sorted_desc
                            (filter (fun kv => mem (fst kv) chosen) scores)))
  else chosen.

(** "the query orders by the depth/pressure column ascending": the ordering
    on the pressure column is there and it is not marked descending. *)
Definition orders_by_pressure_ascending (sql_lower : string) : bool :=
  contains "order by pressure_dbar" sql_lower
  && negb (contains "order by pressure_dbar desc" sql_lower).

(** Section 4.2, the category rule. *)
Definition category (sql_query : string) : string * bool :=
  let sql_lower := lower sql_query in
  if orders_by_pressure_ascending sql_lower then ("profile", false)
  else if contains "order by date_time" sql_lower then ("time_series", false)
  else if contains "st_dwithin" sql_lower || contains "st_distance" sql_lower
       then ("spatial", true)
  else if contains "float_id" sql_lower then ("float_specific", false)
  else ("general", false).

End SpecWords.

(** The labels the complement loop of [classify_prompt] appends, said in
    one expression: the candidates not chosen at the start whose score
    exceeds 0.2, in the order of the candidates. *)
Module Policy.

Import Text Num.
Local Open Scope Q_scope.

Definition added_labels (chosen : list string) (candidates : list (string * Q))
    : list string :=
  map fst (filter (fun kv => negb (mem (fst kv) chosen) && Qltb 0.2 (snd kv))
                  candidates).

(** Scores in descending order. *)
Definition descending (l : list (string * Q)) : Prop :=
  StronglySorted (fun x y => snd y <= snd x) l.

(** All probabilities of the classifier's answer lie in [0,1]. *)
Definition probabilities (predictions : list (list Q)) : Prop :=
  forall row v, In row predictions -> In v row -> in_unit v.

(** Every score of [d] is kept or raised in [d']. *)
Definition scores_le (d d' : Dict.t) : Prop :=
  forall l v, Dict.get d l = Some v -> exists v', Dict.get d' l = Some v' /\ v <= v'.

End Policy.

(* ===================================================================== *)
(** ** Concrete inputs used in the examples below *)
(* ===================================================================== *)

Module Examples.

Import Text Num Frame Summary PlotGenerator Pipeline.
Local Open Scope Q_scope.

Definition sql_profile_desc : string :=
  "SELECT * FROM argo_floats ORDER BY pressure_dbar DESC LIMIT 100;".
Definition sql_time : string :=
  "SELECT * FROM argo_floats ORDER BY date_time ASC;".
Definition sql_spatial : string :=
  "SELECT * FROM argo_floats WHERE ST_DWithin(geometry, ST_SetSRID(ST_Point(72.88, 19.07), 4326), 100000) LIMIT 1000;".
Definition sql_float : string :=
  "SELECT * FROM argo_floats WHERE float_id = '5905529';".
Definition sql_general : string :=
  "SELECT * FROM argo_floats LIMIT 1000;".

(** A classifier that answers with no row: every label is given the
    default probability 0.1. *)
Definition silent_model : Classifier := fun _ => Returned [].

(** A classifier that answers with one row of two equal probabilities. *)
Definition even_model : Classifier := fun _ => Returned [[0.5; 0.5]].

Definition water_profile_prompt : string := "show me the water profile of mumbai".

(** A score set in which no label reaches 0.2. *)
Definition low_scores : Dict.t :=
  [("profile", 0.1); ("time_series", 0.1); ("map", 0.1);
   ("ts_diagram", 0.1); ("3d_scatter", 0.1)].

(** A score set in which every label reaches 0.3. *)
Definition high_scores : Dict.t :=
  [("profile", 0.5); ("time_series", 0.9); ("map", 0.6);
   ("ts_diagram", 0.4); ("3d_scatter", 0.7)].

(** The blended scores of the prompt "profile" under [even_model]. *)
Definition profile_scores : Dict.t :=
  [("profile", 0.9); ("time_series", 0.08); ("map", 0.08);
   ("ts_diagram", 0.7); ("3d_scatter", 0.6)].

(** The blended scores of the prompt "hello" under [even_model]. *)
Definition hello_scores : Dict.t :=
  [("profile", 0.40); ("time_series", 0.08); ("map", 0.08);
   ("ts_diagram", 0.08); ("3d_scatter", 0.08)].

(** A console on which every line is printed. *)
Definition plain_console : Console := fun _ => Returned tt.




(** The mean without rounding. *)
Definition exact_mean : Mean :=
  fun values => fold_left Qplus values 0 / inject_Z (Z.of_nat (List.length values)).

(** Values that are timestamps already. *)
Definition timestamps : ToDatetime := fun v => Some v.



Definition noon : Clock := {| elapsed := 0.25%Q; stamp := "2024-06-01 12:00:00" |}.

Definition empty_plot_generator : PlotGeneratorObj :=
  {| m_fetch_data_from_db :=
       fun _ => Returned {| columns := ["float_id"; "pressure_dbar"]; rows := [] |};
     m_generate_plots_from_data := fun _ _ => Raised "not reached" |}.

Definition empty_self : Self :=
  {| sql_generator := None; plot_generator := empty_plot_generator; chatbot := None |}.

(** A renderer that always raises, over the mock data. *)
Definition broken_externals : Externals :=
  {| sql_client := None;
     chat_client := None;
     classifier := fun _ => Returned [[0.5%Q; 0.5%Q]];
     database := fun _ => Raised "Connection refused";
     to_datetime := timestamps;
     draws := fun _ _ => 10%Q;
     renderer := fun _ _ => Raised "kaleido is not installed";
     stdout := plain_console;
     series_mean := exact_mean |}.







End Examples.

Import Examples.

(* ===================================================================== *)
(** ** Invariants stated in the further properties *)
(* ===================================================================== *)

Module Invariants.

Import Text Num.
Local Open Scope Q_scope.

(** Each selected label has a score at the threshold or at 0.5 at least. *)
Definition well_scored (thr : Q) (c : list string) (es : Dict.t) : Prop :=
  forall l, In l c -> exists v, Dict.get es l = Some v /\ (thr <= v \/ 0.5 <= v).

(** The rows the loop over the categories reads are not empty. *)
Definition rows_usable (predictions : list (list Q)) : Prop :=
  forall i, (i < 5)%nat -> nth_error predictions i <> Some [].

(** The plots the loop of [generate_plots_from_data] collects: for each
    label, the plot its function returns, when it returns one. *)
Definition rendered (render : PlotGenerator.Renderer) (df : Frame.DataFrame)
    (chosen : list string) : list PlotGenerator.Plot :=
  flat_map (fun plot_type =>
              match render (PlotGenerator.dispatch plot_type) df with
              | Returned (PlotGenerator.PlotOk p) => [p]
              | _ => []
              end) chosen.

(** The exception that leaves the [try] block of one round of the loop of
    [generate_plots_from_data], when one does: that of the plot function,
    or that of the print of the error the plot function reports. *)
Definition attempt_error (console : Console) (render : PlotGenerator.Renderer)
    (df : Frame.DataFrame) (plot_type : string) : option string :=
  match render (PlotGenerator.dispatch plot_type) df with
  | Raised e => Some e
  | Returned (PlotGenerator.PlotError msg) =>
      match console msg with
      | Raised e => Some e
      | Returned _ => None
      end
  | Returned (PlotGenerator.PlotOk _) => None
  end.

(** A row after the conversion of the dates: it has the cells of the row
    before, but for the cell under the label Date_Time. *)
Definition same_but_dates (cols : list string) (row row' : list Frame.cell) : Prop :=
  List.length row' = List.length row /\
  forall j, nth_error cols j <> Some "Date_Time" -> nth j row' None = nth j row None.

(** A cell holds a value between two bounds. *)
Definition cell_within (lo hi : Q) (c : Frame.cell) : Prop :=
  exists v, c = Some v /\ lo <= v /\ v <= hi.

(** Two floats are in order; nothing is asked of a NaN. *)
Definition float_le (a b : Frame.pyfloat) : Prop :=
  match a, b with
  | Some x, Some y => x <= y
  | _, _ => True
  end.

(** Two dates of the summary are in order; nothing is asked of the literal
    texts of the fallback. *)
Definition date_le (a b : Summary.DateText) : Prop :=
  match a, b with
  | Summary.Strftime x, Summary.Strftime y => x <= y
  | _, _ => True
  end.

(** The stages in the order of [process_user_query]; the first one is
    skipped when there is no query generator. *)
Definition stages_of (self : Pipeline.Self) : list Pipeline.stage :=
  match Pipeline.sql_generator self with
  | Some _ => [Pipeline.SqlGeneration; Pipeline.Retrieval; Pipeline.Visualization;
               Pipeline.Summarization; Pipeline.Narration]
  | None => [Pipeline.Retrieval; Pipeline.Visualization;
             Pipeline.Summarization; Pipeline.Narration]
  end.

End Invariants.

(* ===================================================================== *)
(** ** More concrete inputs *)
(* ===================================================================== *)

Module MoreExamples.

Import Frame PlotGenerator Pipeline.
Local Open Scope Q_scope.

(** A table of one record. *)
Definition one_record : DataFrame :=
  {| columns := ["Latitude"; "Longitude"]; rows := [[Some 19.0; Some 72.8]] |}.

(** A plot generator over [one_record] whose plots cannot be drawn. *)
Definition small_plot_generator : PlotGeneratorObj :=
  {| m_fetch_data_from_db := fun _ => Returned one_record;
     m_generate_plots_from_data := fun _ _ => Raised "no display" |}.

Definition small_self : Self :=
  {| sql_generator := None; plot_generator := small_plot_generator; chatbot := None |}.

(** Plot functions that report an error instead of a plot. *)
Definition reporting_renderer : Renderer :=
  fun _ _ => Returned (PlotError "no display").

End MoreExamples.

Import MoreExamples.

(* ===================================================================== *)
(** * Properties *)
(* ===================================================================== *)

(** ** Comparisons of rationals as booleans *)

Section QBool.

Import Num.
Local Open Scope Q_scope.

Lemma Qltb_true (a b : Q) : a < b -> Qltb a b = true.
Proof.
  intros H. unfold Qltb. destruct (Qle_bool b a) eqn:E; [|reflexivity].
  apply Qle_bool_iff in E. exfalso. exact (Qlt_not_le _ _ H E).
Qed.

Lemma Qltb_false (a b : Q) : b <= a -> Qltb a b = false.
Proof.
  intros H. unfold Qltb. apply Qle_bool_iff in H. now rewrite H.
Qed.

Lemma Qltb_spec (a b : Q) : BoolSpec (a < b) (b <= a) (Qltb a b).
Proof.
  unfold Qltb. destruct (Qle_bool b a) eqn:E; simpl; constructor.
  - now apply Qle_bool_iff.
  - apply Qnot_le_lt. intros H. apply Qle_bool_iff in H. congruence.
Qed.

Lemma Qle_bool_true (a b : Q) : a <= b -> Qle_bool a b = true.
Proof. apply Qle_bool_iff. Qed.

Lemma Qle_bool_false (a b : Q) : b < a -> Qle_bool a b = false.
Proof.
  intros H. destruct (Qle_bool a b) eqn:E; [|reflexivity].
  apply Qle_bool_iff in E. exfalso. exact (Qlt_not_le _ _ H E).
Qed.

Lemma pymax_ge_l (a b : Q) : a <= pymax a b.
Proof.
  unfold pymax. destruct (Qltb_spec a b); [now apply Qlt_le_weak | apply Qle_refl].
Qed.

Lemma pymax_ge_r (a b : Q) : b <= pymax a b.
Proof.
  unfold pymax. destruct (Qltb_spec a b); [apply Qle_refl | assumption].
Qed.

Lemma pymax_left (a b : Q) : b <= a -> pymax a b = a.
Proof. intros H. unfold pymax. now rewrite Qltb_false. Qed.

Lemma pymax_right (a b : Q) : a < b -> pymax a b = b.
Proof. intros H. unfold pymax. now rewrite Qltb_true. Qed.

Lemma pymax_cases (a b : Q) : pymax a b = a \/ pymax a b = b.
Proof. unfold pymax. destruct (Qltb a b); auto. Qed.

Lemma pymax_unit (a b : Q) : in_unit a -> in_unit b -> in_unit (pymax a b).
Proof. intros Ha Hb. destruct (pymax_cases a b) as [-> | ->]; assumption. Qed.

Lemma max_list_ge_head (xs : list Q) : forall x, x <= max_list x xs.
Proof.
  unfold max_list. induction xs as [|y ys IH]; intros x; simpl.
  - apply Qle_refl.
  - eapply Qle_trans; [apply pymax_ge_l | apply IH].
Qed.

Lemma max_list_ge (xs : list Q) : forall x v, In v xs -> v <= max_list x xs.
Proof.
  unfold max_list. induction xs as [|y ys IH]; intros x v Hin; simpl.
  - destruct Hin.
  - destruct Hin as [<- | Hin].
    + eapply Qle_trans; [apply pymax_ge_r | apply (max_list_ge_head ys)].
    + now apply IH.
Qed.

Lemma max_list_in (xs : list Q) : forall x, max_list x xs = x \/ In (max_list x xs) xs.
Proof.
  unfold max_list. induction xs as [|y ys IH]; intros x; simpl.
  - now left.
  - destruct (IH (pymax x y)) as [E | Hin].
    + rewrite E. destruct (pymax_cases x y) as [-> | ->]; auto.
    + auto.
Qed.

End QBool.

(** ** The query-intent extractor *)

Section IntentExtractor.

Import Text SQLQueryGenerator.

Lemma find_first_match (f : string -> bool) (before : list string) (c : string)
    (after : list string) :
  existsb f before = false -> f c = true ->
  find f (before ++ c :: after) = Some c.
Proof.
  induction before as [|b bs IH]; simpl; intros Hb Hc.
  - now rewrite Hc.
  - apply orb_false_iff in Hb as [Hb1 Hb2]. rewrite Hb1. now apply IH.
Qed.

Lemma find_no_match (f : string -> bool) (l : list string) :
  existsb f l = false -> find f l = None.
Proof.
  induction l as [|b bs IH]; simpl; intros H; [reflexivity|].
  apply orb_false_iff in H as [H1 H2]. rewrite H1. now apply IH.
Qed.

Lemma lookup_location_first (before : list (string * list string)) (loc : string)
    (kws : list string) (after : list (string * list string)) (t : string) :
  (forall e, In e before -> any_in (snd e) t = false) ->
  any_in kws t = true ->
  PlotGenerator.lookup_location (before ++ (loc, kws) :: after) t = Some (title loc).
Proof.
  induction before as [|[l k] bs IH];
    cbn [app PlotGenerator.lookup_location]; intros Hb Hk.
  - now rewrite Hk.
  - pose proof (Hb (l, k) (or_introl eq_refl)) as H0. cbn [snd] in H0.
    rewrite H0. apply IH; [|assumption]. intros e He. apply Hb. now right.
Qed.

Lemma lookup_location_none (entries : list (string * list string)) (t : string) :
  (forall e, In e entries -> any_in (snd e) t = false) ->
  PlotGenerator.lookup_location entries t = None.
Proof.
  induction entries as [|[l k] bs IH];
    cbn [PlotGenerator.lookup_location]; intros Hb; [reflexivity|].
  pose proof (Hb (l, k) (or_introl eq_refl)) as H0. cbn [snd] in H0.
  rewrite H0. apply IH. intros e He. apply Hb. now right.
Qed.

(** C8 (as amended): the category follows the precedence profile,
    time_series, spatial, float_specific, general, where "orders by the
    pressure column" is the presence of the text "order by pressure_dbar"
    in the lowercased query, whatever the direction of the ordering; the
    spatial flag is set exactly in the spatial case. *)
Theorem C8_query_type_precedence :
  forall sql_query user_query : string,
    let md := _extract_query_metadata sql_query user_query in
    let s := lower sql_query in
    (contains "order by pressure_dbar" s = true ->
       query_type md = "profile" /\ spatial_query md = false) /\
    (contains "order by pressure_dbar" s = false ->
     contains "order by date_time" s = true ->
       query_type md = "time_series" /\ spatial_query md = false) /\
    (contains "order by pressure_dbar" s = false ->
     contains "order by date_time" s = false ->
     contains "st_dwithin" s || contains "st_distance" s = true ->
       query_type md = "spatial" /\ spatial_query md = true) /\
    (contains "order by pressure_dbar" s = false ->
     contains "order by date_time" s = false ->
     contains "st_dwithin" s || contains "st_distance" s = false ->
     contains "float_id" s = true ->
       query_type md = "float_specific" /\ spatial_query md = false) /\
    (contains "order by pressure_dbar" s = false ->
     contains "order by date_time" s = false ->
     contains "st_dwithin" s || contains "st_distance" s = false ->
     contains "float_id" s = false ->
       query_type md = "general" /\ spatial_query md = false).
Proof.
  intros sql_query user_query md s.
  unfold md, _extract_query_metadata. fold s.
  unfold detect_query_type.
  repeat split; intros;
    repeat match goal with H : _ = _ :> bool |- _ => rewrite H; clear H end;
    reflexivity.
Qed.

Lemma C8_witness :
  (query_type (_extract_query_metadata sql_profile_desc "deepest first") = "profile"
   /\ spatial_query (_extract_query_metadata sql_profile_desc "deepest first") = false) /\
  (query_type (_extract_query_metadata sql_time "trend") = "time_series"
   /\ spatial_query (_extract_query_metadata sql_time "trend") = false) /\
  (query_type (_extract_query_metadata sql_spatial "near mumbai") = "spatial"
   /\ spatial_query (_extract_query_metadata sql_spatial "near mumbai") = true) /\
  (query_type (_extract_query_metadata sql_float "float 5905529") = "float_specific"
   /\ spatial_query (_extract_query_metadata sql_float "float 5905529") = false) /\
  (query_type (_extract_query_metadata sql_general "anything") = "general"
   /\ spatial_query (_extract_query_metadata sql_general "anything") = false).
Proof.
  split; [|split; [|split; [|split]]].
  - apply (proj1 (C8_query_type_precedence sql_profile_desc "deepest first")).
    reflexivity.
  - apply (proj1 (proj2 (C8_query_type_precedence sql_time "trend")));
      reflexivity.
  - apply (proj1 (proj2 (proj2 (C8_query_type_precedence sql_spatial "near mumbai"))));
      reflexivity.
  - apply (proj1 (proj2 (proj2 (proj2
             (C8_query_type_precedence sql_float "float 5905529")))));
      reflexivity.
  - apply (proj2 (proj2 (proj2 (proj2
             (C8_query_type_precedence sql_general "anything")))));
      reflexivity.
Defined.

(** C8, the claim as worded fails: a query that orders by the pressure
    column in descending order is given the category profile, where the
    worded rule, which asks for an ascending ordering, gives general. *)
Lemma C8_counterexample :
  contains "order by pressure_dbar desc" (lower sql_profile_desc) = true /\
  query_type (_extract_query_metadata sql_profile_desc "deepest first") = "profile" /\
  fst (SpecWords.category sql_profile_desc) = "general" /\
  query_type (_extract_query_metadata sql_profile_desc "deepest first")
    <> fst (SpecWords.category sql_profile_desc).
Proof.
  repeat split; try reflexivity. vm_compute. discriminate.
Qed.

(** C7 (as amended): [extract_location] matches the lowercased text against
    its gazetteer with alternate names (a text containing "bombay" gives
    "Mumbai"), regions after cities, the first entry with a matching keyword
    wins and is title-cased, and no keyword gives no location.  The location
    of the query intent comes from [_extract_query_metadata], whose lists
    hold seven city names and three region names without alternates: no
    name gives no location; a region name decides whenever one occurs, also
    beside a city name: the first region name of the list found in the text,
    title-cased; when no region name occurs, the first city name of the list
    found in the text, title-cased. *)
Theorem C7_location_matching :
  forall text : string,
    let t := lower text in
    (contains "bombay" t = true ->
       PlotGenerator.extract_location text = Some "Mumbai") /\
    (forall before loc kws after,
       PlotGenerator.gazetteer = before ++ (loc, kws) :: after ->
       (forall e, In e before -> any_in (snd e) t = false) ->
       any_in kws t = true ->
       PlotGenerator.extract_location text = Some (title loc)) /\
    ((forall e, In e PlotGenerator.gazetteer -> any_in (snd e) t = false) ->
       PlotGenerator.extract_location text = None) /\
    (forall sql_query,
       let loc := location (_extract_query_metadata sql_query text) in
       (any_in locations t = false -> any_in regions t = false -> loc = None) /\
       (forall before c after,
          locations = before ++ c :: after ->
          any_in before t = false -> contains c t = true ->
          any_in regions t = false ->
          loc = Some (title c)) /\
       (forall before r after,
          regions = before ++ r :: after ->
          any_in before t = false -> contains r t = true ->
          loc = Some (title r))).
Proof.
  intros text t. split; [|split; [|split]].
  - intros H. unfold PlotGenerator.extract_location. fold t.
    cbn [PlotGenerator.gazetteer PlotGenerator.lookup_location any_in existsb].
    rewrite H. rewrite orb_true_r. reflexivity.
  - intros before loc kws after E Hb Hk.
    unfold PlotGenerator.extract_location. fold t. rewrite E.
    now apply lookup_location_first.
  - intros H. unfold PlotGenerator.extract_location. fold t.
    now apply lookup_location_none.
  - intros sql_query loc. unfold loc, _extract_query_metadata. fold t.
    destruct (detect_query_type (lower sql_query)) as [qt sp].
    cbn [location]. unfold first_match. split; [|split].
    + intros Hl Hr. unfold any_in in Hl, Hr.
      now rewrite (find_no_match _ _ Hl), (find_no_match _ _ Hr).
    + intros before c after E Hb Hc Hr. unfold any_in in Hb, Hr.
      rewrite (find_no_match _ _ Hr). rewrite E.
      now rewrite (find_first_match _ before c after Hb Hc).
    + intros before r after E Hb Hc. unfold any_in in Hb.
      rewrite E. now rewrite (find_first_match _ before r after Hb Hc).
Qed.

Lemma C7_witness :
  PlotGenerator.extract_location "Salinity near BOMBAY harbour" = Some "Mumbai" /\
  PlotGenerator.extract_location "currents in the Bengal Bay" = Some "Bay Of Bengal" /\
  PlotGenerator.extract_location "warm water" = None /\
  location (_extract_query_metadata sql_general "warm water") = None /\
  location (_extract_query_metadata sql_general "temperature off Chennai") = Some "Chennai" /\
  location (_extract_query_metadata sql_general "the INDIAN OCEAN gyre") = Some "Indian Ocean" /\
  location (_extract_query_metadata sql_general "temperature near mumbai in the arabian sea")
  = Some "Arabian Sea".
Proof.
  split; [|split; [|split; [|split; [|split; [|split]]]]].
  - apply (proj1 (C7_location_matching "Salinity near BOMBAY harbour")).
    reflexivity.
  - apply (proj1 (proj2 (C7_location_matching "currents in the Bengal Bay"))
             (firstn 9 PlotGenerator.gazetteer) "bay of bengal"
             ["bay of bengal"; "bengal bay"] (skipn 10 PlotGenerator.gazetteer)).
    + reflexivity.
    + intros e He. cbn in He.
      repeat (destruct He as [<- | He]; [reflexivity|]). destruct He.
    + reflexivity.
  - apply (proj1 (proj2 (proj2 (C7_location_matching "warm water")))).
    intros e He. cbn in He.
    repeat (destruct He as [<- | He]; [reflexivity|]). destruct He.
  - apply (proj2 (proj2 (proj2 (C7_location_matching "warm water"))) sql_general);
      reflexivity.
  - apply (proj1 (proj2 (proj2 (proj2 (proj2
             (C7_location_matching "temperature off Chennai"))) sql_general))
             ["mumbai"] "chennai"
             ["kolkata"; "delhi"; "bangalore"; "goa"; "kerala"]);
      reflexivity.
  - apply (proj2 (proj2 (proj2 (proj2 (proj2
             (C7_location_matching "the INDIAN OCEAN gyre"))) sql_general))
             ["arabian sea"; "bay of bengal"] "indian ocean" []);
      reflexivity.
  - apply (proj2 (proj2 (proj2 (proj2 (proj2
             (C7_location_matching "temperature near mumbai in the arabian sea")))
             sql_general))
             [] "arabian sea" ["bay of bengal"; "indian ocean"]);
      reflexivity.
Defined.

(** C7, the claim as worded fails for the location of the query intent in
    two ways: a text that contains "bombay" is given no location, and in a
    text with a city name and a region name the city, which is matched
    first, does not win. *)
Lemma C7_counterexample :
  (contains "bombay" (lower "Salinity near BOMBAY harbour") = true /\
   location (_extract_query_metadata sql_general "Salinity near BOMBAY harbour") = None /\
   location (_extract_query_metadata sql_general "Salinity near BOMBAY harbour")
     <> Some "Mumbai") /\
  (first_match locations (lower "temperature near mumbai in the arabian sea")
     = Some "mumbai" /\
   location (_extract_query_metadata sql_general
               "temperature near mumbai in the arabian sea") = Some "Arabian Sea" /\
   location (_extract_query_metadata sql_general
               "temperature near mumbai in the arabian sea") <> Some "Mumbai").
Proof.
  split; (split; [vm_compute; reflexivity|]);
    (split; [vm_compute; reflexivity | vm_compute; discriminate]).
Qed.

End IntentExtractor.

(** ** The data summary of a fetched table *)

Section FetchedSummary.

Import Text Frame Summary Pipeline.

(** A label produced by the renaming of [fetch_data_from_db] is never one
    of the database's own lowercase names. *)
Lemma renamed_fresh (c lowercase : string) :
  In lowercase (map fst PlotGenerator.column_mapping) ->
  String.eqb lowercase (renamed PlotGenerator.column_mapping c) = false.
Proof.
  intros Hin. cbn in Hin.
  cbn [renamed PlotGenerator.column_mapping].
  repeat match goal with
         | |- context [if String.eqb c ?k then _ else _] =>
             let E := fresh "E" in destruct (String.eqb c k) eqn:E
         end;
    try (repeat (destruct Hin as [<- | Hin]; [reflexivity|]); now destruct Hin).
  repeat (destruct Hin as [<- | Hin];
          [rewrite String.eqb_sym; assumption|]).
  destruct Hin.
Qed.

Lemma renamed_columns_fresh (lowercase : string) (df : DataFrame) :
  In lowercase (map fst PlotGenerator.column_mapping) ->
  has_column lowercase (rename PlotGenerator.column_mapping df) = false.
Proof.
  intros Hin. unfold has_column, rename, mem. cbn [columns].
  induction (columns df) as [|c cs IH]; [reflexivity|].
  cbn [map existsb]. now rewrite (renamed_fresh c lowercase Hin), IH.
Qed.

Lemma fetched_columns_fresh (console : Console) (db : PlotGenerator.Database)
    (to_datetime : PlotGenerator.ToDatetime) (draws : PlotGenerator.Draws)
    (sql_query lowercase : string) (df : DataFrame) :
  In lowercase (map fst PlotGenerator.column_mapping) ->
  PlotGenerator.fetch_data_from_db console db to_datetime draws sql_query = Returned df ->
  has_column lowercase df = false.
Proof.
  intros Hin. unfold PlotGenerator.fetch_data_from_db.
  destruct (console sql_query) as [[]|]; cbn [obind]; [|discriminate].
  assert (Hmock : has_column lowercase (PlotGenerator._create_mock_data draws) = false).
  { cbn in Hin. repeat (destruct Hin as [<- | Hin]; [reflexivity|]). destruct Hin. }
  destruct (PlotGenerator.fetch_body db to_datetime sql_query) as [fetched|e] eqn:Hb.
  - intros [= <-]. revert Hb. unfold PlotGenerator.fetch_body.
    destruct (db sql_query) as [raw|]; cbn [obind]; [|discriminate].
    destruct (has_column "Date_Time" (rename PlotGenerator.column_mapping raw)).
    + destruct (positions "Date_Time" (columns (rename PlotGenerator.column_mapping raw)) 0)
        as [|i [|j r]]; try discriminate.
      intros [= <-]. unfold has_column, PlotGenerator.convert_column. cbn [columns].
      now apply renamed_columns_fresh.
    + intros [= <-]. now apply renamed_columns_fresh.
  - destruct (console e) as [[]|]; cbn [obind]; [|discriminate].
    now intros [= <-].
Qed.

(** C10: for every table that [fetch_data_from_db] returns, from the
    database or from the mock data, the depth, temperature and salinity
    ranges of the data summary are the fixed fallback values, whatever the
    table holds: its columns carry the capitalized names and the helpers
    look for the lowercase ones. *)
Theorem C10_ranges_are_fallbacks :
  forall (console : Console) (db : PlotGenerator.Database)
         (to_datetime : PlotGenerator.ToDatetime) (draws : PlotGenerator.Draws)
         (mean : Mean) (sql_query : string) (df : DataFrame),
    PlotGenerator.fetch_data_from_db console db to_datetime draws sql_query
      = Returned df ->
    depth_range (build_data_summary mean df)
      = {| surface := Some 0.0%Q; bottom := Some 2000.0%Q |} /\
    temp_range (build_data_summary mean df)
      = {| smin := Some 2.0%Q; smax := Some 30.0%Q; smean := Some 15.0%Q |} /\
    salinity_range (build_data_summary mean df)
      = {| smin := Some 33.0%Q; smax := Some 37.0%Q; smean := Some 35.0%Q |}.
Proof.
  intros console db to_datetime draws mean sql_query df Hdf.
  cbn [build_data_summary depth_range temp_range salinity_range].
  unfold _get_depth_range, _get_temp_range, _get_salinity_range.
  rewrite !(fetched_columns_fresh console db to_datetime draws sql_query _ df)
    by (cbn; tauto || assumption).
  repeat split.
Qed.

Lemma C10_witness :
  temp_range (build_data_summary exact_mean
                {| columns := ["Pressure_dbar"; "Temperature_Celsius"];
                   rows := [[Some 10%Q; Some 21.5%Q]] |})
  = {| smin := Some 2.0%Q; smax := Some 30.0%Q; smean := Some 15.0%Q |}.
Proof.
  apply (proj1 (proj2 (C10_ranges_are_fallbacks plain_console
           (fun _ => Returned {| columns := ["pressure_dbar"; "temperature_celsius"];
                                 rows := [[Some 10%Q; Some 21.5%Q]] |})
           timestamps (fun _ _ => 0%Q) exact_mean "SELECT * FROM argo_floats;" _ eq_refl))).
Defined.

End FetchedSummary.

Example depth_range_of_lowercase_table :
  Pipeline._get_depth_range
    {| Frame.columns := ["pressure_dbar"];
       Frame.rows := [[Some 5.0%Q]; [None]; [Some 20.0%Q]] |}
  = {| Summary.surface := Some 5.0%Q; Summary.bottom := Some 20.0%Q |}.
Proof. reflexivity. Qed.

(** ** The orchestrator *)

Section Orchestrator.

Import Text Frame Summary Pipeline.
Import SQLQueryGenerator(Metadata).

Lemma process_user_query_printed (console : Console) (mean : Mean) (self : Self)
    (clock : Clock) (user_query : string) :
  console user_query = Returned tt ->
  process_user_query console mean self clock user_query
  = try_except (process_body console mean self clock user_query)
      (fun e => mbind (say console e)
                  (fun _ => mret (_handle_error_response user_query e))).
Proof.
  intros H. unfold process_user_query, mbind at 1, say at 1. rewrite H.
  now destruct (try_except _ _).
Qed.

Lemma process_user_query_unprinted (console : Console) (mean : Mean) (self : Self)
    (clock : Clock) (user_query e : string) :
  console user_query = Raised e ->
  process_user_query console mean self clock user_query = ([], Raised e).
Proof. intros H. unfold process_user_query, mbind, say. now rewrite H. Qed.




(** C5: when the retrieval step returns an empty table, the response is the
    "no data" response: [success = false], three suggestions, no plots; the
    stages entered are those of the query generation and the retrieval
    only.  The request has reached the retrieval: the print of the user's
    text has returned. *)
Theorem C5_empty_retrieval_short_circuits :
  forall (console : Console) (mean : Mean) (self : Self) (clock : Clock)
         (user_query sql_query : string)
         (sql_metadata : Metadata) (tr0 : list stage) (df : DataFrame),
    console user_query = Returned tt ->
    sql_stage console self user_query = (tr0, Returned (sql_query, sql_metadata)) ->
    m_fetch_data_from_db (plot_generator self) sql_query = Returned df ->
    empty df = true ->
    let r := _handle_no_data_response user_query sql_metadata in
    process_user_query console mean self clock user_query
      = (tr0 ++ [Retrieval], Returned r) /\
    success r = false /\
    suggestions r <> [] /\
    plots r = [] /\
    ~ In Visualization (tr0 ++ [Retrieval]) /\
    ~ In Summarization (tr0 ++ [Retrieval]) /\
    ~ In Narration (tr0 ++ [Retrieval]).
Proof.
  intros console mean self clock user_query sql_query sql_metadata tr0 df
         Hq Hsql Hfetch Hempty r.
  assert (Htr : tr0 = [] \/ tr0 = [SqlGeneration]).
  { revert Hsql. unfold sql_stage, mbind, enter, say.
    destruct (sql_generator self) as [gen|]; [|intros [= <-]; auto].
    destruct (m_generate_sql_query gen user_query) as [generated|]; [|discriminate].
    destruct (console (substring 0 100 (fst generated))); cbn [mret app];
      intros [= <-]; auto. }
  split.
  - rewrite (process_user_query_printed _ _ _ _ _ Hq).
    unfold process_body, try_except, mbind, enter.
    rewrite Hsql, Hfetch, Hempty. cbn [mret]. now rewrite !app_nil_r.
  - repeat split; try discriminate;
      destruct Htr as [-> | ->]; cbn; intuition discriminate.
Qed.

Lemma C5_witness :
  process_user_query plain_console exact_mean empty_self noon "salinity on the moon"
  = ([Retrieval],
     Returned (_handle_no_data_response "salinity on the moon" fallback_sql_metadata)).
Proof.
  apply (proj1 (C5_empty_retrieval_short_circuits plain_console exact_mean empty_self noon
                  "salinity on the moon" fallback_sql_query fallback_sql_metadata []
                  {| columns := ["float_id"; "pressure_dbar"]; rows := [] |}
                  eq_refl eq_refl eq_refl eq_refl)).
Defined.

(** The stages of the pipeline built by [__init__] that return whenever the
    prints do. *)
Lemma init_sql_stage_returns (ext : Externals) (user_query : string) :
  (forall text, stdout ext text = Returned tt) ->
  exists tr sql_query sql_metadata,
    sql_stage (stdout ext) (init ext) user_query
    = (tr, Returned (sql_query, sql_metadata)).
Proof.
  intros Hquiet. unfold init, sql_stage, mbind, enter, say.
  destruct (sql_client ext) as [sc|], (chat_client ext) as [cc|];
    cbn [sql_generator sql_generator_obj m_generate_sql_query mret];
    try rewrite Hquiet;
    try destruct (SQLQueryGenerator.generate_sql_query sc user_query) as [q md];
    do 3 eexists; reflexivity.
Qed.

Lemma init_narration_returns (ext : Externals) (user_query : string)
    (sql_metadata : Metadata) (data_summary : DataSummary) :
  exists text,
    narration_stage (init ext) user_query sql_metadata data_summary
    = ([Narration], Returned text).
Proof.
  unfold init, narration_stage.
  destruct (sql_client ext) as [sc|], (chat_client ext) as [cc|];
    cbn [chatbot chatbot_obj m_generate_response enter];
    eexists; reflexivity.
Qed.

Lemma init_fetch (ext : Externals) (sql_query : string) :
  m_fetch_data_from_db (plot_generator (init ext)) sql_query
  = PlotGenerator.fetch_data_from_db (stdout ext) (database ext) (to_datetime ext)
      (draws ext) sql_query.
Proof. unfold init. now destruct (sql_client ext), (chat_client ext). Qed.





End Orchestrator.

(** ** Score dictionaries *)

Section DictFacts.

Import Text Num.
Local Open Scope Q_scope.

Lemma mem_In (x : string) (xs : list string) : mem x xs = true <-> In x xs.
Proof.
  unfold mem. rewrite existsb_exists. split.
  - intros [y [Hy E]]. apply String.eqb_eq in E. now subst.
  - intros H. exists x. split; [assumption | apply String.eqb_refl].
Qed.

Lemma mem_not_In (x : string) (xs : list string) : mem x xs = false <-> ~ In x xs.
Proof.
  rewrite <- mem_In. destruct (mem x xs); split; try congruence; intuition.
Qed.

Lemma set_keys (d : Dict.t) (k : string) (v : Q) :
  In k (Dict.keys d) -> Dict.keys (Dict.set d k v) = Dict.keys d.
Proof.
  unfold Dict.keys. induction d as [|[k' v'] r IH]; intros Hin.
  - destruct Hin.
  - cbn [Dict.set]. destruct (String.eqb k k') eqn:E; [reflexivity|].
    cbn [map fst]. f_equal. apply IH. destruct Hin as [Hin | Hin]; [|assumption].
    cbn in Hin. subst. now rewrite String.eqb_refl in E.
Qed.

Lemma set_values (P : Q -> Prop) (d : Dict.t) (k : string) (v : Q) :
  Forall P (Dict.values d) -> P v -> Forall P (Dict.values (Dict.set d k v)).
Proof.
  unfold Dict.values. induction d as [|[k' v'] r IH]; intros Hd Hv.
  - cbn. now constructor.
  - cbn [Dict.set]. inversion Hd as [|? ? Hh Ht]; subst.
    destruct (String.eqb k k'); cbn [map snd]; constructor; auto.
Qed.

Lemma get_in_values (d : Dict.t) (k : string) (v : Q) :
  Dict.get d k = Some v -> In v (Dict.values d).
Proof.
  unfold Dict.values. induction d as [|[k' v'] r IH]; cbn [Dict.get]; [discriminate|].
  destruct (String.eqb k k').
  - intros [= ->]. now left.
  - intros H. right. now apply IH.
Qed.

Lemma get_of_key (d : Dict.t) (k : string) :
  In k (Dict.keys d) -> exists v, Dict.get d k = Some v.
Proof.
  unfold Dict.keys. induction d as [|[k' v'] r IH]; intros Hin.
  - destruct Hin.
  - cbn [Dict.get]. destruct (String.eqb k k') eqn:E; [eauto|].
    apply IH. destruct Hin as [Hin | Hin]; [|assumption].
    cbn in Hin. subst. now rewrite String.eqb_refl in E.
Qed.

Lemma get_not_key (d : Dict.t) (k : string) :
  ~ In k (Dict.keys d) -> Dict.get d k = None.
Proof.
  unfold Dict.keys. induction d as [|[k' v'] r IH]; intros Hin; [reflexivity|].
  cbn [Dict.get]. destruct (String.eqb k k') eqn:E.
  - apply String.eqb_eq in E. subst. exfalso. apply Hin. now left.
  - apply IH. intros H. apply Hin. now right.
Qed.

Lemma get_default_unit (d : Dict.t) (k : string) :
  Forall in_unit (Dict.values d) -> in_unit (Dict.get_default d k 0.0).
Proof.
  intros Hd. unfold Dict.get_default. destruct (Dict.get d k) as [v|] eqn:E.
  - rewrite Forall_forall in Hd. apply Hd. eapply get_in_values; eauto.
  - split; discriminate.
Qed.

(** The stable sort is a sort. *)
Lemma insert_desc_perm (x : string * Q) (l : list (string * Q)) :
  Permutation (Dict.insert_desc x l) (x :: l).
Proof.
  induction l as [|y r IH]; cbn [Dict.insert_desc]; [reflexivity|].
  destruct (Qltb (snd x) (snd y)); [|reflexivity].
  rewrite IH. apply perm_swap.
Qed.

Lemma sorted_desc_perm (l : list (string * Q)) : Permutation (Dict.sorted_desc l) l.
Proof.
  unfold Dict.sorted_desc. induction l as [|x r IH]; cbn [fold_right]; [reflexivity|].
  rewrite insert_desc_perm. now constructor.
Qed.

Lemma insert_desc_sorted (x : string * Q) (l : list (string * Q)) :
  Policy.descending l -> Policy.descending (Dict.insert_desc x l).
Proof.
  unfold Policy.descending.
  induction l as [|y r IH]; intros Hs; cbn [Dict.insert_desc].
  - repeat constructor.
  - inversion Hs as [|? ? Hr Hy]; subst.
    destruct (Qltb_spec (snd x) (snd y)) as [Hlt | Hge].
    + constructor; [now apply IH|].
      rewrite Forall_forall. intros z Hz.
      apply (Permutation_in _ (insert_desc_perm x r)) in Hz.
      destruct Hz as [<- | Hz]; [now apply Qlt_le_weak|].
      rewrite Forall_forall in Hy. now apply Hy.
    + constructor; [assumption|].
      constructor; [assumption|].
      rewrite Forall_forall in Hy |- *. intros z Hz.
      eapply Qle_trans; [apply Hy; eassumption | assumption].
Qed.

Lemma sorted_desc_sorted (l : list (string * Q)) : Policy.descending (Dict.sorted_desc l).
Proof.
  unfold Dict.sorted_desc. induction l as [|x r IH]; cbn [fold_right].
  - constructor.
  - now apply insert_desc_sorted.
Qed.

Lemma sorted_desc_keys (l : list (string * Q)) :
  Permutation (map fst (Dict.sorted_desc l)) (map fst l).
Proof. apply Permutation_map, sorted_desc_perm. Qed.

Lemma sorted_desc_length (l : list (string * Q)) :
  List.length (Dict.sorted_desc l) = List.length l.
Proof. apply Permutation_length, sorted_desc_perm. Qed.

Lemma firstn_keys_NoDup (n : nat) (l : list (string * Q)) :
  NoDup (map fst l) -> NoDup (map fst (firstn n l)).
Proof.
  intros H. rewrite <- (firstn_skipn n l), map_app in H.
  now apply NoDup_app_remove_r in H.
Qed.

Lemma firstn_incl {A} (n : nat) (l : list A) : incl (firstn n l) l.
Proof.
  intros x Hx. rewrite <- (firstn_skipn n l). apply in_or_app. now left.
Qed.

End DictFacts.

(** ** The selection step of the classifier *)

Section Selection.

Import Text Num PlotGenerator Policy.
Local Open Scope Q_scope.

Lemma get_some_key (d : Dict.t) (k : string) (v : Q) :
  Dict.get d k = Some v -> In k (Dict.keys d).
Proof.
  intros H. destruct (in_dec string_dec k (Dict.keys d)) as [Hin | Hout];
    [assumption|].
  rewrite (get_not_key d k Hout) in H. discriminate.
Qed.

Lemma item_returned (d : Dict.t) (k : string) (v : Q) :
  Dict.item d k = Returned v -> Dict.get d k = Some v.
Proof. unfold Dict.item. destruct (Dict.get d k); now intros [= ->]. Qed.

Lemma item_of_key (d : Dict.t) (k : string) :
  In k (Dict.keys d) -> exists v, Dict.item d k = Returned v /\ Dict.get d k = Some v.
Proof.
  intros Hin. destruct (get_of_key d k Hin) as [v Hv]. exists v.
  unfold Dict.item. now rewrite Hv.
Qed.

Lemma above_threshold_incl (es : Dict.t) (thr : Q) :
  incl (above_threshold es thr) (Dict.keys es).
Proof.
  unfold above_threshold, Dict.keys. intros l Hl.
  apply in_map_iff in Hl as [kv [<- Hkv]]. apply filter_In in Hkv as [Hkv _].
  now apply in_map.
Qed.

(** What one round of the complement loop does. *)
Lemma complement_step_inv (c : list string) (es : Dict.t) (kv : string * Q)
    (c' : list string) (es' : Dict.t) :
  complement_step (c, es) kv = Returned (c', es') ->
  (c' = c /\ es' = es /\ negb (mem (fst kv) c) && Qltb 0.2 (snd kv) = false) \/
  (exists cur, Dict.get es (fst kv) = Some cur /\
               c' = c ++ [fst kv] /\ es' = Dict.set es (fst kv) (pymax cur 0.5) /\
               negb (mem (fst kv) c) && Qltb 0.2 (snd kv) = true).
Proof.
  destruct kv as [p s]. cbn [complement_step fst snd].
  destruct (negb (mem p c) && Qltb 0.2 s) eqn:E.
  - destruct (Dict.item es p) as [cur|e] eqn:Hi; cbn [obind]; [|discriminate].
    intros [= <- <-]. right. exists cur. apply item_returned in Hi. auto.
  - intros [= <- <-]. left. auto.
Qed.

Lemma complement_loop_inv (P : list string -> Dict.t -> Prop) (l : list (string * Q)) :
  (forall c es kv c' es',
      In kv l -> P c es -> complement_step (c, es) kv = Returned (c', es') -> P c' es') ->
  forall c es c' es',
    P c es -> complement_loop (c, es) l = Returned (c', es') -> P c' es'.
Proof.
  induction l as [|kv r IH]; intros Hstep c es c' es' HP Hloop.
  - cbn in Hloop. now inversion Hloop; subst.
  - cbn [complement_loop] in Hloop.
    destruct (complement_step (c, es) kv) as [[c1 es1]|e] eqn:E; cbn [obind] in Hloop;
      [|discriminate].
    apply (IH (fun c es kv' c' es' Hin => Hstep c es kv' c' es' (or_intror Hin))
              c1 es1 c' es'); [|assumption].
    eapply Hstep; eauto. now left.
Qed.

Lemma complement_loop_keys (l : list (string * Q)) (c : list string) (es : Dict.t)
    (c' : list string) (es' : Dict.t) :
  complement_loop (c, es) l = Returned (c', es') -> Dict.keys es' = Dict.keys es.
Proof.
  apply (complement_loop_inv (fun _ d => Dict.keys d = Dict.keys es) l); [|reflexivity].
  intros c0 es0 kv c1 es1 _ HP Hs.
  apply complement_step_inv in Hs as [(-> & -> & _) | (cur & Hg & -> & -> & _)];
    [assumption|].
  rewrite set_keys; [assumption|]. eapply get_some_key; eauto.
Qed.

Lemma complement_loop_unit (l : list (string * Q)) (c : list string) (es : Dict.t)
    (c' : list string) (es' : Dict.t) :
  Forall in_unit (Dict.values es) ->
  complement_loop (c, es) l = Returned (c', es') -> Forall in_unit (Dict.values es').
Proof.
  intros Hes.
  apply (complement_loop_inv (fun _ d => Forall in_unit (Dict.values d)) l);
    [|assumption].
  intros c0 es0 kv c1 es1 _ HP Hs.
  apply complement_step_inv in Hs as [(-> & -> & _) | (cur & Hg & -> & -> & _)];
    [assumption|].
  apply set_values; [assumption|].
  apply pymax_unit; [|split; discriminate].
  rewrite Forall_forall in HP. apply HP. eapply get_in_values; eauto.
Qed.

Lemma complement_loop_incl (l : list (string * Q)) :
  forall (c : list string) (es : Dict.t) (c' : list string) (es' : Dict.t),
    complement_loop (c, es) l = Returned (c', es') -> incl c' (c ++ map fst l).
Proof.
  induction l as [|kv r IH]; intros c es c' es' Hloop.
  - cbn in Hloop. inversion Hloop; subst. cbn. rewrite app_nil_r. apply incl_refl.
  - cbn [complement_loop] in Hloop.
    destruct (complement_step (c, es) kv) as [[c1 es1]|e] eqn:E; cbn [obind] in Hloop;
      [|discriminate].
    apply IH in Hloop.
    apply complement_step_inv in E as [(-> & -> & _) | (cur & Hg & -> & -> & _)].
    + intros x Hx. apply Hloop in Hx. apply in_app_or in Hx as [Hx | Hx];
        apply in_or_app; [now left | right; now right].
    + intros x Hx. apply Hloop in Hx. rewrite <- app_assoc in Hx.
      apply in_app_or in Hx as [Hx | Hx]; apply in_or_app; [now left | now right].
Qed.

Lemma added_labels_skip (c : list string) (p : string) (r : list (string * Q)) :
  ~ In p (map fst r) -> added_labels (c ++ [p]) r = added_labels c r.
Proof.
  intros Hp. unfold added_labels. f_equal. apply filter_ext_in. intros [k v] Hin.
  cbn [fst snd]. f_equal. f_equal. unfold mem. rewrite existsb_app. cbn [existsb].
  rewrite orb_false_r.
  destruct (String.eqb k p) eqn:E; [|now rewrite orb_false_r].
  apply String.eqb_eq in E. subst. exfalso. apply Hp.
  change p with (fst (p, v)). now apply in_map.
Qed.

(** The complement loop appends exactly the labels of [added_labels]. *)
Lemma complement_loop_spec (l : list (string * Q)) :
  forall (c : list string) (es : Dict.t),
    NoDup (map fst l) -> incl (map fst l) (Dict.keys es) ->
    exists es', complement_loop (c, es) l = Returned (c ++ added_labels c l, es').
Proof.
  induction l as [|[p s] r IH]; intros c es Hnd Hin.
  - exists es. cbn. now rewrite app_nil_r.
  - cbn [map fst] in Hnd, Hin. apply NoDup_cons_iff in Hnd as [Hp Hnd].
    cbn [complement_loop complement_step].
    unfold added_labels. cbn [filter fst snd]. fold (added_labels c r).
    destruct (negb (mem p c) && Qltb 0.2 s) eqn:E.
    + destruct (item_of_key es p) as [cur [Hi Hg]]; [apply Hin; now left|].
      rewrite Hi. cbn [obind map fst].
      destruct (IH (c ++ [p]) (Dict.set es p (pymax cur 0.5)) Hnd) as [es' H'].
      { rewrite set_keys by (eapply get_some_key; eauto).
        intros x Hx. apply Hin. now right. }
      exists es'. rewrite H'. rewrite added_labels_skip by assumption.
      now rewrite <- app_assoc.
    + cbn [obind]. apply IH; [assumption|]. intros x Hx. apply Hin. now right.
Qed.

Lemma added_labels_length (c : list string) (l : list (string * Q)) :
  (List.length (added_labels c l) <= List.length l)%nat.
Proof. unfold added_labels. rewrite length_map. apply filter_length_le. Qed.

Lemma scored_keys (es : Dict.t) :
  forall (c : list string) (sc : list (string * Q)),
    scored es c = Returned sc -> map fst sc = c.
Proof.
  induction c as [|p r IH]; intros sc H; cbn [scored] in H.
  - now inversion H.
  - destruct (Dict.item es p) as [v|]; cbn [obind] in H; [|discriminate].
    destruct (scored es r) as [t|]; cbn [obind] in H; [|discriminate].
    inversion H; subst. cbn. f_equal. now apply IH.
Qed.

Lemma set_keys_categories (d : Dict.t) (k : string) (v : Q) :
  Dict.keys d = plot_categories -> In k plot_categories ->
  Dict.keys (Dict.set d k v) = plot_categories.
Proof. intros Hk Hin. rewrite set_keys; [assumption | now rewrite Hk]. Qed.

Lemma returned_pair_inj {A B} (a a' : A) (b b' : B) :
  Returned (a, b) = Returned (a', b') -> a = a' /\ b = b'.
Proof. intros H. split; congruence. Qed.

Lemma forcing_phase_nonempty (st : list string * Dict.t) :
  fst (forcing_phase st) <> [].
Proof.
  unfold forcing_phase. destruct st as [[|x r] d]; cbn [fst snd]; discriminate.
Qed.

Lemma limit_phase_length (c : list string) (es : Dict.t) (c' : list string) (d : Dict.t) :
  c <> [] -> limit_phase (c, es) = Returned (c', d) ->
  (1 <= List.length c' <= 4)%nat.
Proof.
  intros Hne. unfold limit_phase.
  destruct (4 <? List.length c)%nat eqn:E.
  - destruct (scored es c) as [sc|e] eqn:Hsc; cbn [obind]; [|discriminate].
    intros H. apply returned_pair_inj in H as [<- <-].
    apply Nat.ltb_lt in E. apply scored_keys in Hsc.
    assert (List.length sc = List.length c) by (rewrite <- Hsc; now rewrite length_map).
    rewrite length_map, length_firstn, sorted_desc_length. lia.
  - intros [= <- <-]. apply Nat.ltb_ge in E.
    destruct c; [congruence | cbn in *; lia].
Qed.

Lemma limit_phase_incl (c : list string) (es : Dict.t) (c' : list string) (d : Dict.t) :
  limit_phase (c, es) = Returned (c', d) -> incl c' c /\ d = es.
Proof.
  unfold limit_phase. destruct (4 <? List.length c)%nat.
  - destruct (scored es c) as [sc|e] eqn:Hsc; cbn [obind]; [|discriminate].
    intros H. apply returned_pair_inj in H as [<- <-]. split; [|reflexivity].
    apply scored_keys in Hsc. intros x Hx. rewrite <- Hsc.
    apply in_map_iff in Hx as [kv [<- Hkv]]. apply in_map.
    apply firstn_incl in Hkv.
    now apply (Permutation_in _ (sorted_desc_perm sc)) in Hkv.
  - intros [= <- <-]. split; [apply incl_refl | reflexivity].
Qed.

(** Bounds on the selection, for any score set. *)
Lemma select_plots_length (es : Dict.t) (thr : Q) (c : list string) (d : Dict.t) :
  select_plots es thr = Returned (c, d) ->
  (1 <= List.length c <= 4)%nat.
Proof.
  unfold select_plots.
  destruct (complement_phase es thr) as [st|e]; cbn [obind]; [|discriminate].
  pose proof (forcing_phase_nonempty st) as Hne.
  destruct (forcing_phase st) as [c2 es2]. cbn [fst] in Hne.
  now apply limit_phase_length.
Qed.

Lemma complement_phase_keys (es : Dict.t) (thr : Q) (c : list string) (d : Dict.t) :
  complement_phase es thr = Returned (c, d) -> Dict.keys d = Dict.keys es.
Proof.
  unfold complement_phase. destruct (_ <? _)%nat.
  - apply complement_loop_keys.
  - now intros [= <- <-].
Qed.

Lemma complement_phase_incl (es : Dict.t) (thr : Q) (c : list string) (d : Dict.t) :
  complement_phase es thr = Returned (c, d) -> incl c (Dict.keys es).
Proof.
  unfold complement_phase. destruct (_ <? _)%nat.
  - intros H. apply complement_loop_incl in H. intros x Hx. apply H in Hx.
    apply in_app_or in Hx as [Hx | Hx]; [now apply above_threshold_incl in Hx|].
    apply (in_map_iff fst) in Hx as [kv [<- Hkv]].
    apply firstn_incl in Hkv.
    apply (Permutation_in _ (sorted_desc_perm es)) in Hkv.
    now apply in_map.
  - intros [= <- <-]. apply above_threshold_incl.
Qed.

Lemma complement_phase_unit (es : Dict.t) (thr : Q) (c : list string) (d : Dict.t) :
  Forall in_unit (Dict.values es) ->
  complement_phase es thr = Returned (c, d) -> Forall in_unit (Dict.values d).
Proof.
  unfold complement_phase. intros Hes. destruct (_ <? _)%nat.
  - now apply complement_loop_unit.
  - now intros [= <- <-].
Qed.

(** Labels, keys and range of the scores after the selection, for a score
    set over the five categories. *)
Lemma select_plots_invariants (es : Dict.t) (thr : Q) (c : list string) (d : Dict.t) :
  Dict.keys es = plot_categories ->
  select_plots es thr = Returned (c, d) ->
  incl c plot_categories /\
  Dict.keys d = plot_categories /\
  (Forall in_unit (Dict.values es) -> Forall in_unit (Dict.values d)).
Proof.
  intros Hk. unfold select_plots.
  destruct (complement_phase es thr) as [[c1 es1]|e] eqn:Hc; cbn [obind]; [|discriminate].
  pose proof (complement_phase_keys _ _ _ _ Hc) as Hk1. rewrite Hk in Hk1.
  pose proof (complement_phase_incl _ _ _ _ Hc) as Hi1. rewrite Hk in Hi1.
  pose proof (fun H => complement_phase_unit _ _ _ _ H Hc) as Hu1.
  assert (H2 : incl (fst (forcing_phase (c1, es1))) plot_categories /\
               Dict.keys (snd (forcing_phase (c1, es1))) = plot_categories /\
               (Forall in_unit (Dict.values es) ->
                Forall in_unit (Dict.values (snd (forcing_phase (c1, es1)))))).
  { unfold forcing_phase. destruct c1 as [|x r]; cbn [fst snd].
    - split; [|split].
      + intros y [<- | [<- | []]]; cbn; tauto.
      + repeat (apply set_keys_categories; [|cbn; tauto]). assumption.
      + intros H. repeat apply set_values; auto; split; discriminate.
    - auto. }
  destruct (forcing_phase (c1, es1)) as [c2 es2]. cbn [fst snd] in H2.
  destruct H2 as (Hi2 & Hk2 & Hu2).
  intros Hl. apply limit_phase_incl in Hl as [Hl ->].
  split; [|split; assumption].
  intros x Hx. apply Hi2. now apply Hl.
Qed.

End Selection.

(** ** The scores of the classifier *)

Section Scores.

Import Text Num PlotGenerator Policy.
Local Open Scope Q_scope.

Lemma blend_shape (i s : Dict.t) :
  blend i s =
  [("profile", pymax (Dict.get_default i "profile" 0.0) (Dict.get_default s "profile" 0.0 * 0.8));
   ("time_series", pymax (Dict.get_default i "time_series" 0.0)
                         (Dict.get_default s "time_series" 0.0 * 0.8));
   ("map", pymax (Dict.get_default i "map" 0.0) (Dict.get_default s "map" 0.0 * 0.8));
   ("ts_diagram", pymax (Dict.get_default i "ts_diagram" 0.0)
                        (Dict.get_default s "ts_diagram" 0.0 * 0.8));
   ("3d_scatter", pymax (Dict.get_default i "3d_scatter" 0.0)
                        (Dict.get_default s "3d_scatter" 0.0 * 0.8))].
Proof. reflexivity. Qed.

Lemma in_unit_forallb (l : list Q) :
  forallb (fun v => Qle_bool 0 v && Qle_bool v 1) l = true -> Forall in_unit l.
Proof.
  intros H. rewrite forallb_forall in H. apply Forall_forall. intros v Hv.
  apply H in Hv. apply andb_true_iff in Hv as [H0 H1].
  split; now apply Qle_bool_iff.
Qed.

Lemma rule_scores_returns (t : string) :
  exists d, rule_scores t = Returned d /\
            Dict.keys d = plot_categories /\ Forall in_unit (Dict.values d).
Proof.
  unfold rule_scores.
  destruct (any_in profile_words t), (any_in time_words t), (any_in map_words t),
           (any_in ts_words t), (any_in scatter_words t), (any_in ocean_words t);
    eexists; (split; [reflexivity|]);
    (split; [reflexivity | apply in_unit_forallb; reflexivity]).
Qed.

Lemma scaled_unit (v : Q) : in_unit v -> in_unit (v * 0.8).
Proof.
  intros [H0 H1]. split.
  - apply Qmult_le_0_compat; [assumption | discriminate].
  - apply Qle_trans with (1 * 0.8); [|discriminate].
    apply Qmult_le_compat_r; [assumption | discriminate].
Qed.

Lemma blend_unit (i s : Dict.t) :
  Forall in_unit (Dict.values i) -> Forall in_unit (Dict.values s) ->
  Forall in_unit (Dict.values (blend i s)).
Proof.
  intros Hi Hs. rewrite blend_shape. cbn [Dict.values map snd].
  repeat constructor;
    apply pymax_unit; try apply scaled_unit; now apply get_default_unit.
Qed.

Lemma row_max_unit (predictions : list (list Q)) (row : list Q) (m : Q) :
  probabilities predictions -> In row predictions ->
  row_max row = Returned m -> in_unit m.
Proof.
  intros Hp Hin. destruct row as [|x xs]; cbn [row_max]; [discriminate|].
  intros [= <-]. destruct (max_list_in xs x) as [-> | Hm].
  - apply (Hp _ _ Hin). now left.
  - apply (Hp _ _ Hin). now right.
Qed.

Lemma ml_scores_unit (predictions : list (list Q)) :
  probabilities predictions ->
  forall labels i sc sc',
    Forall in_unit (Dict.values sc) ->
    ml_scores i labels predictions sc = Returned sc' ->
    Forall in_unit (Dict.values sc').
Proof.
  intros Hp. induction labels as [|l r IH]; intros i sc sc' Hsc H; cbn [ml_scores] in H.
  - now inversion H; subst.
  - destruct (nth_error predictions i) as [row|] eqn:En.
    + destruct (row_max row) as [m|] eqn:Em; cbn [obind] in H; [|discriminate].
      apply (IH _ _ _ (set_values in_unit sc l m Hsc
                         (row_max_unit _ _ _ Hp (nth_error_In _ _ En) Em)) H).
    + cbn [obind] in H.
      refine (IH _ _ _ (set_values in_unit sc l 0.1 Hsc _) H). split; discriminate.
Qed.

(** The blended scores are a score set over the five categories. *)
Lemma blended_scores_keys (clf : Classifier) (prompt : string) (es : Dict.t) :
  blended_scores clf prompt = Returned es -> Dict.keys es = plot_categories.
Proof.
  unfold blended_scores.
  destruct (clf prompt) as [preds|]; cbn [obind]; [|discriminate].
  destruct (ml_scores 0 plot_categories preds []) as [sc|]; cbn [obind]; [|discriminate].
  destruct (rule_scores (lower prompt)) as [i|]; cbn [obind]; [|discriminate].
  intros [= <-]. now rewrite blend_shape.
Qed.

Lemma blended_scores_unit (clf : Classifier) (prompt : string) (es : Dict.t) :
  (forall predictions, clf prompt = Returned predictions -> probabilities predictions) ->
  blended_scores clf prompt = Returned es -> Forall in_unit (Dict.values es).
Proof.
  unfold blended_scores. intros Hp.
  destruct (clf prompt) as [preds|]; cbn [obind]; [|discriminate].
  destruct (ml_scores 0 plot_categories preds []) as [sc|] eqn:Hml; cbn [obind];
    [|discriminate].
  destruct (rule_scores_returns (lower prompt)) as (i & Hi & _ & Hu).
  rewrite Hi. cbn [obind]. intros [= <-].
  apply blend_unit; [assumption|].
  eapply ml_scores_unit; [apply (Hp preds eq_refl) | | exact Hml]. constructor.
Qed.

Lemma apply_floor_invariants (es es' : Dict.t) :
  Dict.keys es = plot_categories ->
  apply_floor es = Returned es' ->
  Dict.keys es' = plot_categories /\
  (Forall in_unit (Dict.values es) -> Forall in_unit (Dict.values es')).
Proof.
  intros Hk. unfold apply_floor.
  destruct (max_score es) as [m|]; cbn [obind]; [|discriminate].
  destruct (Qltb m 0.4); intros [= <-]; [|auto].
  split.
  - repeat (apply set_keys_categories; [|cbn; tauto]). assumption.
  - intros H. repeat apply set_values; auto; split; discriminate.
Qed.

(** What a returning [try] block of [classify_prompt] guarantees. *)
Lemma classify_body_invariants (clf : Classifier) (prompt : string) (thr : Q)
    (c : list string) (d : Dict.t) :
  classify_body clf prompt thr = Returned (c, d) ->
  (1 <= List.length c <= 4)%nat /\
  incl c plot_categories /\
  Dict.keys d = plot_categories /\
  ((forall predictions, clf prompt = Returned predictions -> probabilities predictions) ->
   Forall in_unit (Dict.values d)).
Proof.
  unfold classify_body.
  destruct (blended_scores clf prompt) as [es0|] eqn:Hb; cbn [obind]; [|discriminate].
  destruct (apply_floor es0) as [es|] eqn:Hf; cbn [obind]; [|discriminate].
  intros Hs.
  pose proof (blended_scores_keys _ _ _ Hb) as Hk0.
  destruct (apply_floor_invariants _ _ Hk0 Hf) as [Hk Hu].
  destruct (select_plots_invariants _ _ _ _ Hk Hs) as (Hi & Hkd & Hud).
  split; [eapply select_plots_length; eauto|].
  split; [assumption|]. split; [assumption|].
  intros Hp. apply Hud, Hu. eapply blended_scores_unit; eauto.
Qed.

(** C9 (as amended): the score set returned by [classify_prompt] has an
    entry for each of the five categories profile, time_series, map,
    ts_diagram and 3d_scatter, and for no other label: cross_section has no
    entry.  Each score lies in [0,1] when the probabilities given by the
    classifier do. *)
Theorem C9_score_set_keys_and_range :
  forall (clf : Classifier) (prompt : string) (threshold : Q),
    (forall predictions, clf prompt = Returned predictions -> probabilities predictions) ->
    let scores := snd (classify_prompt clf prompt threshold) in
    (forall label, In label (Dict.keys scores) <-> In label plot_categories) /\
    (forall label, In label plot_categories ->
       exists v, Dict.get scores label = Some v /\ in_unit v) /\
    Dict.get scores "cross_section" = None.
Proof.
  intros clf prompt threshold Hp scores.
  assert (H : (forall label, In label (Dict.keys scores) <-> In label plot_categories) /\
              Forall in_unit (Dict.values scores)).
  { unfold scores, classify_prompt.
    destruct (classify_body clf prompt threshold) as [[c d]|e] eqn:Hb.
    - destruct (classify_body_invariants _ _ _ _ _ Hb) as (_ & _ & Hk & Hu).
      cbn [snd]. rewrite Hk. split; [tauto | now apply Hu].
    - cbn [snd fallback_classification]. split.
      + intros label. cbn. tauto.
      + apply in_unit_forallb. reflexivity. }
  destruct H as [Hk Hu]. split; [exact Hk|]. split.
  - intros label Hl. apply Hk in Hl. destruct (get_of_key _ _ Hl) as [v Hv].
    exists v. split; [assumption|].
    rewrite Forall_forall in Hu. apply Hu. eapply get_in_values; eauto.
  - apply get_not_key. intros H. apply Hk in H. cbn in H.
    repeat (destruct H as [H | H]; [discriminate|]). destruct H.
Qed.

End Scores.

(** ** Running the classifier on score sets with unknown entries *)

(** Comparisons are settled by linear arithmetic from the hypotheses. *)
Ltac decide_cmp :=
  match goal with
  | |- context [Num.pymax ?a ?b] =>
      first [ rewrite (pymax_left a b) by lra | rewrite (pymax_right a b) by lra ]
  | |- context [Num.Qltb ?a ?b] =>
      first [ rewrite (Qltb_true a b) by lra | rewrite (Qltb_false a b) by lra ]
  | |- context [Qle_bool ?a ?b] =>
      first [ rewrite (Qle_bool_true a b) by lra | rewrite (Qle_bool_false a b) by lra ]
  end.

Ltac unfold_classifier :=
  unfold PlotGenerator.select_plots, PlotGenerator.complement_phase,
         PlotGenerator.forcing_phase, PlotGenerator.limit_phase,
         PlotGenerator.above_threshold, PlotGenerator.complement_step,
         PlotGenerator.apply_floor, PlotGenerator.max_score,
         Dict.item, Dict.get_default, Dict.sorted_desc, Dict.values, Dict.keys,
         Num.max_list, Text.mem;
  cbn [PlotGenerator.complement_loop PlotGenerator.scored
       PlotGenerator.ml_scores PlotGenerator.row_max
       PlotGenerator.plot_categories PlotGenerator.fallback_classification
       Dict.get Dict.set Dict.insert_desc
       obind filter map fst snd List.length Nat.ltb Nat.leb firstn nth_error
       existsb fold_right fold_left app negb andb orb
       String.eqb Ascii.eqb Bool.eqb].

Ltac run_classifier := repeat (progress unfold_classifier || decide_cmp).

Section FloorAndScenario.

Import Text Num PlotGenerator Policy.
Local Open Scope Q_scope.

Lemma max_score_bound (es : Dict.t) (m : Q) (k : string) (v : Q) :
  max_score es = Returned m -> Dict.get es k = Some v -> v <= m.
Proof.
  unfold max_score. intros Hm Hg. apply get_in_values in Hg.
  destruct (Dict.values es) as [|x xs]; [discriminate|].
  injection Hm as <-. destruct Hg as [<- | Hg].
  - apply max_list_ge_head.
  - now apply max_list_ge.
Qed.



End FloorAndScenario.

Section ClassifierClaims.

Import Text Num PlotGenerator Policy.
Local Open Scope Q_scope.

Lemma even_model_probabilities (prompt : string) :
  forall predictions, even_model prompt = Returned predictions -> probabilities predictions.
Proof.
  intros predictions [= <-] row v [<- | []] Hv.
  destruct Hv as [<- | [<- | []]]; split; discriminate.
Qed.

Lemma C9_witness :
  Dict.get (snd (classify_prompt even_model "temperature map of arabian sea"
                   default_threshold)) "cross_section" = None.
Proof.
  apply (proj2 (proj2 (C9_score_set_keys_and_range even_model
                         "temperature map of arabian sea" default_threshold
                         (even_model_probabilities _)))).
Defined.

(** C9, the claim as worded fails: cross_section, a label of the fixed set,
    has no entry in the score set. *)
Lemma C9_counterexample :
  ~ (forall label, In label plot_labels ->
       exists v, Dict.get (snd (classify_prompt even_model "ocean cross section"
                                  default_threshold)) label = Some v /\ in_unit v).
Proof.
  intros H. destruct (H "cross_section") as [v [Hv _]].
  - cbn. tauto.
  - vm_compute in Hv. discriminate.
Qed.


Lemma water_profile_rules :
  rule_scores (lower water_profile_prompt)
  = Returned [("profile", 0.6); ("time_series", 0.0); ("map", 0.9);
              ("ts_diagram", 0.7); ("3d_scatter", 0.8)].
Proof. reflexivity. Qed.

(** C4, what the code does: for the prompt of the scenario, the default
    threshold and a classifier that answers with one row of probabilities
    at most 1, profile and 3d_scatter are selected (with map and ts_diagram
    when the row is not empty), and the score of profile is below 0.9: the
    map keywords, matched by "mumbai", overwrite the 0.9 of the profile
    keywords with 0.6. *)
Theorem C4_profile_score_is_lowered :
  forall (clf : Classifier) (row : list Q),
    clf water_profile_prompt = Returned [row] ->
    (forall v, In v row -> v <= 1) ->
    let result := classify_prompt clf water_profile_prompt default_threshold in
    In "profile" (fst result) /\
    In "3d_scatter" (fst result) /\
    (row <> [] -> fst result = ["profile"; "map"; "ts_diagram"; "3d_scatter"]) /\
    exists v, Dict.get (snd result) "profile" = Some v /\ v < 0.9.
Proof.
  intros clf row Hclf Hrow result. unfold result, classify_prompt, classify_body,
    blended_scores.
  rewrite Hclf, water_profile_rules. cbn [obind]. unfold default_threshold.
  destruct row as [|x xs].
  - cbn. split; [tauto|]. split; [tauto|]. split; [congruence|].
    exists 0.7. split; reflexivity.
  - cbn [ml_scores nth_error row_max obind plot_categories].
    assert (Hp : max_list x xs <= 1).
    { destruct (max_list_in xs x) as [-> | Hin]; apply Hrow; [now left | now right]. }
    generalize dependent (max_list x xs). intros p Hp.
    rewrite blend_shape.
    cbn [Dict.get_default Dict.get Dict.set String.eqb Ascii.eqb Bool.eqb].
    pose proof (pymax_ge_l 0.6 (p * 0.8)) as Hv1.
    assert (Hv2 : pymax 0.6 (p * 0.8) < 0.9).
    { destruct (pymax_cases 0.6 (p * 0.8)) as [-> | ->]; lra. }
    generalize dependent (pymax 0.6 (p * 0.8)). intros v Hv1 Hv2.
    run_classifier.
    split; [cbn; tauto|]. split; [cbn; tauto|]. split; [reflexivity|].
    exists v. split; [reflexivity | assumption].
Qed.

Lemma C4_witness :
  In "profile" (fst (classify_prompt even_model water_profile_prompt default_threshold)).
Proof.
  refine (proj1 (C4_profile_score_is_lowered even_model [0.5; 0.5] eq_refl _)).
  intros v [<- | [<- | []]]; discriminate.
Defined.

End ClassifierClaims.

Section SelectionPolicy.

Import Text Num PlotGenerator Policy.
Local Open Scope Q_scope.

Lemma categories_shape (es : Dict.t) :
  Dict.keys es = plot_categories ->
  exists v1 v2 v3 v4 v5,
    es = [("profile", v1); ("time_series", v2); ("map", v3);
          ("ts_diagram", v4); ("3d_scatter", v5)].
Proof.
  unfold Dict.keys, plot_categories.
  destruct es as [|[k1 v1] [|[k2 v2] [|[k3 v3] [|[k4 v4] [|[k5 v5] [|]]]]]];
    cbn [map fst]; intros H; try discriminate.
  injection H as -> -> -> -> ->. now exists v1, v2, v3, v4, v5.
Qed.

Lemma categories_NoDup : NoDup plot_categories.
Proof.
  unfold plot_categories.
  repeat (constructor; [cbn; intuition discriminate|]). constructor.
Qed.

Lemma top_keys (es : Dict.t) (n : nat) :
  Dict.keys es = plot_categories ->
  NoDup (map fst (firstn n (Dict.sorted_desc es))) /\
  incl (map fst (firstn n (Dict.sorted_desc es))) (Dict.keys es).
Proof.
  intros Hk. split.
  - apply firstn_keys_NoDup.
    apply (Permutation_NoDup (Permutation_sym (sorted_desc_keys es))).
    fold (Dict.keys es). rewrite Hk. apply categories_NoDup.
  - intros x Hx. apply in_map_iff in Hx as [kv [<- Hkv]].
    apply firstn_incl in Hkv.
    apply (Permutation_in _ (sorted_desc_perm es)) in Hkv.
    now apply in_map.
Qed.

(** All five labels reach the threshold: the four of highest score stay. *)
Lemma select_plots_all_above (es : Dict.t) (thr : Q) :
  Dict.keys es = plot_categories ->
  (4 < List.length (above_threshold es thr))%nat ->
  select_plots es thr = Returned (map fst (firstn 4 (Dict.sorted_desc es)), es).
Proof.
  intros Hk Hlen. destruct (categories_shape es Hk) as (v1 & v2 & v3 & v4 & v5 & ->).
  revert Hlen. unfold select_plots, complement_phase, above_threshold.
  cbn [filter snd].
  destruct (Qle_bool thr v1), (Qle_bool thr v2), (Qle_bool thr v3),
           (Qle_bool thr v4), (Qle_bool thr v5);
    cbn [map fst List.length]; intros Hlen; try (exfalso; lia).
  reflexivity.
Qed.

Lemma select_plots_policy (es : Dict.t) (thr : Q) :
  Dict.keys es = plot_categories ->
  let above := above_threshold es thr in
  let top3 := firstn 3 (Dict.sorted_desc es) in
  exists selected es',
    select_plots es thr = Returned (selected, es') /\
    ((List.length above < 2)%nat -> above ++ added_labels above top3 <> [] ->
       selected = above ++ added_labels above top3) /\
    ((List.length above < 2)%nat -> above ++ added_labels above top3 = [] ->
       selected = ["3d_scatter"; "profile"]) /\
    ((2 <= List.length above <= 4)%nat -> selected = above) /\
    ((4 < List.length above)%nat ->
       selected = map fst (firstn 4 (Dict.sorted_desc es))).
Proof.
  intros Hk above top3.
  destruct (List.length above <? 2)%nat eqn:E2.
  - apply Nat.ltb_lt in E2.
    destruct (top_keys es 3 Hk) as [Hnd Hin].
    destruct (complement_loop_spec top3 above es Hnd Hin) as [es1 Hloop].
    assert (Hlen : (List.length (above ++ added_labels above top3) <= 4)%nat).
    { rewrite length_app. pose proof (added_labels_length above top3) as H.
      unfold top3 in H at 2. rewrite length_firstn in H. lia. }
    assert (Hsel : select_plots es thr
                   = limit_phase (forcing_phase (above ++ added_labels above top3, es1))).
    { unfold select_plots, complement_phase. fold above.
      apply Nat.ltb_lt in E2. rewrite E2. fold top3. now rewrite Hloop. }
    rewrite Hsel. destruct (above ++ added_labels above top3) as [|x r] eqn:Ec.
    + eexists _, _. split; [reflexivity|].
      repeat split; intros; try reflexivity; try congruence; lia.
    + unfold forcing_phase, limit_phase.
      replace (4 <? List.length (x :: r))%nat with false
        by (symmetry; apply Nat.ltb_ge; exact Hlen).
      eexists _, _. split; [reflexivity|].
      repeat split; intros; try reflexivity; try congruence; lia.
  - apply Nat.ltb_ge in E2.
    destruct (4 <? List.length above)%nat eqn:E4.
    + apply Nat.ltb_lt in E4.
      rewrite (select_plots_all_above es thr Hk E4).
      eexists _, _. split; [reflexivity|].
      repeat split; intros; try reflexivity; lia.
    + assert (Hsel : select_plots es thr = Returned (above, es)).
      { unfold select_plots, complement_phase. fold above.
        replace (List.length above <? 2)%nat with false
          by (symmetry; now apply Nat.ltb_ge).
        cbn [obind]. unfold forcing_phase, limit_phase.
        destruct above as [|x r]; [cbn in E2; lia|].
        now rewrite E4. }
      rewrite Hsel. apply Nat.ltb_ge in E4.
      eexists _, _. split; [reflexivity|].
      repeat split; intros; try reflexivity; lia.
Qed.

(** The label left out by the limit has a score no higher than the labels
    kept. *)
Lemma top4_dominates (es : Dict.t) :
  Dict.keys es = plot_categories ->
  forall l v l' v',
    In (l, v) es -> ~ In l (map fst (firstn 4 (Dict.sorted_desc es))) ->
    In (l', v') es -> In l' (map fst (firstn 4 (Dict.sorted_desc es))) ->
    v <= v'.
Proof.
  intros Hk l v l' v' Hl Hout Hl' Hin.
  pose proof (sorted_desc_sorted es) as Hs. unfold descending in Hs.
  pose proof (sorted_desc_perm es) as Hp.
  assert (Hnd : NoDup (map fst (Dict.sorted_desc es))).
  { apply (Permutation_NoDup (Permutation_sym (sorted_desc_keys es))).
    fold (Dict.keys es). rewrite Hk. apply categories_NoDup. }
  rewrite <- (firstn_skipn 4 (Dict.sorted_desc es)) in Hs, Hp, Hnd.
  set (top := firstn 4 (Dict.sorted_desc es)) in *.
  set (rest := skipn 4 (Dict.sorted_desc es)) in *.
  assert (Hrest : In (l, v) rest).
  { apply (Permutation_in _ (Permutation_sym Hp)) in Hl.
    apply in_app_or in Hl as [Hl | Hl]; [|assumption].
    exfalso. apply Hout. change l with (fst (l, v)). now apply in_map. }
  assert (Htop : In (l', v') top).
  { apply in_map_iff in Hin as [[k w] [Hk' Hkw]]. cbn in Hk'. subst k.
    assert (w = v'); [|now subst].
    assert (Hw : In (l', w) es).
    { apply (Permutation_in _ Hp). apply in_or_app. now left. }
    clear - Hw Hl' Hk.
    destruct (categories_shape es Hk) as (v1 & v2 & v3 & v4 & v5 & ->).
    cbn in Hw, Hl'.
    repeat (destruct Hw as [Hw | Hw]; [injection Hw as <- <-|]); try destruct Hw;
      repeat (destruct Hl' as [Hl' | Hl']; [try discriminate Hl'; now injection Hl'|]);
      destruct Hl'. }
  clear - Hs Hrest Htop.
  induction top as [|t ts IH]; [destruct Htop|].
  cbn [app] in Hs. inversion Hs as [|? ? Hs' Hall]; subst.
  destruct Htop as [-> | Htop].
  - rewrite Forall_forall in Hall. apply (Hall (l, v)).
    apply in_or_app. now right.
  - now apply IH.
Qed.

(** C2 (as amended): [classify_prompt] returns between one and four labels,
    all of them among the five categories profile, time_series, map,
    ts_diagram and 3d_scatter; its selection is [select_plots] on the
    blended scores after the floor.  On a score set over the five
    categories, with [above] the labels that reach the threshold: when
    fewer than two reach it, every label among the three of highest score
    that is not in [above] and whose score exceeds 0.2 is appended, so one
    to three labels may result, and the pair 3d_scatter, profile is returned
    when that leaves nothing; when two to four reach it, they are the
    selection; when all five reach it, the four of highest score are kept,
    the one left out having a score no higher than theirs. *)
Theorem C2_selection_policy :
  forall (clf : Classifier) (prompt : string) (threshold : Q),
    let chosen := fst (classify_prompt clf prompt threshold) in
    (1 <= List.length chosen <= 4)%nat /\
    (forall label, In label chosen -> In label plot_categories /\ In label plot_labels) /\
    (forall es0 es,
       blended_scores clf prompt = Returned es0 -> apply_floor es0 = Returned es ->
       Dict.keys es = plot_categories /\
       exists d, select_plots es threshold = Returned (chosen, d)) /\
    (forall es,
       Dict.keys es = plot_categories ->
       let above := above_threshold es threshold in
       let top3 := firstn 3 (Dict.sorted_desc es) in
       Permutation (Dict.sorted_desc es) es /\
       descending (Dict.sorted_desc es) /\
       exists selected es',
         select_plots es threshold = Returned (selected, es') /\
         ((List.length above < 2)%nat -> above ++ added_labels above top3 <> [] ->
            selected = above ++ added_labels above top3) /\
         ((List.length above < 2)%nat -> above ++ added_labels above top3 = [] ->
            selected = ["3d_scatter"; "profile"]) /\
         ((2 <= List.length above <= 4)%nat -> selected = above) /\
         ((4 < List.length above)%nat ->
            selected = map fst (firstn 4 (Dict.sorted_desc es)) /\
            forall l v l' v',
              In (l, v) es -> ~ In l selected ->
              In (l', v') es -> In l' selected -> v <= v')).
Proof.
  intros clf prompt threshold chosen.
  assert (Hbody : (1 <= List.length chosen <= 4)%nat /\ incl chosen plot_categories).
  { unfold chosen, classify_prompt.
    destruct (classify_body clf prompt threshold) as [[c d]|e] eqn:Hb.
    - destruct (classify_body_invariants _ _ _ _ _ Hb) as (Hl & Hi & _). now split.
    - cbn [fst fallback_classification]. split; [cbn; lia|].
      intros x [<- | [<- | [<- | []]]]; cbn; tauto. }
  destruct Hbody as [Hlen Hincl].
  split; [exact Hlen|]. split; [|split].
  - intros label Hl. apply Hincl in Hl. split; [assumption|].
    cbn in Hl |- *. tauto.
  - intros es0 es Hb Hf.
    pose proof (blended_scores_keys _ _ _ Hb) as Hk0.
    destruct (apply_floor_invariants _ _ Hk0 Hf) as [Hk _].
    split; [assumption|].
    destruct (select_plots_policy es threshold Hk) as (sel & d & Hsel & _).
    exists d. unfold chosen, classify_prompt, classify_body.
    rewrite Hb. cbn [obind]. rewrite Hf. cbn [obind]. now rewrite Hsel.
  - intros es Hk above top3.
    split; [apply sorted_desc_perm|]. split; [apply sorted_desc_sorted|].
    destruct (select_plots_policy es threshold Hk) as (sel & d & Hsel & H1 & H2 & H3 & H4).
    exists sel, d. split; [assumption|]. split; [assumption|]. split; [assumption|].
    split; [assumption|].
    intros H. specialize (H4 H). split; [assumption|]. subst sel.
    now apply top4_dominates.
Qed.

End SelectionPolicy.

Section SelectionExamples.

Import Text Num PlotGenerator Policy.
Local Open Scope Q_scope.

Lemma C2_witness :
  (exists d, select_plots low_scores default_threshold
             = Returned (["3d_scatter"; "profile"], d)) /\
  (exists d, select_plots high_scores default_threshold
             = Returned (["time_series"; "3d_scatter"; "map"; "profile"], d)).
Proof.
  split.
  - destruct (proj2 (proj2 (proj2 (C2_selection_policy even_model "hello"
                                     default_threshold))) low_scores eq_refl)
      as (_ & _ & sel & d & Hsel & _ & Hforced & _).
    exists d. rewrite Hsel. f_equal. f_equal. apply Hforced.
    + cbn. lia.
    + reflexivity.
  - destruct (proj2 (proj2 (proj2 (C2_selection_policy even_model "hello"
                                     default_threshold))) high_scores eq_refl)
      as (_ & _ & sel & d & Hsel & _ & _ & _ & Htop).
    exists d. rewrite Hsel. f_equal. f_equal. apply Htop. cbn. lia.
Defined.

(** C2, the claim as worded fails.  With the threshold 0.85 the prompt
    "profile" has one label at the threshold; the loop appends two labels,
    where adding until two are present appends one.  With the default
    threshold the prompt "hello" has one label at the threshold and none is
    added, so fewer than two labels are present at the end. *)
Lemma C2_counterexample :
  (blended_scores even_model "profile" = Returned profile_scores /\
   apply_floor profile_scores = Returned profile_scores /\
   List.length (above_threshold profile_scores 0.85) = 1%nat /\
   fst (classify_prompt even_model "profile" 0.85)
     = ["profile"; "ts_diagram"; "3d_scatter"] /\
   SpecWords.selection profile_scores 0.85 = ["profile"; "ts_diagram"] /\
   fst (classify_prompt even_model "profile" 0.85)
     <> SpecWords.selection profile_scores 0.85) /\
  (blended_scores even_model "hello" = Returned hello_scores /\
   apply_floor hello_scores = Returned hello_scores /\
   List.length (above_threshold hello_scores default_threshold) = 1%nat /\
   fst (classify_prompt even_model "hello" default_threshold) = ["profile"]).
Proof.
  split.
  - do 5 (split; [vm_compute; reflexivity|]). vm_compute. discriminate.
  - do 3 (split; [vm_compute; reflexivity|]). vm_compute. reflexivity.
Qed.

End SelectionExamples.

(* ===================================================================== *)
(** * Further properties of the code *)
(* ===================================================================== *)

(** ** More on score dictionaries *)

Section DictUpdates.

Import Text Num Policy.
Local Open Scope Q_scope.

Lemma get_set_same (d : Dict.t) (k : string) (v : Q) :
  Dict.get (Dict.set d k v) k = Some v.
Proof.
  induction d as [|[k' v'] r IH]; cbn [Dict.set Dict.get].
  - now rewrite String.eqb_refl.
  - destruct (String.eqb k k') eqn:E; cbn [Dict.get]; rewrite E; auto.
Qed.

Lemma get_set_other (d : Dict.t) (k k' : string) (v : Q) :
  k' <> k -> Dict.get (Dict.set d k v) k' = Dict.get d k'.
Proof.
  intros Hne. induction d as [|[k0 v0] r IH]; cbn [Dict.set Dict.get].
  - apply String.eqb_neq in Hne. now rewrite Hne.
  - destruct (String.eqb k k0) eqn:E; cbn [Dict.get].
    + apply String.eqb_eq in E. subst k0.
      apply String.eqb_neq in Hne. now rewrite Hne.
    + destruct (String.eqb k' k0); auto.
Qed.

Lemma get_of_pair (d : Dict.t) (k : string) (v : Q) :
  NoDup (Dict.keys d) -> In (k, v) d -> Dict.get d k = Some v.
Proof.
  unfold Dict.keys. induction d as [|[k0 v0] r IH]; intros Hnd Hin; [destruct Hin|].
  cbn [map fst] in Hnd. apply NoDup_cons_iff in Hnd as [Hk0 Hnd].
  cbn [Dict.get]. destruct Hin as [Hin | Hin].
  - injection Hin as -> ->. now rewrite String.eqb_refl.
  - destruct (String.eqb k k0) eqn:E; [|now apply IH].
    apply String.eqb_eq in E. subst k0. exfalso. apply Hk0.
    change k with (fst (k, v)). now apply in_map.
Qed.

Lemma scores_le_refl (d : Dict.t) : scores_le d d.
Proof. intros l v H. exists v. split; [assumption | apply Qle_refl]. Qed.

Lemma scores_le_trans (d1 d2 d3 : Dict.t) :
  scores_le d1 d2 -> scores_le d2 d3 -> scores_le d1 d3.
Proof.
  intros H12 H23 l v H. destruct (H12 l v H) as (v2 & H2 & Hle2).
  destruct (H23 l v2 H2) as (v3 & H3 & Hle3). exists v3. split; [assumption|].
  eapply Qle_trans; eauto.
Qed.

Lemma scores_le_set (d : Dict.t) (k : string) (x : Q) :
  (forall cur, Dict.get d k = Some cur -> cur <= x) -> scores_le d (Dict.set d k x).
Proof.
  intros Hx l v H. destruct (string_dec l k) as [-> | Hne].
  - exists x. split; [apply get_set_same | now apply Hx].
  - exists v. rewrite get_set_other by assumption. split; [assumption | apply Qle_refl].
Qed.

End DictUpdates.

(** ** More on the classifier *)

Section ClassifierInvariants.

Import Text Num PlotGenerator Policy Invariants.
Local Open Scope Q_scope.

Lemma filter_keys_NoDup (f : string * Q -> bool) (d : Dict.t) :
  NoDup (map fst d) -> NoDup (map fst (filter f d)).
Proof.
  induction d as [|[k v] r IH]; intros Hnd; cbn [filter map fst]; [constructor|].
  cbn [map fst] in Hnd. apply NoDup_cons_iff in Hnd as [Hk Hnd].
  destruct (f (k, v)); [|now apply IH].
  cbn [map fst]. constructor; [|now apply IH].
  intros Hin. apply Hk. apply in_map_iff in Hin as [kv [E Hkv]].
  apply filter_In in Hkv as [Hkv _]. rewrite <- E. now apply in_map.
Qed.

Lemma complement_loop_NoDup (l : list (string * Q)) (c : list string) (es : Dict.t)
    (c' : list string) (es' : Dict.t) :
  NoDup c -> complement_loop (c, es) l = Returned (c', es') -> NoDup c'.
Proof.
  apply (complement_loop_inv (fun c0 _ => NoDup c0) l).
  intros c0 es0 kv c1 es1 _ HP Hs.
  apply complement_step_inv in Hs as [(-> & -> & _) | (cur & Hg & -> & -> & Hc)];
    [assumption|].
  apply andb_true_iff in Hc as [Hc _]. apply negb_true_iff in Hc.
  apply mem_not_In in Hc.
  apply NoDup_app; [assumption | repeat constructor; intros [] |].
  intros x Hx [<- | []]. contradiction.
Qed.

Lemma select_plots_NoDup (es : Dict.t) (thr : Q) (c : list string) (d : Dict.t) :
  NoDup (Dict.keys es) -> select_plots es thr = Returned (c, d) -> NoDup c.
Proof.
  intros Hk. unfold select_plots.
  destruct (complement_phase es thr) as [[c1 es1]|e] eqn:Hc; cbn [obind]; [|discriminate].
  assert (H1 : NoDup c1).
  { revert Hc. unfold complement_phase.
    assert (Ha : NoDup (above_threshold es thr)) by (now apply filter_keys_NoDup).
    destruct (_ <? _)%nat.
    - now apply complement_loop_NoDup.
    - now intros [= <- <-]. }
  assert (H2 : NoDup (fst (forcing_phase (c1, es1)))).
  { unfold forcing_phase. destruct c1; cbn [fst]; [|assumption].
    repeat (constructor; [cbn; intuition discriminate|]). constructor. }
  destruct (forcing_phase (c1, es1)) as [c2 es2]. cbn [fst] in H2.
  unfold limit_phase. destruct (4 <? List.length c2)%nat.
  - destruct (scored es2 c2) as [sc|] eqn:Hsc; cbn [obind]; [|discriminate].
    intros H. apply returned_pair_inj in H as [<- _].
    apply scored_keys in Hsc. apply firstn_keys_NoDup.
    apply (Permutation_NoDup (Permutation_sym (sorted_desc_keys sc))).
    now rewrite Hsc.
  - now intros [= <- <-].
Qed.

(** What a returning [try] block went through. *)
Lemma classify_body_stages (clf : Classifier) (prompt : string) (thr : Q)
    (r : list string * Dict.t) :
  classify_body clf prompt thr = Returned r ->
  exists es0 es,
    blended_scores clf prompt = Returned es0 /\
    apply_floor es0 = Returned es /\
    Dict.keys es0 = plot_categories /\
    Dict.keys es = plot_categories /\
    select_plots es thr = Returned r.
Proof.
  unfold classify_body.
  destruct (blended_scores clf prompt) as [es0|] eqn:Hb; cbn [obind]; [|discriminate].
  destruct (apply_floor es0) as [es|] eqn:Hf; cbn [obind]; [|discriminate].
  intros Hs. exists es0, es.
  pose proof (blended_scores_keys _ _ _ Hb) as Hk0.
  destruct (apply_floor_invariants _ _ Hk0 Hf) as [Hk _]. auto.
Qed.

(** X1: the selection never holds the same label twice. *)
Theorem classify_prompt_NoDup :
  forall (clf : Classifier) (prompt : string) (threshold : Q),
    NoDup (fst (classify_prompt clf prompt threshold)).
Proof.
  intros clf prompt threshold. unfold classify_prompt.
  destruct (classify_body clf prompt threshold) as [[c d]|e] eqn:Hb.
  - destruct (classify_body_stages _ _ _ _ Hb) as (es0 & es & _ & _ & _ & Hk & Hs).
    cbn [fst]. eapply select_plots_NoDup; [|exact Hs].
    rewrite Hk. apply categories_NoDup.
  - cbn [fst fallback_classification].
    repeat (constructor; [cbn; intuition discriminate|]). constructor.
Qed.

Lemma select_plots_well_scored (es : Dict.t) (thr : Q) (c : list string) (d : Dict.t) :
  NoDup (Dict.keys es) -> select_plots es thr = Returned (c, d) -> well_scored thr c d.
Proof.
  intros Hk. unfold select_plots.
  destruct (complement_phase es thr) as [[c1 es1]|e] eqn:Hc; cbn [obind]; [|discriminate].
  assert (H1 : well_scored thr c1 es1).
  { revert Hc. unfold complement_phase.
    assert (Ha : well_scored thr (above_threshold es thr) es).
    { intros l Hl. unfold above_threshold in Hl.
      apply in_map_iff in Hl as [[k v] [E Hkv]]. cbn in E. subst k.
      apply filter_In in Hkv as [Hkv Hv]. cbn [snd] in Hv.
      exists v. split; [now apply get_of_pair|]. left. now apply Qle_bool_iff. }
    destruct (_ <? _)%nat; [|now intros [= <- <-]].
    apply (complement_loop_inv (well_scored thr)); [|assumption].
    intros c0 es0 kv c' es' _ HP Hs.
    apply complement_step_inv in Hs as [(-> & -> & _) | (cur & Hg & -> & -> & _)];
      [assumption|].
    intros l Hl. destruct (string_dec l (fst kv)) as [-> | Hne].
    - exists (pymax cur 0.5). split; [apply get_set_same|]. right. apply pymax_ge_r.
    - apply in_app_or in Hl as [Hl | [<- | []]]; [|congruence].
      destruct (HP l Hl) as (v & Hv & Hb). exists v.
      now rewrite get_set_other. }
  assert (H2 : well_scored thr (fst (forcing_phase (c1, es1)))
                 (snd (forcing_phase (c1, es1)))).
  { unfold forcing_phase. destruct c1; cbn [fst snd]; [|assumption].
    intros l [<- | [<- | []]].
    - exists 0.8. rewrite get_set_other by discriminate.
      split; [apply get_set_same | right; discriminate].
    - exists 0.7. split; [apply get_set_same | right; discriminate]. }
  destruct (forcing_phase (c1, es1)) as [c2 es2]. cbn [fst snd] in H2.
  intros Hl. apply limit_phase_incl in Hl as [Hl ->].
  intros l Hin. apply H2. now apply Hl.
Qed.

(** X2: every selected label has an entry in the returned scores, and its
    score is at least the threshold or at least 0.5. *)
Theorem classify_prompt_selected_scores :
  forall (clf : Classifier) (prompt : string) (threshold : Q) (label : string),
    In label (fst (classify_prompt clf prompt threshold)) ->
    exists v, Dict.get (snd (classify_prompt clf prompt threshold)) label = Some v /\
              (threshold <= v \/ 0.5 <= v).
Proof.
  intros clf prompt threshold label. unfold classify_prompt.
  destruct (classify_body clf prompt threshold) as [[c d]|e] eqn:Hb.
  - destruct (classify_body_stages _ _ _ _ Hb) as (es0 & es & _ & _ & _ & Hk & Hs).
    cbn [fst snd]. apply (select_plots_well_scored es threshold c d); [|exact Hs].
    rewrite Hk. apply categories_NoDup.
  - cbn [fst snd fallback_classification].
    intros [<- | [<- | [<- | []]]]; eexists; (split; [reflexivity | right; discriminate]).
Qed.

Lemma classify_prompt_selected_scores_witness :
  exists v, Dict.get (snd (classify_prompt even_model "hello" default_threshold))
                     "profile" = Some v /\
            (default_threshold <= v \/ 0.5 <= v).
Proof.
  apply classify_prompt_selected_scores. vm_compute. now left.
Defined.

End ClassifierInvariants.

Section ClassifierPaths.

Import Text Num PlotGenerator Policy Invariants.
Local Open Scope Q_scope.

Lemma complement_loop_scores_le (l : list (string * Q)) (c : list string) (es : Dict.t)
    (c' : list string) (es' : Dict.t) :
  complement_loop (c, es) l = Returned (c', es') -> scores_le es es'.
Proof.
  apply (complement_loop_inv (fun _ d => scores_le es d) l); [|apply scores_le_refl].
  intros c0 es0 kv c1 es1 _ HP Hs.
  apply complement_step_inv in Hs as [(-> & -> & _) | (cur & Hg & -> & -> & _)];
    [assumption|].
  eapply scores_le_trans; [exact HP|]. apply scores_le_set.
  intros cur' Hc. rewrite Hg in Hc. injection Hc as <-. apply pymax_ge_l.
Qed.

Lemma complement_loop_idle (l : list (string * Q)) (c : list string) (es : Dict.t) :
  added_labels c l = [] -> complement_loop (c, es) l = Returned (c, es).
Proof.
  unfold added_labels. induction l as [|[p s] r IH]; intros H; [reflexivity|].
  cbn [filter fst snd] in H. cbn [complement_loop complement_step].
  destruct (negb (mem p c) && Qltb 0.2 s); [discriminate|].
  cbn [obind]. now apply IH.
Qed.

(** When nothing is selected after the complement loop, no score exceeds
    0.2. *)
Lemma nothing_selected_low (es : Dict.t) (thr : Q) :
  es <> [] ->
  above_threshold es thr ++ added_labels (above_threshold es thr)
                              (firstn 3 (Dict.sorted_desc es)) = [] ->
  forall kv, In kv es -> snd kv <= 0.2.
Proof.
  intros Hne H kv Hin. apply app_eq_nil in H as [Ha Hadd]. rewrite Ha in Hadd.
  pose proof (sorted_desc_sorted es) as Hs. unfold descending in Hs.
  pose proof (sorted_desc_perm es) as Hp.
  destruct (Dict.sorted_desc es) as [|h t] eqn:E.
  - apply Permutation_nil in Hp. congruence.
  - unfold added_labels in Hadd. cbn [firstn filter] in Hadd.
    cbn [mem existsb negb andb] in Hadd.
    destruct (Qltb_spec 0.2 (snd h)) as [Hlt | Hge]; [discriminate|].
    apply (Permutation_in _ (Permutation_sym Hp)) in Hin.
    destruct Hin as [<- | Hin]; [assumption|].
    inversion Hs as [|? ? _ Hall]; subst. rewrite Forall_forall in Hall.
    eapply Qle_trans; [apply Hall; eassumption | assumption].
Qed.

Lemma get_in_pairs (d : Dict.t) (k : string) (v : Q) :
  Dict.get d k = Some v -> In (k, v) d.
Proof.
  induction d as [|[k' v'] r IH]; cbn [Dict.get]; [discriminate|].
  destruct (String.eqb k k') eqn:E.
  - apply String.eqb_eq in E. subst. intros [= ->]. now left.
  - intros H. right. now apply IH.
Qed.

Lemma select_plots_scores_le (es : Dict.t) (thr : Q) (c : list string) (d : Dict.t) :
  Dict.keys es = plot_categories ->
  select_plots es thr = Returned (c, d) -> scores_le es d.
Proof.
  intros Hk. unfold select_plots.
  destruct (complement_phase es thr) as [[c1 es1]|e] eqn:Hc; cbn [obind]; [|discriminate].
  destruct (forcing_phase (c1, es1)) as [c2 es2] eqn:Hf.
  intros Hl. apply limit_phase_incl in Hl as [_ ->].
  assert (H1 : scores_le es es1).
  { revert Hc. unfold complement_phase. destruct (_ <? _)%nat.
    - apply complement_loop_scores_le.
    - intros [= _ <-]. apply scores_le_refl. }
  destruct c1 as [|x r]; cbn [forcing_phase] in Hf.
  2: { injection Hf as _ <-. exact H1. }
  injection Hf as _ <-.
  (* nothing selected: the pair is forced *)
  assert (Hes : es1 = es /\
                above_threshold es thr
                ++ added_labels (above_threshold es thr)
                     (firstn 3 (Dict.sorted_desc es)) = []).
  { revert Hc. unfold complement_phase.
    destruct (List.length (above_threshold es thr) <? 2)%nat eqn:E2.
    - intros Hloop. destruct (top_keys es 3 Hk) as [Hnd Hin].
      destruct (complement_loop_spec _ (above_threshold es thr) es Hnd Hin)
        as [es' Hspec].
      pose proof Hspec as Hspec'. rewrite Hloop in Hspec'.
      apply returned_pair_inj in Hspec' as [Hnil _]. symmetry in Hnil.
      split; [|assumption].
      apply app_eq_nil in Hnil as [Ha Hadd].
      rewrite (complement_loop_idle _ _ es Hadd) in Hloop.
      now apply returned_pair_inj in Hloop as [_ <-].
    - intros [= Ha <-]. rewrite Ha in E2. discriminate. }
  destruct Hes as [-> Hnil].
  assert (Hlow : forall l v, Dict.get es l = Some v -> v <= 0.2).
  { intros l v Hg. apply (nothing_selected_low es thr) with (kv := (l, v)); auto.
    - intros ->. discriminate.
    - now apply get_in_pairs. }
  eapply scores_le_trans; apply scores_le_set.
  - intros cur Hcur. apply Hlow in Hcur. lra.
  - intros cur Hcur. rewrite get_set_other in Hcur by discriminate.
    apply Hlow in Hcur. lra.
Qed.

Lemma apply_floor_scores_le (es0 es : Dict.t) :
  apply_floor es0 = Returned es -> scores_le es0 es.
Proof.
  unfold apply_floor. destruct (max_score es0) as [m|] eqn:Hm; cbn [obind]; [|discriminate].
  destruct (Qltb_spec m 0.4) as [Hlt | Hge]; intros [= <-]; [|apply scores_le_refl].
  assert (Hlow : forall l v, Dict.get es0 l = Some v -> v < 0.4).
  { intros l v Hg. eapply Qle_lt_trans; [|exact Hlt]. eapply max_score_bound; eauto. }
  eapply scores_le_trans; [eapply scores_le_trans|]; apply scores_le_set.
  - intros cur Hc. apply Hlow in Hc. lra.
  - intros cur Hc. rewrite get_set_other in Hc by discriminate. apply Hlow in Hc. lra.
  - intros cur Hc. rewrite !get_set_other in Hc by discriminate. apply Hlow in Hc. lra.
Qed.

Lemma select_plots_returns (es : Dict.t) (thr : Q) :
  Dict.keys es = plot_categories -> exists r, select_plots es thr = Returned r.
Proof.
  intros Hk. destruct (select_plots_policy es thr Hk) as (c & d & H & _). eauto.
Qed.

Lemma apply_floor_returns (es0 : Dict.t) :
  Dict.keys es0 = plot_categories -> exists es, apply_floor es0 = Returned es.
Proof.
  intros Hk. destruct (categories_shape es0 Hk) as (v1 & v2 & v3 & v4 & v5 & ->).
  unfold apply_floor, max_score. cbn [Dict.values map snd obind].
  destruct (Qltb _ 0.4); eauto.
Qed.

(** Once the scores are blended, the [try] block returns. *)
Lemma classify_body_after_blend (clf : Classifier) (prompt : string) (thr : Q)
    (es0 : Dict.t) :
  blended_scores clf prompt = Returned es0 ->
  exists es r, apply_floor es0 = Returned es /\ select_plots es thr = Returned r /\
               classify_prompt clf prompt thr = r.
Proof.
  intros Hb. pose proof (blended_scores_keys _ _ _ Hb) as Hk0.
  destruct (apply_floor_returns es0 Hk0) as [es Hf].
  destruct (apply_floor_invariants _ _ Hk0 Hf) as [Hk _].
  destruct (select_plots_returns es thr Hk) as [r Hs].
  exists es, r. split; [assumption|]. split; [assumption|].
  unfold classify_prompt, classify_body. rewrite Hb. cbn [obind].
  rewrite Hf. cbn [obind]. now rewrite Hs.
Qed.

(** X3: when the scores are blended, what follows (the floor, the complement
    loop, the forced pair) never lowers a score: every label keeps its
    blended score or gets a higher one. *)
Theorem classify_prompt_never_lowers :
  forall (clf : Classifier) (prompt : string) (threshold : Q) (es0 : Dict.t)
         (label : string) (v0 : Q),
    blended_scores clf prompt = Returned es0 ->
    Dict.get es0 label = Some v0 ->
    exists v, Dict.get (snd (classify_prompt clf prompt threshold)) label = Some v /\
              v0 <= v.
Proof.
  intros clf prompt threshold es0 label v0 Hb Hg.
  destruct (classify_body_after_blend clf prompt threshold es0 Hb)
    as (es & [c d] & Hf & Hs & ->).
  pose proof (blended_scores_keys _ _ _ Hb) as Hk0.
  destruct (apply_floor_invariants _ _ Hk0 Hf) as [Hk _].
  cbn [snd].
  apply (scores_le_trans es0 es d (apply_floor_scores_le _ _ Hf)
           (select_plots_scores_le _ _ _ _ Hk Hs)).
  exact Hg.
Qed.

Lemma classify_prompt_never_lowers_witness :
  exists v, Dict.get (snd (classify_prompt silent_model EmptyString 0.9)) "map" = Some v /\
            0.1 * 0.8 <= v.
Proof.
  refine (classify_prompt_never_lowers silent_model EmptyString 0.9 _ "map" (0.1 * 0.8)
            eq_refl eq_refl).
Defined.

Lemma ml_scores_returns_iff (predictions : list (list Q)) :
  forall labels i sc,
    (exists sc', ml_scores i labels predictions sc = Returned sc') <->
    (forall j, (i <= j < i + List.length labels)%nat -> nth_error predictions j <> Some []).
Proof.
  induction labels as [|l r IH]; intros i sc; cbn [ml_scores List.length].
  - split; [intros _ j Hj; lia | eauto].
  - split.
    + intros [sc' H] j Hj.
      destruct (nth_error predictions i) as [row|] eqn:En.
      * destruct row as [|x xs]; [discriminate|]. cbn [row_max obind] in H.
        destruct (Nat.eq_dec j i) as [-> | Hne]; [rewrite En; discriminate|].
        apply (proj1 (IH (S i) _) (ex_intro _ sc' H)). lia.
      * cbn [obind] in H.
        destruct (Nat.eq_dec j i) as [-> | Hne]; [rewrite En; discriminate|].
        apply (proj1 (IH (S i) _) (ex_intro _ sc' H)). lia.
    + intros H.
      assert (Hi : nth_error predictions i <> Some []) by (apply H; lia).
      destruct (nth_error predictions i) as [[|x xs]|]; [congruence| |];
        cbn [row_max obind]; apply IH; intros j Hj; apply H; lia.
Qed.

(** X4: the [try] block of [classify_prompt] returns exactly when the
    classifier returns and none of its first five rows is empty; otherwise
    the fixed fallback selection and scores are returned. *)
Theorem classify_prompt_fallback_iff :
  forall (clf : Classifier) (prompt : string) (threshold : Q),
    ((exists r, classify_body clf prompt threshold = Returned r) <->
     (exists predictions, clf prompt = Returned predictions /\ rows_usable predictions)) /\
    (~ (exists predictions, clf prompt = Returned predictions /\ rows_usable predictions) ->
     classify_prompt clf prompt threshold
     = (["3d_scatter"; "profile"; "map"],
        [("3d_scatter", 0.8); ("profile", 0.7); ("map", 0.6);
         ("ts_diagram", 0.4); ("time_series", 0.3)])).
Proof.
  intros clf prompt threshold.
  assert (Hiff : (exists r, classify_body clf prompt threshold = Returned r) <->
     (exists predictions, clf prompt = Returned predictions /\ rows_usable predictions)).
  { split.
    - intros [r Hr]. destruct (classify_body_stages _ _ _ _ Hr) as (es0 & _ & Hb & _).
      revert Hb. unfold blended_scores.
      destruct (clf prompt) as [preds|]; cbn [obind]; [|discriminate].
      destruct (ml_scores 0 plot_categories preds []) as [sc|] eqn:Hml; cbn [obind];
        [|discriminate].
      intros _. exists preds. split; [reflexivity|].
      intros i Hi. apply (proj1 (ml_scores_returns_iff preds plot_categories 0 [])
                            (ex_intro _ sc Hml)). cbn. lia.
    - intros (preds & Hclf & Hrows).
      destruct (proj2 (ml_scores_returns_iff preds plot_categories 0 [])) as [sc Hml].
      { intros j Hj. apply Hrows. cbn in Hj. lia. }
      destruct (rule_scores_returns (lower prompt)) as (i & Hi & _).
      assert (Hb : blended_scores clf prompt = Returned (blend i sc)).
      { unfold blended_scores. rewrite Hclf. cbn [obind]. rewrite Hml. cbn [obind].
        now rewrite Hi. }
      destruct (classify_body_after_blend clf prompt threshold _ Hb)
        as (es & r & Hf & Hs & _).
      exists r. unfold classify_body. rewrite Hb. cbn [obind]. rewrite Hf. exact Hs. }
  split; [exact Hiff|].
  intros Hno. unfold classify_prompt.
  destruct (classify_body clf prompt threshold) as [r|e] eqn:Hb; [|reflexivity].
  exfalso. apply Hno. apply Hiff. eauto.
Qed.

Lemma classify_prompt_fallback_iff_witness :
  classify_prompt (fun _ => Raised "not fitted") "salinity map" default_threshold
  = (["3d_scatter"; "profile"; "map"],
     [("3d_scatter", 0.8); ("profile", 0.7); ("map", 0.6);
      ("ts_diagram", 0.4); ("time_series", 0.3)]).
Proof.
  apply (proj2 (classify_prompt_fallback_iff (fun _ => Raised "not fitted")
                  "salinity map" default_threshold)).
  intros (preds & H & _). discriminate.
Defined.

(** X5: for a prompt with a profile keyword, the rule score of profile is
    0.9 exactly when no keyword of the time, map, T-S or 3D groups occurs;
    in every case it lies between 0.5 and 0.9. *)
Theorem rule_scores_profile_keyword :
  forall (prompt_lower : string) (scores : Dict.t),
    rule_scores prompt_lower = Returned scores ->
    any_in profile_words prompt_lower = true ->
    (Dict.get scores "profile" = Some 0.9 <->
     any_in time_words prompt_lower = false /\
     any_in map_words prompt_lower = false /\
     any_in ts_words prompt_lower = false /\
     any_in scatter_words prompt_lower = false) /\
    exists v, Dict.get scores "profile" = Some v /\ 0.5 <= v /\ v <= 0.9.
Proof.
  intros t scores Hr Hp. revert Hr. unfold rule_scores. rewrite Hp.
  destruct (any_in time_words t), (any_in map_words t), (any_in ts_words t),
           (any_in scatter_words t), (any_in ocean_words t);
    cbn; intros [= <-]; cbn;
    (split; [split; [intros [= ]; try (repeat split; reflexivity)
                    | intros (? & ? & ? & ?); try discriminate; reflexivity]
            | eexists; split; [reflexivity | split; discriminate]]).
Qed.

Lemma rule_scores_profile_keyword_witness :
  Dict.get [("profile", 0.9); ("time_series", 0.0); ("map", 0.0);
            ("ts_diagram", 0.7); ("3d_scatter", 0.6)] "profile" = Some 0.9 <->
  any_in time_words "vertical structure" = false /\
  any_in map_words "vertical structure" = false /\
  any_in ts_words "vertical structure" = false /\
  any_in scatter_words "vertical structure" = false.
Proof.
  apply (proj1 (rule_scores_profile_keyword "vertical structure" _ eq_refl eq_refl)).
Defined.

(** X6: every label [classify_prompt] selects is drawn by its own plot
    function: the default branch of the chain in [generate_plots_from_data]
    is not taken. *)
Theorem dispatch_of_selected :
  forall (clf : Classifier) (prompt : string) (threshold : Q) (label : string),
    In label (fst (classify_prompt clf prompt threshold)) ->
    dispatch label = label.
Proof.
  intros clf prompt threshold label Hin.
  assert (Hc : In label plot_categories).
  { revert Hin. unfold classify_prompt.
    destruct (classify_body clf prompt threshold) as [[c d]|e] eqn:Hb; cbn [fst].
    - destruct (classify_body_invariants _ _ _ _ _ Hb) as (_ & Hi & _). apply Hi.
    - cbn. tauto. }
  cbn in Hc. repeat (destruct Hc as [<- | Hc]; [reflexivity|]). destruct Hc.
Qed.

Lemma dispatch_of_selected_witness :
  dispatch "ts_diagram" = "ts_diagram".
Proof.
  apply (dispatch_of_selected even_model "salinity profile" default_threshold).
  vm_compute. tauto.
Defined.

End ClassifierPaths.

(** ** Rendering and retrieval *)

Section PlotsAndFetch.

Import Text Num Frame PlotGenerator Policy Invariants.
Local Open Scope Q_scope.

Lemma classify_prompt_length (clf : Classifier) (prompt : string) (thr : Q) :
  (1 <= List.length (fst (classify_prompt clf prompt thr)) <= 4)%nat.
Proof.
  unfold classify_prompt.
  destruct (classify_body clf prompt thr) as [[c d]|e] eqn:Hb.
  - now destruct (classify_body_invariants _ _ _ _ _ Hb) as (Hl & _).
  - cbn. lia.
Qed.

Lemma plot_step_cases (console : Console) (render : Renderer) (df : DataFrame)
    (ps : list Plot) (fs : list string) (l : string) :
  match plot_step console render df (ps, fs) l with
  | Returned acc =>
      acc = (ps ++ rendered render df [l],
             fs ++ flat_map Pipeline.files_of (rendered render df [l]))
  | Raised e =>
      exists e0, attempt_error console render df l = Some e0 /\ console e0 = Raised e
  end.
Proof.
  unfold plot_step, plot_attempt, attempt_error, rendered. cbn [flat_map].
  destruct (render (dispatch l) df) as [[msg|p]|e0]; cbn [obind app flat_map].
  - destruct (console msg) as [[]|e1] eqn:Hm; cbn [obind].
    + now rewrite !app_nil_r.
    + destruct (console e1) as [[]|e2] eqn:He; cbn [obind].
      * now rewrite !app_nil_r.
      * now exists e1.
  - rewrite !app_nil_r. f_equal. unfold Pipeline.files_of.
    destruct (saved p); now rewrite ?app_nil_r.
  - destruct (console e0) as [[]|e1] eqn:He; cbn [obind].
    + now rewrite !app_nil_r.
    + now exists e0.
Qed.

Lemma rendered_cons (render : Renderer) (df : DataFrame) (l : string) (r : list string) :
  rendered render df (l :: r) = rendered render df [l] ++ rendered render df r.
Proof. unfold rendered. cbn [flat_map]. now rewrite app_nil_r. Qed.

Lemma plot_loop_collects (console : Console) (render : Renderer) (df : DataFrame)
    (chosen : list string) :
  forall ps fs acc,
    plot_loop console render df chosen (ps, fs) = Returned acc ->
    acc = (ps ++ rendered render df chosen,
           fs ++ flat_map Pipeline.files_of (rendered render df chosen)).
Proof.
  induction chosen as [|l r IH]; intros ps fs acc; cbn [plot_loop].
  - intros [= <-]. unfold rendered. cbn [flat_map]. now rewrite !app_nil_r.
  - pose proof (plot_step_cases console render df ps fs l) as Hs.
    destruct (plot_step console render df (ps, fs) l) as [acc1|e]; cbn [obind];
      [|discriminate].
    subst acc1. intros H. apply IH in H. subst acc.
    rewrite (rendered_cons render df l r), flat_map_app, <- !app_assoc. reflexivity.
Qed.

Lemma plot_loop_raises (console : Console) (render : Renderer) (df : DataFrame)
    (chosen : list string) (e : string) :
  forall acc,
    plot_loop console render df chosen acc = Raised e ->
    exists l e0, In l chosen /\ attempt_error console render df l = Some e0 /\
                 console e0 = Raised e.
Proof.
  induction chosen as [|l r IH]; intros [ps fs]; cbn [plot_loop]; [discriminate|].
  pose proof (plot_step_cases console render df ps fs l) as Hs.
  destruct (plot_step console render df (ps, fs) l) as [acc1|e1]; cbn [obind].
  - intros H. destruct (IH _ H) as (l' & e0 & Hin & Ha & Hc).
    exists l', e0. split; [now right | auto].
  - intros [= ->]. destruct Hs as (e0 & Ha & Hc). exists l, e0.
    split; [now left | auto].
Qed.

Lemma rendered_length (render : Renderer) (df : DataFrame) (chosen : list string) :
  (List.length (rendered render df chosen) <= List.length chosen)%nat.
Proof.
  unfold rendered. induction chosen as [|l r IH]; cbn [flat_map List.length]; [lia|].
  rewrite length_app. destruct (render (dispatch l) df) as [[msg|p]|e]; cbn; lia.
Qed.

Lemma rendered_from_renderer (render : Renderer) (df : DataFrame) (chosen : list string)
    (p : Plot) :
  In p (rendered render df chosen) ->
  exists l, In l chosen /\ render (dispatch l) df = Returned (PlotOk p).
Proof.
  unfold rendered. intros H. apply in_flat_map in H as (l & Hl & Hp).
  exists l. split; [assumption|].
  destruct (render (dispatch l) df) as [[msg|q]|e]; try destruct Hp.
  - now subst.
  - destruct H.
Qed.

(** X7: [generate_plots_from_data] raises in three ways only, each on a
    table that is not empty: the print of the prompt raises; a plot
    function of the loop raises, or reports an error whose print raises,
    and the print of that exception in the handler raises; or none of the
    selected plots was drawn and the 3D scatter plot drawn in their place
    raises.  When the print of the prompt raises, the function does. *)
Theorem generate_plots_raises_in_three_ways :
  forall (console : Console) (clf : Classifier) (render : Renderer) (df : DataFrame)
         (prompt : string) (threshold : Q) (e : string),
    let chosen := fst (classify_prompt clf prompt threshold) in
    (generate_plots_from_data console clf render df prompt threshold = Raised e ->
     empty df = false /\
     (console prompt = Raised e \/
      (exists l e0, In l chosen /\ attempt_error console render df l = Some e0 /\
                    console e0 = Raised e) \/
      (rendered render df chosen = [] /\ render "3d_scatter" df = Raised e))) /\
    (empty df = false -> console prompt = Raised e ->
     generate_plots_from_data console clf render df prompt threshold = Raised e).
Proof.
  intros console clf render df prompt threshold e chosen. unfold chosen.
  unfold generate_plots_from_data.
  destruct (classify_prompt clf prompt threshold) as [chosen' scores]. cbn [fst].
  split.
  - destruct (empty df); [discriminate|]. intros H. split; [reflexivity|].
    destruct (console prompt) as [[]|e1]; cbn [obind] in H;
      [|left; congruence].
    destruct (plot_loop console render df chosen' ([], [])) as [[ps fs]|e1] eqn:Hl;
      cbn [obind] in H.
    + apply plot_loop_collects in Hl. cbn [app] in Hl. injection Hl as -> ->.
      right. right.
      destruct (rendered render df chosen') as [|p ps]; cbn [obind] in H;
        [|discriminate].
      destruct (render "3d_scatter" df) as [[msg|p]|e']; cbn [obind] in H;
        try discriminate.
      split; [reflexivity | congruence].
    + right. left. injection H as ->. now apply plot_loop_raises in Hl.
  - intros -> ->. reflexivity.
Qed.

Lemma generate_plots_raises_in_three_ways_witness :
  empty one_record = false /\
  (plain_console "salinity map" = Raised "kaleido is not installed" \/
   (exists l e0,
       In l (fst (classify_prompt even_model "salinity map" default_threshold)) /\
       attempt_error plain_console (Pipeline.renderer broken_externals) one_record l
       = Some e0 /\
       plain_console e0 = Raised "kaleido is not installed") \/
   (rendered (Pipeline.renderer broken_externals) one_record
      (fst (classify_prompt even_model "salinity map" default_threshold)) = [] /\
    Pipeline.renderer broken_externals "3d_scatter" one_record
    = Raised "kaleido is not installed")).
Proof.
  apply (proj1 (generate_plots_raises_in_three_ways plain_console even_model
                  (Pipeline.renderer broken_externals) one_record
                  "salinity map" default_threshold "kaleido is not installed")).
  vm_compute. reflexivity.
Defined.

(** X8: on a table that is not empty, a result of [generate_plots_from_data]
    reports success, names one to four selected plots, holds no more plots
    than were selected, each of them returned by a plot function, and lists
    only files saved by those plots. *)
Theorem generate_plots_result :
  forall (console : Console) (clf : Classifier) (render : Renderer) (df : DataFrame)
         (prompt : string) (threshold : Q) (r : PlotResult),
    empty df = false ->
    generate_plots_from_data console clf render df prompt threshold = Returned r ->
    pr_success r = true /\
    pr_chosen_plots r = fst (classify_prompt clf prompt threshold) /\
    (1 <= List.length (pr_chosen_plots r) <= 4)%nat /\
    (List.length (pr_plots r) <= List.length (pr_chosen_plots r))%nat /\
    (forall p, In p (pr_plots r) ->
       exists name, render name df = Returned (PlotOk p)) /\
    exists files, pr_all_saved_files r = Some files /\
                  incl files (flat_map Pipeline.files_of (pr_plots r)).
Proof.
  intros console clf render df prompt threshold r Hne. unfold generate_plots_from_data.
  rewrite Hne.
  pose proof (classify_prompt_length clf prompt threshold) as Hlen.
  destruct (classify_prompt clf prompt threshold) as [chosen scores]. cbn [fst] in *.
  destruct (console prompt) as [[]|e0]; cbn [obind]; [|discriminate].
  destruct (plot_loop console render df chosen ([], [])) as [[ps0 fs0]|e0] eqn:Hl;
    cbn [obind]; [|discriminate].
  apply plot_loop_collects in Hl. cbn [app] in Hl. injection Hl as -> ->.
  pose proof (rendered_length render df chosen) as Hrl.
  pose proof (rendered_from_renderer render df chosen) as Hrf.
  destruct (rendered render df chosen) as [|p ps]; cbn [obind].
  - destruct (render "3d_scatter" df) as [[msg|p]|e'] eqn:Er; cbn [obind];
      [| |discriminate]; intros [= <-]; cbn.
    + repeat split; try lia; try tauto. exists []. split; [reflexivity|]. intros x [].
    + repeat split; try lia.
      * intros q [<- | []]. eauto.
      * unfold Pipeline.files_of. destruct (saved p); eexists; split; try reflexivity;
          rewrite ?app_nil_r; intros x Hx; cbn in Hx |- *; tauto.
  - intros [= <-]. cbn [pr_success pr_chosen_plots pr_plots pr_all_saved_files].
    repeat split; try lia; try assumption.
    + intros q Hq. destruct (Hrf q Hq) as (l & _ & Hl). eauto.
    + eexists. split; [reflexivity|]. apply incl_refl.
Qed.

Lemma generate_plots_result_witness :
  exists r,
    generate_plots_from_data plain_console even_model reporting_renderer one_record "map"
      default_threshold = Returned r /\
    pr_success r = true.
Proof.
  assert (E : exists r, generate_plots_from_data plain_console even_model
                          reporting_renderer one_record "map" default_threshold
                        = Returned r)
    by (vm_compute; eexists; reflexivity).
  destruct E as [r E]. exists r. split; [exact E|].
  assert (Hne : empty one_record = false) by reflexivity.
  exact (proj1 (generate_plots_result plain_console even_model reporting_renderer
                  one_record "map" default_threshold r Hne E)).
Defined.

Lemma rename_empty (mapping : list (string * string)) (df : DataFrame) :
  empty (rename mapping df) = empty df.
Proof.
  unfold empty, rename. cbn [columns rows]. now destruct (columns df).
Qed.

Lemma convert_column_empty (to_datetime : ToDatetime) (i : nat) (df : DataFrame) :
  empty (convert_column to_datetime i df) = empty df.
Proof.
  unfold empty, convert_column. cbn [columns rows].
  destruct (columns df); [reflexivity|]. now destruct (rows df).
Qed.

Lemma mock_not_empty (draws : Draws) : empty (_create_mock_data draws) = false.
Proof. reflexivity. Qed.

Lemma convert_at_length (to_datetime : ToDatetime) (row : list cell) :
  forall i, List.length (convert_at to_datetime i row) = List.length row.
Proof.
  induction row as [|c t IH]; intros i; [reflexivity|].
  destruct i as [|k]; cbn [convert_at].
  - now destruct c.
  - cbn [List.length]. now rewrite IH.
Qed.

Lemma convert_at_other (to_datetime : ToDatetime) (row : list cell) :
  forall i j, j <> i -> nth j (convert_at to_datetime i row) None = nth j row None.
Proof.
  induction row as [|c t IH]; intros i j Hij; [reflexivity|].
  destruct i as [|k]; cbn [convert_at].
  - destruct j as [|j']; [congruence|]. now destruct c.
  - destruct j as [|j']; [reflexivity|]. cbn [nth]. apply IH. congruence.
Qed.

Lemma positions_nth (c : string) (cols : list string) :
  forall k i, In i (positions c cols k) ->
    (k <= i)%nat /\ nth_error cols (i - k) = Some c.
Proof.
  induction cols as [|c' r IH]; intros k i; cbn [positions]; [intros []|].
  destruct (String.eqb c c') eqn:E.
  - intros [<- | Hin].
    + split; [lia|]. rewrite Nat.sub_diag. cbn. apply String.eqb_eq in E. now subst.
    + destruct (IH _ _ Hin) as [Hle Hn]. split; [lia|].
      replace (i - k)%nat with (S (i - S k)) by lia. exact Hn.
  - intros Hin. destruct (IH _ _ Hin) as [Hle Hn]. split; [lia|].
    replace (i - k)%nat with (S (i - S k)) by lia. exact Hn.
Qed.

Lemma fetch_body_table (db : Database) (to_datetime : ToDatetime) (sql_query : string)
    (df : DataFrame) :
  fetch_body db to_datetime sql_query = Returned df ->
  exists raw, db sql_query = Returned raw /\
    (df = rename column_mapping raw \/
     exists i, positions "Date_Time" (columns (rename column_mapping raw)) 0 = [i] /\
               df = convert_column to_datetime i (rename column_mapping raw)).
Proof.
  unfold fetch_body. destruct (db sql_query) as [raw|]; cbn [obind]; [|discriminate].
  destruct (has_column "Date_Time" (rename column_mapping raw)).
  - destruct (positions "Date_Time" (columns (rename column_mapping raw)) 0)
      as [|i [|j r]] eqn:Hp; try discriminate.
    intros [= <-]. exists raw. split; [reflexivity|]. right. now exists i.
  - intros [= <-]. exists raw. split; [reflexivity|]. now left.
Qed.

(** X9: [fetch_data_from_db] returns an empty table only when the database
    returned one; when the database raises and the two prints return, the
    500 mock records are returned.  A table taken from the database keeps
    the number of its rows, the length of each row and every cell that is
    not under the label Date_Time, and its labels are the renamed ones.
    The function raises only when the print of the query raises, or the
    print of the message of the exception in the handler. *)
Theorem fetch_empty_only_from_database :
  forall (console : Console) (db : Database) (to_datetime : ToDatetime) (draws : Draws)
         (sql_query : string),
    (forall df,
       fetch_data_from_db console db to_datetime draws sql_query = Returned df ->
       empty df = true ->
       exists raw, db sql_query = Returned raw /\ empty raw = true) /\
    (forall e, db sql_query = Raised e ->
       console sql_query = Returned tt -> console e = Returned tt ->
       fetch_data_from_db console db to_datetime draws sql_query
       = Returned (_create_mock_data draws) /\
       len (_create_mock_data draws) = 500%nat) /\
    (forall df, fetch_body db to_datetime sql_query = Returned df ->
       exists raw, db sql_query = Returned raw /\
                   columns df = map (renamed column_mapping) (columns raw) /\
                   Forall2 (same_but_dates (columns df)) (rows raw) (rows df)) /\
    (forall e,
       fetch_data_from_db console db to_datetime draws sql_query = Raised e ->
       console sql_query = Raised e \/
       exists e0, fetch_body db to_datetime sql_query = Raised e0 /\
                  console e0 = Raised e).
Proof.
  intros console db to_datetime draws sql_query.
  split; [|split; [|split]].
  - intros df. unfold fetch_data_from_db.
    destruct (console sql_query) as [[]|]; cbn [obind]; [|discriminate].
    destruct (fetch_body db to_datetime sql_query) as [fetched|e] eqn:Hb.
    + intros [= <-] He. destruct (fetch_body_table _ _ _ _ Hb) as (raw & Hraw & Hdf).
      exists raw. split; [assumption|].
      destruct Hdf as [-> | (i & _ & ->)].
      * now rewrite rename_empty in He.
      * now rewrite convert_column_empty, rename_empty in He.
    + destruct (console e) as [[]|]; cbn [obind]; [|discriminate].
      intros [= <-]. rewrite mock_not_empty. discriminate.
  - intros e He Hq Hp. unfold fetch_data_from_db, fetch_body. rewrite Hq, He.
    cbn [obind]. rewrite Hp. cbn [obind]. split; [reflexivity|].
    unfold len, _create_mock_data. cbn [rows]. now rewrite length_map, length_seq.
  - intros df Hdf. destruct (fetch_body_table _ _ _ _ Hdf) as (raw & Hraw & Hcase).
    exists raw. split; [assumption|].
    destruct Hcase as [-> | (i & Hp & ->)].
    + split; [reflexivity|]. cbn [rename rows].
      induction (rows raw) as [|row rs IH]; constructor; [|exact IH].
      split; reflexivity.
    + split; [reflexivity|]. cbn [convert_column rename rows columns] in *.
      induction (rows raw) as [|row rs IH]; cbn [map]; constructor; [|exact IH].
      split; [apply convert_at_length|].
      intros j Hj. apply convert_at_other. intros ->.
      destruct (positions_nth "Date_Time"
                  (map (renamed column_mapping) (columns raw)) 0 i) as [_ Hn];
        [rewrite Hp; now left|].
      rewrite Nat.sub_0_r in Hn. contradiction.
  - intros e. unfold fetch_data_from_db.
    destruct (console sql_query) as [[]|e1]; cbn [obind]; [|left; congruence].
    destruct (fetch_body db to_datetime sql_query) as [fetched|e0]; [discriminate|].
    destruct (console e0) as [[]|e2] eqn:He; cbn [obind]; [discriminate|].
    intros [= ->]. right. now exists e0.
Qed.

Lemma fetch_empty_only_from_database_witness :
  exists raw,
    Pipeline.m_fetch_data_from_db empty_plot_generator "SELECT 1;" = Returned raw /\
    empty raw = true.
Proof.
  destruct (proj1 (fetch_empty_only_from_database plain_console
                     (Pipeline.m_fetch_data_from_db empty_plot_generator)
                     timestamps (fun _ _ => 0) "SELECT 1;")
              {| columns := ["Float_ID"; "Pressure_dbar"]; rows := [] |}
              eq_refl eq_refl) as (raw & H1 & H2).
  exists raw. split; assumption.
Defined.

Lemma clip_within (lo hi x : Q) : lo <= hi -> lo <= clip lo hi x /\ clip lo hi x <= hi.
Proof.
  intros H. unfold clip.
  destruct (Qltb_spec x lo); [split; [apply Qle_refl | assumption]|].
  destruct (Qltb_spec hi x); [split; [assumption | apply Qle_refl]|].
  split; assumption.
Qed.

Lemma mock_column (draws : Draws) (c : string) (i : nat) :
  nth_error mock_columns i = Some c ->
  positions c mock_columns 0 = [i] ->
  column c (_create_mock_data draws)
  = Returned (map (fun k => mock_cell draws k c) (seq 0 n_records)).
Proof.
  intros Hn Hp. unfold column, _create_mock_data. cbn [columns rows]. rewrite Hp.
  f_equal. rewrite map_map. apply map_ext. intros k.
  rewrite (nth_error_nth _ _ _ (map_nth_error (mock_cell draws k) i mock_columns Hn)).
  reflexivity.
Qed.

(** X10: whatever numpy draws, the mock table has 500 records of seven
    cells; its temperatures lie in [2,30], its salinities in [32,37] and its
    pressures in [0,2000]. *)
Theorem mock_data_in_range :
  forall (draws : Draws),
    let df := _create_mock_data draws in
    len df = 500%nat /\
    Forall (fun row => List.length row = 7%nat) (rows df) /\
    (exists col, column "Temperature_Celsius" df = Returned col /\
                 Forall (cell_within 2 30) col) /\
    (exists col, column "Salinity_PSU" df = Returned col /\
                 Forall (cell_within 32 37) col) /\
    (exists col, column "Pressure_dbar" df = Returned col /\
                 Forall (cell_within 0 2000) col).
Proof.
  intros draws df. unfold df.
  split; [|split; [|split; [|split]]].
  - unfold len, _create_mock_data. cbn [rows]. now rewrite length_map, length_seq.
  - unfold _create_mock_data. cbn [rows]. apply Forall_forall. intros row Hr.
    apply in_map_iff in Hr as (k & <- & _). now rewrite length_map.
  - rewrite (mock_column draws "Temperature_Celsius" 4 eq_refl eq_refl).
    eexists. split; [reflexivity|]. apply Forall_forall. intros c Hc.
    apply in_map_iff in Hc as (k & <- & _). unfold mock_cell. cbn [String.eqb Ascii.eqb Bool.eqb].
    eexists. split; [reflexivity|]. apply clip_within. discriminate.
  - rewrite (mock_column draws "Salinity_PSU" 5 eq_refl eq_refl).
    eexists. split; [reflexivity|]. apply Forall_forall. intros c Hc.
    apply in_map_iff in Hc as (k & <- & _). unfold mock_cell. cbn [String.eqb Ascii.eqb Bool.eqb].
    eexists. split; [reflexivity|]. apply clip_within. discriminate.
  - rewrite (mock_column draws "Pressure_dbar" 3 eq_refl eq_refl).
    eexists. split; [reflexivity|]. apply Forall_forall. intros c Hc.
    apply in_map_iff in Hc as (k & <- & _). unfold mock_cell. cbn [String.eqb Ascii.eqb Bool.eqb].
    eexists. split; [reflexivity|]. apply clip_within. discriminate.
Qed.

End PlotsAndFetch.

(** ** The data summary *)

Section SummaryRanges.

Import Text Num Frame Summary Pipeline Invariants.
Local Open Scope Q_scope.

Lemma pymin_le_l (a b : Q) : pymin a b <= a.
Proof.
  unfold pymin. destruct (Qltb_spec b a); [now apply Qlt_le_weak | apply Qle_refl].
Qed.

Lemma pymin_le_r (a b : Q) : pymin a b <= b.
Proof.
  unfold pymin. destruct (Qltb_spec b a); [apply Qle_refl | assumption].
Qed.

Lemma min_list_le_head (xs : list Q) : forall x, min_list x xs <= x.
Proof.
  unfold min_list. induction xs as [|y ys IH]; intros x; cbn [fold_left].
  - apply Qle_refl.
  - eapply Qle_trans; [apply IH | apply pymin_le_l].
Qed.

Lemma min_list_le (xs : list Q) : forall x v, In v xs -> min_list x xs <= v.
Proof.
  unfold min_list. induction xs as [|y ys IH]; intros x v Hin; cbn [fold_left].
  - destruct Hin.
  - destruct Hin as [<- | Hin].
    + eapply Qle_trans; [apply (min_list_le_head ys) | apply pymin_le_r].
    + now apply IH.
Qed.

Lemma min_le_max (x : Q) (xs : list Q) : min_list x xs <= max_list x xs.
Proof.
  eapply Qle_trans; [apply min_list_le_head | apply max_list_ge_head].
Qed.

Lemma col_min_le_max (col : list cell) : float_le (col_min col) (col_max col).
Proof.
  unfold float_le, col_min, col_max. destruct (dropna col) as [|x xs]; [exact I|].
  apply min_le_max.
Qed.

(** X11: for every table, each range of the data summary is in order
    whenever its two ends are numbers: south to north, west to east,
    surface to bottom, earliest to latest, and the minimum to the maximum
    of the temperature and of the salinity; the record count is the number
    of rows.  Nothing of the kind is said of the means, which are rounded. *)
Theorem data_summary_ranges_ordered :
  forall (mean : Mean) (df : DataFrame),
    let ds := build_data_summary mean df in
    total_records ds = List.length (rows df) /\
    float_le (south (geographic_bounds ds)) (north (geographic_bounds ds)) /\
    float_le (west (geographic_bounds ds)) (east (geographic_bounds ds)) /\
    float_le (surface (depth_range ds)) (bottom (depth_range ds)) /\
    float_le (smin (temp_range ds)) (smax (temp_range ds)) /\
    float_le (smin (salinity_range ds)) (smax (salinity_range ds)) /\
    date_le (earliest (date_range ds)) (latest (date_range ds)).
Proof.
  intros mean df ds. unfold ds, build_data_summary.
  cbn [total_records geographic_bounds depth_range temp_range salinity_range date_range].
  split; [reflexivity|].
  assert (Hgeo : float_le (south (_get_geographic_bounds df)) (north (_get_geographic_bounds df))
                 /\ float_le (west (_get_geographic_bounds df)) (east (_get_geographic_bounds df))).
  { unfold _get_geographic_bounds, guarded.
    destruct (has_column "Latitude" df && has_column "Longitude" df);
      [|split; cbn; lra].
    destruct (column "Latitude" df) as [lat|]; cbn [obind]; [|split; cbn; lra].
    destruct (column "Longitude" df) as [lon|]; cbn [obind]; [|split; cbn; lra].
    cbn [south north west east]. split; apply col_min_le_max. }
  destruct Hgeo as [Hg1 Hg2]. split; [exact Hg1|]. split; [exact Hg2|].
  split; [|split; [|split]].
  - unfold _get_depth_range, guarded. destruct (has_column "pressure_dbar" df);
      [|cbn; lra].
    destruct (column "pressure_dbar" df) as [col|]; cbn [obind]; [|cbn; lra].
    cbn [surface bottom]. apply col_min_le_max.
  - unfold _get_temp_range, guarded. destruct (has_column "temperature_celsius" df);
      [|cbn; lra].
    destruct (column "temperature_celsius" df) as [col|]; cbn [obind]; [|cbn; lra].
    cbn [smin smax]. apply col_min_le_max.
  - unfold _get_salinity_range, guarded. destruct (has_column "salinity_psu" df);
      [|cbn; lra].
    destruct (column "salinity_psu" df) as [col|]; cbn [obind]; [|cbn; lra].
    destruct (dropna col) eqn:E; [cbn; lra|]. cbn [smin smax]. apply col_min_le_max.
  - unfold _get_date_range, guarded. destruct (has_column "Date_Time" df); [|exact I].
    destruct (column "Date_Time" df) as [col|]; cbn [obind]; [|exact I].
    destruct (dropna col) as [|x xs]; [exact I|]. cbn [earliest latest date_le].
    apply min_le_max.
Qed.

Lemma dropna_all_null (col : list cell) :
  (forall c, In c col -> c = None) -> dropna col = [].
Proof.
  induction col as [|c r IH]; intros H; [reflexivity|].
  rewrite (H c (or_introl eq_refl)). cbn [dropna]. apply IH. intros c' Hc. apply H. now right.
Qed.

Lemma has_column_positions (c : string) (cols : list string) (i : nat) (k : nat) :
  positions c cols k = [i] -> mem c cols = true.
Proof.
  revert k. unfold mem. induction cols as [|c' r IH]; intros k; cbn [positions existsb];
    [discriminate|].
  destruct (String.eqb c c'); [reflexivity|]. apply IH.
Qed.

(** X12: a column that holds only nulls is treated in two ways: the salinity
    helper returns its fallback range, the temperature and depth helpers
    return NaN for every value. *)
Theorem all_null_column_ranges :
  forall (mean : Mean) (df : DataFrame) (name : string) (i : nat),
    positions name (columns df) 0 = [i] ->
    (forall row, In row (rows df) -> nth i row None = None) ->
    (name = "salinity_psu" ->
       _get_salinity_range mean df
       = {| smin := Some 33.0; smax := Some 37.0; smean := Some 35.0 |}) /\
    (name = "temperature_celsius" ->
       _get_temp_range mean df = {| smin := None; smax := None; smean := None |}) /\
    (name = "pressure_dbar" ->
       _get_depth_range df = {| surface := None; bottom := None |}).
Proof.
  intros mean df name i Hp Hnull.
  assert (Hcol : column name df = Returned (map (fun r => nth i r None) (rows df))).
  { unfold column. now rewrite Hp. }
  assert (Hdrop : dropna (map (fun r => nth i r None) (rows df)) = []).
  { apply dropna_all_null. intros c Hc. apply in_map_iff in Hc as (r & <- & Hr).
    now apply Hnull. }
  pose proof (has_column_positions _ _ _ _ Hp) as Hhas.
  split; [|split]; intros ->.
  - unfold _get_salinity_range, guarded, has_column. rewrite Hhas, Hcol. cbn [obind].
    now rewrite Hdrop.
  - unfold _get_temp_range, guarded, has_column. rewrite Hhas, Hcol. cbn [obind].
    unfold col_min, col_max, col_mean. now rewrite Hdrop.
  - unfold _get_depth_range, guarded, has_column. rewrite Hhas, Hcol. cbn [obind].
    unfold col_min, col_max. now rewrite Hdrop.
Qed.

Lemma all_null_column_ranges_witness :
  _get_temp_range exact_mean {| columns := ["float_id"; "temperature_celsius"];
                                rows := [[Some 7; None]; [Some 8; None]] |}
  = {| smin := None; smax := None; smean := None |}.
Proof.
  refine (proj1 (proj2 (all_null_column_ranges exact_mean
            {| columns := ["float_id"; "temperature_celsius"];
               rows := [[Some 7; None]; [Some 8; None]] |}
            "temperature_celsius" 1 eq_refl _)) eq_refl).
  intros row [<- | [<- | []]]; reflexivity.
Defined.

End SummaryRanges.

(** ** The orchestrator, further *)

Section OrchestratorPaths.

Import Text Num Frame Summary Pipeline Invariants.
Import SQLQueryGenerator(Metadata).

Lemma visualization_stage_trace (console : Console) (self : Self) (df : DataFrame)
    (user_query : string) :
  exists o, visualization_stage console self df user_query = ([Visualization], o).
Proof.
  unfold visualization_stage, try_except, enter, mbind, say.
  destruct (m_generate_plots_from_data (plot_generator self) df user_query) as [pr|e];
    [eauto|].
  destruct (console e); cbn [mret app]; eauto.
Qed.

Lemma non_empty_has_rows (df : DataFrame) : empty df = false -> (1 <= len df)%nat.
Proof.
  unfold empty, len. destruct (columns df); [discriminate|].
  destruct (rows df); [discriminate|]. cbn. lia.
Qed.

Lemma sql_stage_trace (console : Console) (self : Self) (user_query : string) :
  exists o,
    sql_stage console self user_query
    = (match sql_generator self with Some _ => [SqlGeneration] | None => [] end, o).
Proof.
  unfold sql_stage.
  destruct (sql_generator self) as [gen|]; [|unfold mret; eauto].
  unfold mbind at 1, enter.
  destruct (m_generate_sql_query gen user_query) as [generated|]; [|eauto].
  unfold mbind, say.
  destruct (console (substring 0 100 (fst generated))); cbn [mret app]; eauto.
Qed.

(** The stages and the responses of the [try] block. *)
Lemma process_body_stages (console : Console) (mean : Mean) (self : Self) (clock : Clock)
    (user_query : string) (tr : list stage) (o : outcome Response) :
  process_body console mean self clock user_query = (tr, o) ->
  (exists k, tr = firstn k (stages_of self)) /\
  (forall r, o = Returned r ->
     Pipeline.user_query r = user_query /\
     (success r = true ->
        tr = stages_of self /\
        error r = None /\
        timestamp r = Some (stamp clock) /\
        exists ds, data_summary r = FullSummary ds /\ (1 <= total_records ds)%nat)).
Proof.
  unfold process_body, mbind at 1.
  destruct (sql_stage_trace console self user_query) as [o0 ->].
  assert (Hk : forall k, (k <= 4)%nat ->
            exists k', match sql_generator self with
                       | Some _ => [SqlGeneration]
                       | None => []
                       end ++ firstn k [Retrieval; Visualization; Summarization; Narration]
                       = firstn k' (stages_of self)).
  { intros k Hk. unfold stages_of. destruct (sql_generator self).
    - exists (S k). reflexivity.
    - exists k. reflexivity. }
  assert (Hall : match sql_generator self with
                 | Some _ => [SqlGeneration]
                 | None => []
                 end ++ [Retrieval; Visualization; Summarization; Narration]
                 = stages_of self).
  { unfold stages_of. now destruct (sql_generator self). }
  set (tr0 := match sql_generator self with Some _ => [SqlGeneration] | None => [] end)
    in *.
  destruct o0 as [[sql md]|e].
  2: { intros [= <- <-]. split; [|discriminate]. destruct (Hk 0%nat) as [k' Hk']; [lia|].
       exists k'. rewrite <- Hk'. cbn [firstn]. now rewrite app_nil_r. }
  unfold mbind at 1, enter at 1.
  destruct (m_fetch_data_from_db (plot_generator self) sql) as [df|e].
  2: { intros [= <- <-]. split; [|discriminate]. apply (Hk 1%nat). lia. }
  destruct (empty df) eqn:Hne; cbn [mret].
  { intros [= <- <-]. rewrite ?app_nil_r. cbn [app]. split; [apply (Hk 1%nat); lia|].
    intros r [= <-]. split; [reflexivity|]. discriminate. }
  unfold mbind at 1.
  destruct (visualization_stage_trace console self df user_query) as [ov ->].
  destruct ov as [pr|e].
  2: { intros [= <- <-]. split; [|discriminate]. apply (Hk 2%nat). lia. }
  unfold mbind at 1, enter at 1. unfold mbind at 1.
  assert (Hn : exists on,
             narration_stage self user_query md (build_data_summary mean df)
             = ([Narration], on)).
  { unfold narration_stage, enter. destruct (chatbot self); eauto. }
  destruct Hn as [on ->].
  destruct on as [text|e]; cbn [mret]; rewrite ?app_nil_r; cbn [app];
    intros [= <- <-]; rewrite Hall.
  - split; [exists (List.length (stages_of self)); now rewrite firstn_all|].
    intros r [= <-]. split; [reflexivity|]. intros _.
    repeat split. eexists. split; [reflexivity|].
    cbn [build_data_summary total_records]. now apply non_empty_has_rows.
  - split; [|discriminate].
    exists (List.length (stages_of self)). now rewrite firstn_all.
Qed.

(** X13: the stages are entered in the order query generation, retrieval,
    visualization, summarization, narration, each at most once and none
    skipped before the last one entered; a response with [success = true]
    went through all of them and carries the full data summary of a table
    with at least one record, and a time stamp. *)
Theorem process_user_query_stage_order :
  forall (console : Console) (mean : Mean) (self : Self) (clock : Clock)
         (user_query : string),
    let tr := fst (process_user_query console mean self clock user_query) in
    (exists k, tr = firstn k (stages_of self)) /\
    (forall r,
       snd (process_user_query console mean self clock user_query) = Returned r ->
       Pipeline.user_query r = user_query /\
       (success r = true ->
          tr = stages_of self /\
          error r = None /\
          timestamp r = Some (stamp clock) /\
          exists ds, data_summary r = FullSummary ds /\ (1 <= total_records ds)%nat)).
Proof.
  intros console mean self clock user_query tr. unfold tr.
  destruct (console user_query) as [[]|e0] eqn:Hq.
  - rewrite (process_user_query_printed _ _ _ _ _ Hq).
    unfold try_except, mbind, say.
    destruct (process_body console mean self clock user_query) as [trb ob] eqn:Hb.
    destruct (process_body_stages _ _ _ _ _ _ _ Hb) as [Hk Hr].
    destruct ob as [r|e]; cbn [fst snd] in *.
    + split; [exact Hk | exact Hr].
    + clear Hr. destruct (console e) as [[]|e1]; cbn [mret fst snd]; rewrite ?app_nil_r.
      * split; [exact Hk|]. intros r [= <-]. split; [reflexivity|]. discriminate.
      * split; [exact Hk | discriminate].
  - rewrite (process_user_query_unprinted _ _ _ _ _ _ Hq). cbn [fst snd].
    split; [now exists 0%nat | discriminate].
Qed.

Lemma process_user_query_stage_order_witness :
  fst (process_user_query plain_console exact_mean small_self noon "warm water")
  = [Retrieval; Visualization; Summarization; Narration].
Proof.
  assert (E : exists r, snd (process_user_query plain_console exact_mean small_self noon
                               "warm water")
                        = Returned r /\ success r = true)
    by (vm_compute; eexists; split; reflexivity).
  destruct E as (r & E1 & E2).
  destruct (proj2 (process_user_query_stage_order plain_console exact_mean small_self
                     noon "warm water") r E1)
    as [_ H].
  exact (proj1 (H E2)).
Defined.

Lemma fetch_returns_when_printed (console : Console) (db : PlotGenerator.Database)
    (to_datetime : PlotGenerator.ToDatetime) (draws : PlotGenerator.Draws)
    (sql_query : string) :
  (forall text, console text = Returned tt) ->
  exists df,
    PlotGenerator.fetch_data_from_db console db to_datetime draws sql_query = Returned df.
Proof.
  intros Hquiet. unfold PlotGenerator.fetch_data_from_db. rewrite Hquiet. cbn [obind].
  destruct (PlotGenerator.fetch_body db to_datetime sql_query); [eauto|].
  rewrite Hquiet. cbn [obind]. eauto.
Qed.

(** X14: in the pipeline built by [__init__], when every print returns, the
    [try] block of [process_user_query] never raises: every query gets the
    "no data" response or the complete response, without an error text,
    and [success] is false exactly when the fetched table is empty. *)
Theorem init_pipeline_errors_only_from_prints :
  forall (ext : Externals) (clock : Clock) (user_query : string),
    (forall text, stdout ext text = Returned tt) ->
    exists tr0 sql_query sql_metadata df tr r,
      sql_stage (stdout ext) (init ext) user_query
        = (tr0, Returned (sql_query, sql_metadata)) /\
      PlotGenerator.fetch_data_from_db (stdout ext) (database ext) (to_datetime ext)
        (draws ext) sql_query = Returned df /\
      process_body (stdout ext) (series_mean ext) (init ext) clock user_query
        = (tr, Returned r) /\
      run ext clock user_query = (tr, Returned r) /\
      error r = None /\
      success r = negb (empty df) /\
      (success r = false -> r = _handle_no_data_response user_query sql_metadata).
Proof.
  intros ext clock user_query Hquiet.
  destruct (init_sql_stage_returns ext user_query Hquiet) as (tr0 & sql & md & Hsql).
  destruct (fetch_returns_when_printed (stdout ext) (database ext) (to_datetime ext)
              (draws ext) sql Hquiet) as [df Hdf].
  exists tr0, sql, md, df.
  assert (Hviz : exists pr, visualization_stage (stdout ext) (init ext) df user_query
                            = ([Visualization], Returned pr)).
  { unfold visualization_stage, try_except, enter, mbind, say.
    destruct (m_generate_plots_from_data (plot_generator (init ext)) df user_query);
      [eauto|].
    rewrite Hquiet. cbn [mret app]. eauto. }
  assert (Hbody : exists tr r,
             process_body (stdout ext) (series_mean ext) (init ext) clock user_query
             = (tr, Returned r) /\
             error r = None /\ success r = negb (empty df) /\
             (success r = false -> r = _handle_no_data_response user_query md)).
  { unfold process_body, mbind at 1. rewrite Hsql.
    unfold mbind at 1, enter at 1. rewrite init_fetch, Hdf.
    destruct (empty df) eqn:He; cbn [mret].
    - eexists _, _. split; [reflexivity|]. repeat split.
    - destruct Hviz as [pr Hviz]. unfold mbind at 1. rewrite Hviz.
      destruct (init_narration_returns ext user_query md
                  (build_data_summary (series_mean ext) df)) as [text Hn].
      unfold mbind at 1, enter at 1. unfold mbind at 1. rewrite Hn.
      eexists _, _. split; [reflexivity|]. repeat split. discriminate. }
  destruct Hbody as (tr & r & Hb & He & Hs & Hn).
  exists tr, r. split; [assumption|]. split; [assumption|]. split; [assumption|].
  split; [|auto]. unfold run.
  rewrite (process_user_query_printed _ _ _ _ _ (Hquiet user_query)).
  unfold try_except. now rewrite Hb.
Qed.

Lemma init_pipeline_errors_only_from_prints_witness :
  exists tr r,
    run broken_externals noon "salinity near chennai" = (tr, Returned r) /\
    error r = None.
Proof.
  destruct (init_pipeline_errors_only_from_prints broken_externals noon
              "salinity near chennai" (fun _ => eq_refl))
    as (tr0 & sql & md & df & tr & r & _ & _ & _ & Hrun & He & _).
  exists tr, r. split; assumption.
Defined.

End OrchestratorPaths.
